(** * Verification of the .superthink rule engine

    A shallow embedding of the static-analysis rules in
    [.superthink/rules/*.py] and of the event profiler in
    [.superthink/scanners/performance_profiler.py], and proofs about what
    they report.  [.superthink/scanners/deep_scan.py] does not compile and
    is not embedded.

    Conventions of the embedding:
    - Python [str] is [string]; characters are the code points below 256
      that Rocq's [ascii] holds, and case mapping is the ASCII one.
    - Python [int] counters that the code decrements are [Z]; line numbers
      and list positions are [nat].
    - A record of the checks keeps the fields a check decides on
      (severity, rule or category, file path, line number, scores); the
      free-text fields (message, snippet, suggested fix) are derived from
      the same data and are left out.
    - [re] patterns are values of [Regex.regex], matched by a backtracking
      matcher that explores alternatives in the order Python's [re] does. *)

From Stdlib Require Import List String Ascii ZArith Lia Bool Arith PeanoNat.
From Stdlib Require Import Floats.SpecFloat.
From stdpp Require Import gmap strings.
Import ListNotations.

Local Open Scope string_scope.
Local Open Scope list_scope.
Local Open Scope nat_scope.

(** ** Python string primitives *)

Module PyStr.

(** [s.startswith(p)] *)
Fixpoint startswith (s p : string) {struct p} : bool :=
  match p with
  | EmptyString => true
  | String a p' =>
      match s with
      | EmptyString => false
      | String b s' => Ascii.eqb a b && startswith s' p'
      end
  end.

(** [sub in s] *)
Fixpoint contains (sub s : string) : bool :=
  startswith s sub ||
  match s with
  | EmptyString => false
  | String _ s' => contains sub s'
  end.

(** [c.lower()] on one character *)
Definition lower_char (c : ascii) : ascii :=
  let n := nat_of_ascii c in
  if (65 <=? n) && (n <=? 90) then ascii_of_nat (n + 32) else c.

(** [s.lower()] *)
Fixpoint lower (s : string) : string :=
  match s with
  | EmptyString => EmptyString
  | String c s' => String (lower_char c) (lower s')
  end.

(** [c.isspace()]: tab, line feed, vertical tab, form feed, carriage
    return, the separators 28-31, space, NEL and the no-break space. *)
Definition isspace (c : ascii) : bool :=
  let n := nat_of_ascii c in
  ((9 <=? n) && (n <=? 13)) || ((28 <=? n) && (n <=? 32))
  || (n =? 133) || (n =? 160).

(** [s.lstrip()] *)
Fixpoint lstrip (s : string) : string :=
  match s with
  | String c s' => if isspace c then lstrip s' else s
  | EmptyString => EmptyString
  end.

(** [s.strip().startswith(p)] for a non-empty [p] that does not start
    with whitespace: the right strip cannot change the answer. *)
Definition strip_startswith (s p : string) : bool := startswith (lstrip s) p.

(** [s.split('\n')] *)
Fixpoint split_nl_aux (cur : string) (s : string) : list string :=
  match s with
  | EmptyString => [String.rev cur]
  | String c s' =>
      if Ascii.eqb c "010"%char
      then String.rev cur :: split_nl_aux EmptyString s'
      else split_nl_aux (String c cur) s'
  end.

Definition split_nl (s : string) : list string := split_nl_aux EmptyString s.

(** ['\n'.join(l)] *)
Fixpoint join_nl (l : list string) : string :=
  match l with
  | [] => EmptyString
  | [x] => x
  | x :: rest => String.append x (String "010"%char (join_nl rest))
  end.

(** [s.count(c)] for a one-character [c] *)
Fixpoint count_char (c : ascii) (s : string) : nat :=
  match s with
  | EmptyString => 0
  | String x s' => (if Ascii.eqb x c then 1 else 0) + count_char c s'
  end.

(** [l[lo:hi]] for non-negative [lo] and [hi] *)
Definition slice {A} (l : list A) (lo hi : nat) : list A :=
  firstn (hi - lo) (skipn lo l).

(** [enumerate(l, start)] *)
Fixpoint enumerate_from {A} (start : nat) (l : list A) : list (nat * A) :=
  match l with
  | [] => []
  | x :: rest => (start, x) :: enumerate_from (S start) rest
  end.

End PyStr.

(** ** Regular expressions, as Python's [re] matches them *)

Module Regex.

Inductive regex : Type :=
| Eps
| Chr (p : ascii -> bool)
| Seq (a b : regex)
| Alt (a b : regex)
| Star (a : regex).

(** [ends r s] lists the remainders of [s] after each way [r] can match a
    prefix of [s], in the order a backtracking matcher tries them: the
    left branch of [a|b] first, and as many iterations of [a*] as possible
    first.  An iteration of [a*] that consumes nothing ends the loop. *)
Fixpoint ends (r : regex) (s : string) : list string :=
  match r with
  | Eps => [s]
  | Chr p =>
      match s with
      | String c s' => if p c then [s'] else []
      | EmptyString => []
      end
  | Seq a b => flat_map (ends b) (ends a s)
  | Alt a b => ends a s ++ ends b s
  | Star a =>
      (fix star (n : nat) (s : string) {struct n} : list string :=
         match n with
         | O => [s]
         | S n' =>
             flat_map (fun s' => if String.length s' <? String.length s
                                 then star n' s' else []) (ends a s)
             ++ [s]
         end) (String.length s) s
  end.

(** [re.match(r, s)]: the remainder after the preferred match at the
    start of [s] *)
Definition match_at (r : regex) (s : string) : option string :=
  match ends r s with
  | rest :: _ => Some rest
  | [] => None
  end.

(** [re.search(r, s) is not None] *)
Fixpoint search (r : regex) (s : string) : bool :=
  match match_at r s with
  | Some _ => true
  | None =>
      match s with
      | EmptyString => false
      | String _ s' => search r s'
      end
  end.

(** the text of a match of [s] that leaves [rest] *)
Definition matched (s rest : string) : string :=
  String.substring 0 (String.length s - String.length rest) s.

(** [re.finditer(r, s)]: the texts of the non-overlapping matches, from
    left to right.  Every step consumes a character, so [fuel] above the
    length of [s] is enough. *)
Fixpoint finditer_fuel (fuel : nat) (r : regex) (s : string) : list string :=
  match fuel with
  | O => []
  | S fuel' =>
      let skip := match s with
                  | EmptyString => []
                  | String _ s' => finditer_fuel fuel' r s'
                  end in
      match match_at r s with
      | Some rest =>
          if String.length rest <? String.length s
          then matched s rest :: finditer_fuel fuel' r rest
          else matched s rest :: skip
      | None => skip
      end
  end.

Definition finditer (r : regex) (s : string) : list string :=
  finditer_fuel (S (String.length s)) r s.

(** *** Pattern syntax *)

(** a literal string *)
Fixpoint lit (s : string) : regex :=
  match s with
  | EmptyString => Eps
  | String c EmptyString => Chr (Ascii.eqb c)
  | String c s' => Seq (Chr (Ascii.eqb c)) (lit s')
  end.

(** a literal string under [re.IGNORECASE] *)
Fixpoint lit_i (s : string) : regex :=
  match s with
  | EmptyString => Eps
  | String c EmptyString =>
      Chr (fun x => Ascii.eqb (PyStr.lower_char x) (PyStr.lower_char c))
  | String c s' =>
      Seq (Chr (fun x => Ascii.eqb (PyStr.lower_char x) (PyStr.lower_char c)))
          (lit_i s')
  end.

Definition is_digit (c : ascii) : bool :=
  let n := nat_of_ascii c in (48 <=? n) && (n <=? 57).

Definition is_alpha (c : ascii) : bool :=
  let n := nat_of_ascii c in
  ((65 <=? n) && (n <=? 90)) || ((97 <=? n) && (n <=? 122)).

(** [[a-zA-Z0-9]] *)
Definition is_alnum (c : ascii) : bool := is_alpha c || is_digit c.

(** [[a-zA-Z0-9_]] *)
Definition is_ascii_word (c : ascii) : bool :=
  is_alnum c || Ascii.eqb c "_"%char.

(** [\w] on a [str]: the class above and, from 128 to 255, the letters and
    numerals of Latin-1, which are the code points 170, 178-179, 181,
    185-186, 188-190, 192-214, 216-246 and 248-255 *)
Definition is_word (c : ascii) : bool :=
  let n := nat_of_ascii c in
  is_ascii_word c
  || (n =? 170) || ((178 <=? n) && (n <=? 179)) || (n =? 181)
  || ((185 <=? n) && (n <=? 186)) || ((188 <=? n) && (n <=? 190))
  || ((192 <=? n) && (n <=? 214)) || ((216 <=? n) && (n <=? 246))
  || ((248 <=? n) && (n <=? 255)).

(** [.]: anything but a line feed *)
Definition is_dot (c : ascii) : bool := negb (Ascii.eqb c "010"%char).

(** membership in a bracket class given by its characters *)
Fixpoint in_class (cls : string) (c : ascii) : bool :=
  match cls with
  | EmptyString => false
  | String x cls' => Ascii.eqb c x || in_class cls' c
  end.

(** the double and the single quote character, codes 34 and 39 *)
Definition is_quote (c : ascii) : bool :=
  Ascii.eqb c "034"%char || Ascii.eqb c "039"%char.

Definition ws : regex := Chr PyStr.isspace.          (* \s *)
Definition digit : regex := Chr is_digit.            (* \d *)
Definition word : regex := Chr is_word.              (* \w *)
Definition dot : regex := Chr is_dot.                (* . *)
Definition plus (a : regex) : regex := Seq a (Star a).   (* a+ *)

(** [a{n,}] *)
Fixpoint at_least (n : nat) (a : regex) : regex :=
  match n with
  | O => Star a
  | S n' => Seq a (at_least n' a)
  end.

(** [a b c ...] *)
Fixpoint seqs (l : list regex) : regex :=
  match l with
  | [] => Eps
  | [a] => a
  | a :: l' => Seq a (seqs l')
  end.

(** [a|b|c ...] *)
Fixpoint alts (l : list regex) : regex :=
  match l with
  | [] => Chr (fun _ => false)
  | [a] => a
  | a :: l' => Alt a (alts l')
  end.

End Regex.


(** ** The syntax tree of [ast] and [ast.NodeVisitor] *)

Module PyAst.

(** The node classes the visitors name, and [Other] for every other class
    (statements and expressions alike).  Children are kept in the order of
    the class's [_fields], which is the order [generic_visit] follows.
    The [ctx] nodes of [Name] and [Attribute] have no children and no
    visitor method, and are left out; so are the [type_params] that
    Python 3.12 adds at the end of a function definition. *)
#[local] Unset Elimination Schemes.
Inductive node : Type :=
| Module (body : list node)
| FunctionDef (lineno : nat) (name : string) (args : node)
    (body : list node) (decorator_list : list node) (returns : option node)
| AsyncFunctionDef (lineno : nat) (name : string) (args : node)
    (body : list node) (decorator_list : list node) (returns : option node)
| For (lineno : nat) (target iter : node) (body orelse : list node)
| While (lineno : nat) (test : node) (body orelse : list node)
| Call (lineno : nat) (func : node) (args keywords : list node)
| Name (lineno : nat) (id : string)
| Attribute (lineno : nat) (value : node) (attr : string)
| Other (lineno : nat) (children : list node).
#[local] Set Elimination Schemes.

Section NodeVisitor.

Context {St : Type}.

(** [method n] is the visitor's [visit_<class of n>] when the visitor
    defines one; it receives [self.generic_visit(n)] as a state
    transformer. *)
Variable method : node -> option ((St -> St) -> St -> St).

(** [NodeVisitor.visit] *)
Fixpoint visit (n : node) (st : St) : St :=
  let visit_list := fun (l : list node) (s : St) =>
                      fold_left (fun s c => visit c s) l s in
  let visit_opt := fun (o : option node) (s : St) =>
                     match o with Some c => visit c s | None => s end in
  let generic_visit := fun (s : St) =>
    match n with
    | Module body => visit_list body s
    | FunctionDef _ _ args body decorator_list returns
    | AsyncFunctionDef _ _ args body decorator_list returns =>
        visit_opt returns
          (visit_list decorator_list (visit_list body (visit args s)))
    | For _ target iter body orelse =>
        visit_list orelse (visit_list body (visit iter (visit target s)))
    | While _ test body orelse =>
        visit_list orelse (visit_list body (visit test s))
    | Call _ func args keywords =>
        visit_list keywords (visit_list args (visit func s))
    | Name _ _ => s
    | Attribute _ value _ => visit value s
    | Other _ children => visit_list children s
    end in
  match method n with
  | Some visit_method => visit_method generic_visit st
  | None => generic_visit st
  end.

Definition visit_list (l : list node) (s : St) : St :=
  fold_left (fun s c => visit c s) l s.

Definition visit_opt (o : option node) (s : St) : St :=
  match o with Some c => visit c s | None => s end.

(** [NodeVisitor.generic_visit] *)
Definition generic_visit (n : node) (s : St) : St :=
  match n with
  | Module body => visit_list body s
  | FunctionDef _ _ args body decorator_list returns
  | AsyncFunctionDef _ _ args body decorator_list returns =>
      visit_opt returns
        (visit_list decorator_list (visit_list body (visit args s)))
  | For _ target iter body orelse =>
      visit_list orelse (visit_list body (visit iter (visit target s)))
  | While _ test body orelse =>
      visit_list orelse (visit_list body (visit test s))
  | Call _ func args keywords =>
      visit_list keywords (visit_list args (visit func s))
  | Name _ _ => s
  | Attribute _ value _ => visit value s
  | Other _ children => visit_list children s
  end.

End NodeVisitor.

(** [ast.iter_child_nodes(n)] *)
Definition children (n : node) : list node :=
  match n with
  | Module body => body
  | FunctionDef _ _ args body decorator_list returns
  | AsyncFunctionDef _ _ args body decorator_list returns =>
      args :: body ++ decorator_list
           ++ match returns with Some r => [r] | None => [] end
  | For _ target iter body orelse => target :: iter :: body ++ orelse
  | While _ test body orelse => test :: body ++ orelse
  | Call _ func args keywords => func :: args ++ keywords
  | Name _ _ => []
  | Attribute _ value _ => [value]
  | Other _ children => children
  end.

(** [ast.walk(n)], in the order a visitor reaches the nodes *)
Fixpoint subnodes (n : node) : list node :=
  n ::
  match n with
  | Module body => flat_map subnodes body
  | FunctionDef _ _ args body decorator_list returns
  | AsyncFunctionDef _ _ args body decorator_list returns =>
      subnodes args ++ flat_map subnodes body
      ++ flat_map subnodes decorator_list
      ++ match returns with Some r => subnodes r | None => [] end
  | For _ target iter body orelse =>
      subnodes target ++ subnodes iter ++ flat_map subnodes body
      ++ flat_map subnodes orelse
  | While _ test body orelse =>
      subnodes test ++ flat_map subnodes body ++ flat_map subnodes orelse
  | Call _ func args keywords =>
      subnodes func ++ flat_map subnodes args ++ flat_map subnodes keywords
  | Name _ _ => []
  | Attribute _ value _ => subnodes value
  | Other _ children => flat_map subnodes children
  end.

(** induction on a node from its children *)
Section NodeInduction.

Variable P : node -> Prop.
Hypothesis step : forall n, Forall P (children n) -> P n.

Fixpoint node_children_ind (n : node) : P n :=
  let all := fix all (l : list node) : Forall P l :=
    match l with
    | [] => @List.Forall_nil _ P
    | x :: l' => @List.Forall_cons _ P x _ (node_children_ind x) (all l')
    end in
  let opt := fun (o : option node) =>
    match o return Forall P (match o with Some r => [r] | None => [] end) with
    | Some r => @List.Forall_cons _ P r _ (node_children_ind r) (@List.Forall_nil _ P)
    | None => @List.Forall_nil _ P
    end in
  step n
    match n return Forall P (children n) with
    | Module body => all body
    | FunctionDef _ _ args body decorator_list returns
    | AsyncFunctionDef _ _ args body decorator_list returns =>
        @List.Forall_cons _ P args _ (node_children_ind args)
          (proj2 (@List.Forall_app _ P _ _)
             (conj (all body)
                (proj2 (@List.Forall_app _ P _ _)
                   (conj (all decorator_list) (opt returns)))))
    | For _ target iter body orelse =>
        @List.Forall_cons _ P target _ (node_children_ind target)
          (@List.Forall_cons _ P iter _ (node_children_ind iter)
             (proj2 (@List.Forall_app _ P _ _) (conj (all body) (all orelse))))
    | While _ test body orelse =>
        @List.Forall_cons _ P test _ (node_children_ind test)
          (proj2 (@List.Forall_app _ P _ _) (conj (all body) (all orelse)))
    | Call _ func args keywords =>
        @List.Forall_cons _ P func _ (node_children_ind func)
          (proj2 (@List.Forall_app _ P _ _) (conj (all args) (all keywords)))
    | Name _ _ => @List.Forall_nil _ P
    | Attribute _ value _ =>
        @List.Forall_cons _ P value _ (node_children_ind value) (@List.Forall_nil _ P)
    | Other _ cs => all cs
    end.

End NodeInduction.

Definition is_loop (n : node) : bool :=
  match n with
  | For _ _ _ _ _ | While _ _ _ _ => true
  | _ => false
  end.

Definition is_function_def (n : node) : bool :=
  match n with
  | FunctionDef _ _ _ _ _ _ => true
  | _ => false
  end.

End PyAst.

(** ** rules/performance_rules.py *)

Module PerformanceRules.
Import PyAst.

Inductive Severity : Type := CRITICAL | HIGH | MEDIUM | LOW.

Record PerformanceIssue : Type := mkIssue {
  severity : Severity;
  rule : string;
  file_path : string;
  line_number : nat;
  auto_fixable : bool
}.

(** [_get_call_name], the same static method in [QueryPatternDetector] and
    [AsyncAwaitValidator]; it is only ever applied to [Call] nodes. *)
Definition _get_call_name (n : node) : string :=
  match n with
  | Call _ (Name _ id) _ _ => id
  | Call _ (Attribute _ _ attr) _ _ => attr
  | _ => "unknown"
  end.

Definition node_lineno (n : node) : nat :=
  match n with
  | Module _ => 0
  | FunctionDef l _ _ _ _ _ | AsyncFunctionDef l _ _ _ _ _ => l
  | For l _ _ _ _ | While l _ _ _ | Call l _ _ _ => l
  | Name l _ | Attribute l _ _ | Other l _ => l
  end.

(** *** class QueryPatternDetector *)

Module QueryPatternDetector.

Record state : Type := mkState {
  issues : list PerformanceIssue;
  in_loop : bool;
  loop_depth : Z
}.

Definition init : state :=
  {| issues := []; in_loop := false; loop_depth := 0 |}.

Definition db_patterns : list string :=
  ["query"; "execute"; "fetch"; "get_by_id"; "select";
   "find"; "filter"; "all"; "count"; "aggregate";
   "db.session"; "db.query"; "db.execute"].

(** [any(pattern in call_name.lower() for pattern in db_patterns)] *)
Definition is_db_call (call_name : string) : bool :=
  existsb (fun pattern => PyStr.contains pattern (PyStr.lower call_name))
          db_patterns.

(** [visit_For] and [visit_While] have the same body. *)
Definition visit_loop (generic_visit : state -> state) (self : state) : state :=
  let self := {| issues := issues self; in_loop := true;
                 loop_depth := (loop_depth self + 1)%Z |} in
  let self := generic_visit self in
  let self := {| issues := issues self; in_loop := in_loop self;
                 loop_depth := (loop_depth self - 1)%Z |} in
  if (loop_depth self =? 0)%Z
  then {| issues := issues self; in_loop := false;
          loop_depth := loop_depth self |}
  else self.

Definition visit_For := visit_loop.
Definition visit_While := visit_loop.

Definition visit_Call (file_path : string) (n : node)
    (generic_visit : state -> state) (self : state) : state :=
  let self :=
    if in_loop self then
      let call_name := _get_call_name n in
      if is_db_call call_name then
        let severity := if (loop_depth self >? 1)%Z then CRITICAL else HIGH in
        {| issues := issues self ++
                     [mkIssue severity "N+1 Query Pattern" file_path
                              (node_lineno n) false];
           in_loop := in_loop self;
           loop_depth := loop_depth self |}
      else self
    else self in
  generic_visit self.

Definition method (file_path : string) (n : node)
    : option ((state -> state) -> state -> state) :=
  match n with
  | For _ _ _ _ _ => Some visit_For
  | While _ _ _ _ => Some visit_While
  | Call _ _ _ _ => Some (visit_Call file_path n)
  | _ => None
  end.

(** [d = QueryPatternDetector(file_path); d.visit(tree); d.issues] *)
Definition run (file_path : string) (tree : node) : list PerformanceIssue :=
  issues (visit (method file_path) tree init).

End QueryPatternDetector.

(** *** class AlgorithmComplexityAnalyzer *)

Module AlgorithmComplexityAnalyzer.

Record state : Type := mkState {
  issues : list PerformanceIssue;
  current_function : option node;
  nested_loops : Z;
  max_nesting : Z
}.

Definition init : state :=
  {| issues := []; current_function := None;
     nested_loops := 0; max_nesting := 0 |}.

Definition visit_FunctionDef (file_path : string) (n : node)
    (body : list node) (generic_visit : state -> state) (self : state)
    : state :=
  let func_length := List.length body in
  let self := {| issues :=
                   if 100 <? func_length
                   then issues self ++
                        [mkIssue MEDIUM "Function Complexity" file_path
                                 (node_lineno n) false]
                   else issues self;
                 current_function := Some n;
                 nested_loops := 0;
                 max_nesting := 0 |} in
  let self := generic_visit self in
  {| issues := issues self; current_function := None;
     nested_loops := nested_loops self; max_nesting := max_nesting self |}.

Definition visit_For (file_path : string) (n : node)
    (generic_visit : state -> state) (self : state) : state :=
  let nested := (nested_loops self + 1)%Z in
  let self := {| issues :=
                   if (nested >=? 3)%Z
                   then issues self ++
                        [mkIssue (if (nested >=? 4)%Z then HIGH else MEDIUM)
                                 "Deeply Nested Loops" file_path
                                 (node_lineno n) false]
                   else issues self;
                 current_function := current_function self;
                 nested_loops := nested;
                 max_nesting := Z.max (max_nesting self) nested |} in
  let self := generic_visit self in
  {| issues := issues self; current_function := current_function self;
     nested_loops := (nested_loops self - 1)%Z;
     max_nesting := max_nesting self |}.

Definition visit_While (file_path : string) (n : node)
    (generic_visit : state -> state) (self : state) : state :=
  let nested := (nested_loops self + 1)%Z in
  let self := {| issues :=
                   if (nested >=? 3)%Z
                   then issues self ++
                        [mkIssue MEDIUM "Deeply Nested Loops" file_path
                                 (node_lineno n) false]
                   else issues self;
                 current_function := current_function self;
                 nested_loops := nested;
                 max_nesting := Z.max (max_nesting self) nested |} in
  let self := generic_visit self in
  {| issues := issues self; current_function := current_function self;
     nested_loops := (nested_loops self - 1)%Z;
     max_nesting := max_nesting self |}.

Definition method (file_path : string) (n : node)
    : option ((state -> state) -> state -> state) :=
  match n with
  | FunctionDef _ _ _ body _ _ => Some (visit_FunctionDef file_path n body)
  | For _ _ _ _ _ => Some (visit_For file_path n)
  | While _ _ _ _ => Some (visit_While file_path n)
  | _ => None
  end.

Definition run (file_path : string) (tree : node) : list PerformanceIssue :=
  issues (visit (method file_path) tree init).

End AlgorithmComplexityAnalyzer.

(** *** class AsyncAwaitValidator *)

Module AsyncAwaitValidator.

Record state : Type := mkState {
  issues : list PerformanceIssue;
  in_async_function : bool
}.

Definition init : state := {| issues := []; in_async_function := false |}.

Definition visit_AsyncFunctionDef (generic_visit : state -> state)
    (self : state) : state :=
  let self := {| issues := issues self; in_async_function := true |} in
  let self := generic_visit self in
  {| issues := issues self; in_async_function := false |}.

Definition visit_Call (file_path : string) (n : node)
    (generic_visit : state -> state) (self : state) : state :=
  let call_name := _get_call_name n in
  let self :=
    if in_async_function self
       && existsb (String.eqb call_name)
                  ["sleep"; "wait"; "fetch"; "query"; "execute"]
    then {| issues := issues self ++
                      [mkIssue HIGH "Async Pattern" file_path
                               (node_lineno n) false];
            in_async_function := in_async_function self |}
    else self in
  generic_visit self.

Definition method (file_path : string) (n : node)
    : option ((state -> state) -> state -> state) :=
  match n with
  | AsyncFunctionDef _ _ _ _ _ _ => Some visit_AsyncFunctionDef
  | Call _ _ _ _ => Some (visit_Call file_path n)
  | _ => None
  end.

Definition run (file_path : string) (tree : node) : list PerformanceIssue :=
  issues (visit (method file_path) tree init).

End AsyncAwaitValidator.

(** *** class MemoryLeakDetector *)

Module MemoryLeakDetector.

(** [open\s*\(] *)
Definition open_pattern : Regex.regex :=
  Regex.seqs [Regex.lit "open"; Regex.Star Regex.ws; Regex.lit "("].

(** The body of the loop of [_check_file_handles] at index [i].  The
    inner test reads [self.lines[i-1]] only when [i > 0]. *)
Definition file_handle_issue (file_path : string) (lines : list string)
    (il : nat * string) : list PerformanceIssue :=
  let '(i, line) := il in
  if Regex.search open_pattern line && negb (PyStr.contains "with" line) then
    if (0 <? i) && negb (PyStr.contains "with" (nth (i - 1) lines EmptyString)) then
      [mkIssue HIGH "Resource Management" file_path (i + 1) true]
    else []
  else [].

Definition _check_file_handles (file_path : string) (lines : list string)
    : list PerformanceIssue :=
  flat_map (file_handle_issue file_path lines) (PyStr.enumerate_from 0 lines).

Definition unbounded_issue (file_path : string) (lines : list string)
    (il : nat * string) : list PerformanceIssue :=
  let '(i, line) := il in
  if PyStr.contains ".append(" line
     && PyStr.contains "while True"
          (PyStr.join_nl (PyStr.slice lines (i - 10) i))
  then [mkIssue CRITICAL "Unbounded Collection" file_path (i + 1) false]
  else [].

Definition _check_unbounded_collections (file_path : string)
    (lines : list string) : list PerformanceIssue :=
  flat_map (unbounded_issue file_path lines) (PyStr.enumerate_from 0 lines).

(** The loop of [_check_circular_references] stops at its first issue. *)
Fixpoint circular_loop (file_path : string) (lines : list string)
    (todo : list (nat * string)) : list PerformanceIssue :=
  match todo with
  | [] => []
  | (i, line) :: todo' =>
      let context :=
        PyStr.join_nl
          (PyStr.slice lines (i - 5) (Nat.min (List.length lines) (i + 5))) in
      if PyStr.contains "self." line && PyStr.contains "=" line
         && PyStr.contains "self." context
         && (3 <? PyStr.count_char "="%char context)
      then [mkIssue LOW "Potential Circular Reference" file_path (i + 1) false]
      else circular_loop file_path lines todo'
  end.

Definition _check_circular_references (file_path : string)
    (lines : list string) : list PerformanceIssue :=
  circular_loop file_path lines (PyStr.enumerate_from 0 lines).

Definition analyze (file_path content : string) : list PerformanceIssue :=
  let lines := PyStr.split_nl content in
  _check_file_handles file_path lines
  ++ _check_unbounded_collections file_path lines
  ++ _check_circular_references file_path lines.

End MemoryLeakDetector.

(** *** class LatencyValidator *)

Module LatencyValidator.

(** the patterns of [blocking_patterns], in order *)
Definition blocking_patterns : list Regex.regex :=
  [ Regex.Seq (Regex.lit "requests.")
      (Regex.alts [Regex.lit "get"; Regex.lit "post"; Regex.lit "put";
                   Regex.lit "delete"]);
    Regex.lit "time.sleep";
    Regex.Seq (Regex.lit "socket.")
      (Regex.alts [Regex.lit "socket"; Regex.lit "connect"]);
    Regex.Alt (Regex.lit "subprocess.run") (Regex.lit "os.system") ].

Definition blocking_issue (file_path : string) (lines : list string)
    (il : nat * string) : list PerformanceIssue :=
  let '(i, line) := il in
  let context := PyStr.join_nl (PyStr.slice lines (i - 20) i) in
  if PyStr.contains "on_event" context
     || PyStr.contains "handle_event" context
     || PyStr.contains "process_event" context
  then
    flat_map
      (fun pattern =>
         if Regex.search pattern line
         then [mkIssue HIGH "Blocking Operation in Event Handler" file_path
                       (i + 1) false]
         else [])
      blocking_patterns
  else [].

Definition _check_blocking_operations (file_path : string)
    (lines : list string) : list PerformanceIssue :=
  flat_map (blocking_issue file_path lines) (PyStr.enumerate_from 0 lines).

(** [for\s+\w+\s+in\s+range\s*\(\s*\d{6,}] *)
Definition long_loop_pattern : Regex.regex :=
  Regex.seqs [Regex.lit "for"; Regex.plus Regex.ws; Regex.plus Regex.word;
              Regex.plus Regex.ws; Regex.lit "in"; Regex.plus Regex.ws;
              Regex.lit "range"; Regex.Star Regex.ws; Regex.lit "(";
              Regex.Star Regex.ws; Regex.at_least 6 Regex.digit].

Definition long_loop_issue (file_path : string) (il : nat * string)
    : list PerformanceIssue :=
  let '(i, line) := il in
  if Regex.search long_loop_pattern line
  then [mkIssue MEDIUM "Potentially Long Loop" file_path (i + 1) false]
  else [].

Definition _check_long_running_operations (file_path : string)
    (lines : list string) : list PerformanceIssue :=
  flat_map (long_loop_issue file_path) (PyStr.enumerate_from 0 lines).

Definition analyze (file_path content : string) : list PerformanceIssue :=
  let lines := PyStr.split_nl content in
  _check_blocking_operations file_path lines
  ++ _check_long_running_operations file_path lines.

End LatencyValidator.

(** *** class PerformanceValidator *)

Module PerformanceValidator.

(** What [ast.parse(content)] does in the runs [validate] completes: it
    returns a tree or raises [SyntaxError].  [ast.parse] can also raise
    [ValueError] (a null byte in the content), [RecursionError] or
    [MemoryError]; [validate] does not catch these, and they are not
    represented. *)
Inductive parse_result : Type :=
| Parsed (tree : node)
| SyntaxError.

Section Validate.

(** [ast.parse] belongs to the Python library, not to this repository. *)
Variable ast_parse : string -> parse_result.

(** The [try] block of [validate]: the three tree visitors, or nothing
    when [ast.parse] raises [SyntaxError] ([except SyntaxError: pass]). *)
Definition ast_checks (file_path content : string) : list PerformanceIssue :=
  match ast_parse content with
  | Parsed tree =>
      QueryPatternDetector.run file_path tree
      ++ AlgorithmComplexityAnalyzer.run file_path tree
      ++ AsyncAwaitValidator.run file_path tree
  | SyntaxError => []
  end.

(** The checks on the raw content, which run after the [try] block. *)
Definition text_checks (file_path content : string) : list PerformanceIssue :=
  MemoryLeakDetector.analyze file_path content
  ++ LatencyValidator.analyze file_path content.

Definition validate (file_path content : string) : list PerformanceIssue :=
  ast_checks file_path content ++ text_checks file_path content.

End Validate.

(** [issue.severity.value] *)
Definition severity_value (s : Severity) : string :=
  match s with
  | CRITICAL => "critical"
  | HIGH => "high"
  | MEDIUM => "medium"
  | LOW => "low"
  end.

Definition severity_eqb (a b : Severity) : bool :=
  match a, b with
  | CRITICAL, CRITICAL | HIGH, HIGH | MEDIUM, MEDIUM | LOW, LOW => true
  | _, _ => false
  end.

(** [has_critical_issues], on the issues [validate] left in [self.issues] *)
Definition has_critical_issues (issues : list PerformanceIssue) : bool :=
  existsb (fun issue => severity_eqb (severity issue) CRITICAL) issues.

(** the dictionary [by_severity] that [get_summary] fills:
    [by_severity[severity] = by_severity.get(severity, 0) + 1] per issue *)
Definition by_severity (issues : list PerformanceIssue) : gmap string nat :=
  fold_left
    (fun d issue =>
       let severity := severity_value (severity issue) in
       <[severity := default 0 (d !! severity) + 1]> d)
    issues ∅.

(** the four numbers [get_summary] prints:
    [by_severity.get('critical', 0)] and so on *)
Definition get_summary (issues : list PerformanceIssue)
    : nat * nat * nat * nat :=
  let d := by_severity issues in
  (default 0 (d !! "critical"), default 0 (d !! "high"),
   default 0 (d !! "medium"), default 0 (d !! "low")).

End PerformanceValidator.

End PerformanceRules.

(** ** The synthetic files of the loop-depth property

    A file with [k] uniformly nested loops: every loop holds the next one
    in its body, the innermost loop holds the statements [inner]. *)

Module SyntheticFiles.
Import PyAst PerformanceRules.

(** the line of [n] when [n] is a call whose name matches a database
    pattern *)
Definition db_call_line (n : node) : list nat :=
  match n with
  | Call lineno _ _ _ =>
      if QueryPatternDetector.is_db_call (_get_call_name n)
      then [lineno] else []
  | _ => []
  end.

(** the lines of the database calls under [n], in source order *)
Definition db_call_lines (n : node) : list nat :=
  flat_map db_call_line (subnodes n).

(** no [for] and no [while] under [n] *)
Definition loop_free (n : node) : bool :=
  forallb (fun m => negb (is_loop m)) (subnodes n).

(** no [def] under [n] *)
Definition def_free (n : node) : bool :=
  forallb (fun m => negb (is_function_def m)) (subnodes n).


(** The header of one loop of the nest: [for target in iter:] or
    [while test:], the statements of the body before and after the
    nested loop, and the [else] branch. *)
Inductive loop_kind : Type :=
| ForLoop (target iter : node)
| WhileLoop (test : node).

Record loop_header : Type := mkHeader {
  kind : loop_kind;
  lineno : nat;
  before : list node;
  after : list node;
  orelse : list node
}.

Definition header_nodes (h : loop_header) : list node :=
  match kind h with
  | ForLoop target iter => [target; iter]
  | WhileLoop test => [test]
  end ++ before h ++ after h ++ orelse h.


Definition mk_loop (h : loop_header) (nested : list node) : node :=
  match kind h with
  | ForLoop target iter =>
      For (lineno h) target iter (before h ++ nested ++ after h) (orelse h)
  | WhileLoop test =>
      While (lineno h) test (before h ++ nested ++ after h) (orelse h)
  end.

Fixpoint nest (headers : list loop_header) (inner : list node) : list node :=
  match headers with
  | [] => inner
  | h :: headers' => [mk_loop h (nest headers' inner)]
  end.

End SyntheticFiles.

(** ** rules/security_rules.py *)

Module SecurityRules.

Record SecurityIssue : Type := mkIssue {
  severity : string;
  rule : string;
  file_path : string;
  line_number : nat;
  auto_fixable : bool
}.

Module SecurityValidator.

(** [<name>\s*=\s*[quote]([^quote]+)[quote]], the shape of every named
    entry of [API_KEY_PATTERNS] *)
Definition assigned_literal (name : Regex.regex) : Regex.regex :=
  Regex.seqs [name; Regex.Star Regex.ws; Regex.lit "="; Regex.Star Regex.ws;
              Regex.Chr Regex.is_quote;
              Regex.plus (Regex.Chr (fun c => negb (Regex.is_quote c)));
              Regex.Chr Regex.is_quote].

(** [API_KEY_PATTERNS], in the order of the dictionary *)
Definition API_KEY_PATTERNS : list (string * Regex.regex) :=
  [ ("COINBASE_API_KEY", assigned_literal (Regex.lit "COINBASE_API_KEY"));
    ("BINANCE_API_KEY", assigned_literal (Regex.lit "BINANCE_API_KEY"));
    ("KRAKEN_API_KEY", assigned_literal (Regex.lit "KRAKEN_API_KEY"));
    ("ANTHROPIC_API_KEY", assigned_literal (Regex.lit "ANTHROPIC_API_KEY"));
    ("POLYGON_API_KEY", assigned_literal (Regex.lit "POLYGON_API_KEY"));
    ("SUPABASE_KEY",
     assigned_literal
       (Regex.seqs [Regex.lit "SUPABASE_"; Regex.Star Regex.dot;
                    Regex.lit "_KEY"]));
    ("aws_access_key", assigned_literal (Regex.lit "aws_access_key_id"));
    ("generic_api_key",
     Regex.seqs [Regex.Chr Regex.is_quote;
                 Regex.at_least 40 (Regex.Chr Regex.is_alnum);
                 Regex.Chr Regex.is_quote]) ].

(** The body of the loop over the lines, for line [i] (counted from 1). *)
Definition api_key_issues (file_path : string) (il : nat * string)
    : list SecurityIssue :=
  let '(i, line) := il in
  if PyStr.strip_startswith line "#" || PyStr.contains ".env" file_path
  then []
  else
    flat_map
      (fun kp : string * Regex.regex =>
         flat_map
           (fun _match : string =>
              if PyStr.contains "os.getenv" line
                 || PyStr.contains "environ" line
                 || PyStr.contains "${" line
              then []
              else [mkIssue "critical" "api_key_exposure" file_path i true])
           (Regex.finditer (snd kp) line))
      API_KEY_PATTERNS.

Definition validate_api_key_exposure (file_path content : string)
    : list SecurityIssue :=
  flat_map (api_key_issues file_path)
           (PyStr.enumerate_from 1 (PyStr.split_nl content)).

(** [SQL_PATTERNS], in the order of the dictionary.  The patterns are
    only used with [re.search], which asks whether a match exists; that
    does not depend on [.*?] being lazy, so it is written as [.*]. *)
Definition SQL_PATTERNS : list (string * Regex.regex) :=
  [ ("string_interpolation",
     Regex.seqs [Regex.lit "f"; Regex.Chr Regex.is_quote;
                 Regex.Star Regex.dot; Regex.lit "{"; Regex.Star Regex.dot;
                 Regex.lit "}"; Regex.Star Regex.dot;
                 Regex.Chr Regex.is_quote]);
    ("format_method",
     Regex.seqs [Regex.Star Regex.dot; Regex.lit ".format(";
                 Regex.Star Regex.dot; Regex.lit ")"]);
    ("percent_formatting",
     Regex.seqs [Regex.lit "%"; Regex.Star Regex.ws;
                 Regex.plus (Regex.Chr Regex.is_ascii_word)]) ].

(** The loop body of [validate_sql_injection].  The second test is
    ['?' in line or ('%s' in line and ',' in line)]. *)
Definition sql_issues (file_path : string) (il : nat * string)
    : list SecurityIssue :=
  let '(i, line) := il in
  if PyStr.strip_startswith line "#" then []
  else if PyStr.contains "?" line
          || (PyStr.contains "%s" line && PyStr.contains "," line) then []
  else
    flat_map
      (fun vp : string * Regex.regex =>
         if PyStr.contains "query" (PyStr.lower line)
            || PyStr.contains "sql" (PyStr.lower line)
         then
           if Regex.search (snd vp) line
           then [mkIssue "critical" "sql_injection_risk" file_path i false]
           else []
         else [])
      SQL_PATTERNS.

Definition validate_sql_injection (file_path content : string)
    : list SecurityIssue :=
  flat_map (sql_issues file_path)
           (PyStr.enumerate_from 1 (PyStr.split_nl content)).

(** [<name>\s*[:=]\s*[quote].*[quote]] *)
Definition logged_literal (name : string) : Regex.regex :=
  Regex.seqs [Regex.lit name; Regex.Star Regex.ws;
              Regex.Chr (Regex.in_class ":="); Regex.Star Regex.ws;
              Regex.Chr Regex.is_quote; Regex.Star Regex.dot;
              Regex.Chr Regex.is_quote].

(** [SENSITIVE_PATTERNS], in the order of the dictionary *)
Definition SENSITIVE_PATTERNS : list (string * Regex.regex) :=
  [ ("password_log", logged_literal "password");
    ("api_key_log", logged_literal "api_key");
    ("private_key_log", logged_literal "private_key");
    ("position_data",
     Regex.seqs [Regex.lit "position"; Regex.Star Regex.dot; Regex.lit "{";
                 Regex.Star Regex.dot; Regex.Chr Regex.is_quote;
                 Regex.lit "price"; Regex.Chr Regex.is_quote]) ].

Definition sensitive_issues (file_path : string) (il : nat * string)
    : list SecurityIssue :=
  let '(i, line) := il in
  if negb (PyStr.contains "print" line || PyStr.contains "log" line
           || PyStr.contains "logger" line)
  then []
  else
    flat_map
      (fun dp : string * Regex.regex =>
         if Regex.search (snd dp) line
         then [mkIssue "high" "sensitive_data_exposure" file_path i false]
         else [])
      SENSITIVE_PATTERNS.

Definition validate_sensitive_data_logging (file_path content : string)
    : list SecurityIssue :=
  flat_map (sensitive_issues file_path)
           (PyStr.enumerate_from 1 (PyStr.split_nl content)).

(** [INSIDER_TRADING_PATTERNS['suspicious_sources']] *)
Definition suspicious_sources : list string :=
  ["corporate_insider"; "executive_communication"; "confidential_email";
   "private_message"; "internal_only"].

Definition insider_issues (file_path : string) (il : nat * string)
    : list SecurityIssue :=
  let '(i, line) := il in
  let line_lower := PyStr.lower line in
  flat_map
    (fun source =>
       if PyStr.contains source line_lower
       then [mkIssue "critical" "insider_trading_risk" file_path i false]
       else [])
    suspicious_sources.

Definition validate_insider_trading_prevention (file_path content : string)
    : list SecurityIssue :=
  if negb (PyStr.contains "events" file_path)
     && negb (PyStr.contains "data" file_path)
  then []
  else flat_map (insider_issues file_path)
                (PyStr.enumerate_from 1 (PyStr.split_nl content)).

(** [lines[j]] for [j in range(i, min(i+10, len(lines)))] *)
Definition auth_window (lines : list string) (i : nat) : list string :=
  PyStr.slice lines i (Nat.min (i + 10) (List.length lines)).

Definition mentions_auth (line : string) : bool :=
  PyStr.contains "auth" (PyStr.lower line)
  || PyStr.contains "token" (PyStr.lower line).

Definition authentication_issues (file_path : string) (lines : list string)
    (il : nat * string) : list SecurityIssue :=
  let '(i, line) := il in
  if PyStr.contains "def " line
     && (PyStr.contains "api" (PyStr.lower line)
         || PyStr.contains "endpoint" (PyStr.lower line))
  then
    let auth_found := existsb mentions_auth (auth_window lines i) in
    if negb auth_found
    then [mkIssue "high" "missing_authentication" file_path i false]
    else []
  else [].

Definition validate_authentication (file_path content : string)
    : list SecurityIssue :=
  let lines := PyStr.split_nl content in
  if PyStr.contains "app.route" content || PyStr.contains "def " content
  then flat_map (authentication_issues file_path lines)
                (PyStr.enumerate_from 1 lines)
  else [].

Definition run_all_validations (file_path content : string)
    : list SecurityIssue :=
  validate_api_key_exposure file_path content
  ++ validate_sql_injection file_path content
  ++ validate_sensitive_data_logging file_path content
  ++ validate_insider_trading_prevention file_path content
  ++ validate_authentication file_path content.

End SecurityValidator.

End SecurityRules.

(** ** rules/tax_rules.py *)

Module TaxRules.

Record TaxIssue : Type := mkIssue {
  severity : string;
  rule : string;
  file_path : string;
  line_number : nat;
  auto_fixable : bool
}.

Module TaxValidator.

(** the holding-period check of the loop body *)
Definition holding_issue (file_path : string) (il : nat * string)
    : list TaxIssue :=
  let '(i, line) := il in
  if PyStr.contains "holding" (PyStr.lower line)
     && (PyStr.contains "365" line
         || PyStr.contains "year" (PyStr.lower line))
  then
    if PyStr.contains ">= 365" line || negb (PyStr.contains "> 365" line)
    then [mkIssue "high" "ltcg_holding_period_boundary" file_path i true]
    else []
  else [].

(** the tax-rate check of the loop body *)
Definition rate_issue (file_path : string) (il : nat * string)
    : list TaxIssue :=
  let '(i, line) := il in
  if PyStr.contains "tax_rate" (PyStr.lower line)
     && PyStr.contains "ltcg" (PyStr.lower line)
  then
    if negb (PyStr.contains "0.20" line) && negb (PyStr.contains "20%" line)
       && negb (PyStr.contains "20" line)
    then [mkIssue "high" "ltcg_tax_rate_incorrect" file_path i false]
    else []
  else [].

Definition validate_ltcg_classification (file_path content : string)
    : list TaxIssue :=
  flat_map (fun il => holding_issue file_path il ++ rate_issue file_path il)
           (PyStr.enumerate_from 1 (PyStr.split_nl content)).

(** The loop body of [validate_wash_sale_detection] for line [i],
    counted from 1.  The test on the line is
    ['wash_sale' in line.lower() or ('30' in line and 'day' in line.lower())]
    and the window is [lines[max(0, i-3):min(len(lines), i+3)]]. *)
Definition wash_sale_context (lines : list string) (i : nat) : string :=
  PyStr.join_nl
    (PyStr.slice lines (i - 3) (Nat.min (List.length lines) (i + 3))).

Definition wash_sale_issue (file_path : string) (lines : list string)
    (il : nat * string) : list TaxIssue :=
  let '(i, line) := il in
  if PyStr.contains "wash_sale" (PyStr.lower line)
     || (PyStr.contains "30" line && PyStr.contains "day" (PyStr.lower line))
  then
    let context := wash_sale_context lines i in
    let has_before := PyStr.contains "before" (PyStr.lower context)
                      || PyStr.contains "-30" context in
    let has_after := PyStr.contains "after" (PyStr.lower context)
                     || PyStr.contains "+30" context
                     || PyStr.contains "and" context in
    if negb (has_before && has_after)
    then [mkIssue "critical" "wash_sale_window_incomplete" file_path i false]
    else []
  else [].

Definition validate_wash_sale_detection (file_path content : string)
    : list TaxIssue :=
  let lines := PyStr.split_nl content in
  flat_map (wash_sale_issue file_path lines) (PyStr.enumerate_from 1 lines).

End TaxValidator.

End TaxRules.

(** ** rules/trading_rules.py *)

Module TradingRules.

Inductive Severity : Type := CRITICAL | HIGH | MEDIUM | LOW.

Record TradingIssue : Type := mkIssue {
  severity : Severity;
  rule : string;
  file_path : string;
  line_number : nat;
  auto_fixable : bool
}.

Module KellyCriterionValidator.

(** [kelly|fraction|position_size] under [re.IGNORECASE] *)
Definition kelly_pattern : Regex.regex :=
  Regex.alts [Regex.lit_i "kelly"; Regex.lit_i "fraction";
              Regex.lit_i "position_size"].

(** [self.lines[max(0, i-3):min(len(self.lines), i+4)]], joined *)
Definition formula_context (lines : list string) (i : nat) : string :=
  PyStr.join_nl
    (PyStr.slice lines (i - 3) (Nat.min (List.length lines) (i + 4))).

Definition has_win_prob (context : string) : bool :=
  PyStr.contains "p" context || PyStr.contains "win_probability" context
  || PyStr.contains "win_prob" context.

Definition has_lose_prob (context : string) : bool :=
  PyStr.contains "q" context || PyStr.contains "1-p" context
  || PyStr.contains "lose_prob" context.

Definition has_payoff_ratio (context : string) : bool :=
  PyStr.contains "b" context || PyStr.contains "payoff_ratio" context
  || PyStr.contains "odds" context.

Definition formula_complete (context : string) : bool :=
  has_win_prob context && has_lose_prob context && has_payoff_ratio context.

(** The loop of [_validate_kelly_formula]: it returns the issues it
    appended and the final [found_kelly], and stops at its first issue. *)
Fixpoint formula_loop (file_path : string) (lines : list string)
    (todo : list (nat * string)) (found_kelly : bool)
    : list TradingIssue * bool :=
  match todo with
  | [] => ([], found_kelly)
  | (i, line) :: todo' =>
      if Regex.search kelly_pattern line then
        if negb (formula_complete (formula_context lines i))
        then ([mkIssue CRITICAL "Kelly Criterion Formula" file_path (i + 1)
                       false], true)
        else formula_loop file_path lines todo' true
      else formula_loop file_path lines todo' found_kelly
  end.

Definition _validate_kelly_formula (file_path : string) (lines : list string)
    : list TradingIssue :=
  let '(issues, found_kelly) :=
    formula_loop file_path lines (PyStr.enumerate_from 0 lines) false in
  if negb found_kelly
  then issues ++ [mkIssue HIGH "Kelly Criterion Missing" file_path 1 false]
  else issues.

(** [[\d.]+\s*\*.*kelly|kelly.*\*[\d.]+] under [re.IGNORECASE] *)
Definition scaled_pattern : Regex.regex :=
  let number := Regex.plus
                  (Regex.Chr (fun c => Regex.is_digit c || Ascii.eqb c "."%char)) in
  Regex.Alt
    (Regex.seqs [number; Regex.Star Regex.ws; Regex.lit "*";
                 Regex.Star Regex.dot; Regex.lit_i "kelly"])
    (Regex.seqs [Regex.lit_i "kelly"; Regex.Star Regex.dot; Regex.lit "*";
                 number]).

Definition fraction_issue (file_path : string) (lines : list string)
    (il : nat * string) : list TradingIssue :=
  let '(i, line) := il in
  if PyStr.contains "kelly" (PyStr.lower line) && PyStr.contains "*" line then
    if negb (Regex.search scaled_pattern line) then
      let context :=
        PyStr.join_nl
          (PyStr.slice lines (i - 2) (Nat.min (List.length lines) (i + 3))) in
      if PyStr.contains "kelly" (PyStr.lower context)
         && negb (PyStr.contains "0." context)
      then [mkIssue HIGH "Kelly Fraction Scaling" file_path (i + 1) false]
      else []
    else []
  else [].

Definition _validate_kelly_fraction (file_path : string) (lines : list string)
    : list TradingIssue :=
  flat_map (fraction_issue file_path lines) (PyStr.enumerate_from 0 lines).

Definition edge_case_issues (file_path : string) (lines : list string)
    (il : nat * string) : list TradingIssue :=
  let '(i, line) := il in
  if PyStr.contains "kelly" (PyStr.lower line)
     || PyStr.contains "position_size" (PyStr.lower line)
  then
    let context :=
      PyStr.join_nl
        (PyStr.slice lines (i - 2) (Nat.min (List.length lines) (i + 5))) in
    (if (PyStr.contains "payoff_ratio" context || PyStr.contains "b =" context)
        && (PyStr.contains "/ " context && negb (PyStr.contains "if" context)
            && negb (PyStr.contains "assert" context))
     then [mkIssue CRITICAL "Kelly Edge Case: Division by Zero" file_path
                   (i + 1) false]
     else [])
    ++
    (if PyStr.contains "kelly" (PyStr.lower context)
        && (negb (PyStr.contains "max(0" context)
            && negb (PyStr.contains "if kelly" context))
     then [mkIssue HIGH "Kelly Edge Case: Negative Kelly" file_path
                   (i + 1) false]
     else [])
  else [].

Definition _validate_kelly_edge_cases (file_path : string)
    (lines : list string) : list TradingIssue :=
  flat_map (edge_case_issues file_path lines) (PyStr.enumerate_from 0 lines).

Definition analyze (file_path content : string) : list TradingIssue :=
  let lines := PyStr.split_nl content in
  _validate_kelly_formula file_path lines
  ++ _validate_kelly_fraction file_path lines
  ++ _validate_kelly_edge_cases file_path lines.

End KellyCriterionValidator.

(** [self.lines[max(0, i-lo):min(len(self.lines), i+hi)]], joined *)
Definition window (lines : list string) (i lo hi : nat) : string :=
  PyStr.join_nl
    (PyStr.slice lines (i - lo) (Nat.min (List.length lines) (i + hi))).

Module RiskLimitValidator.

Definition is_daily_limit (line : string) : bool :=
  PyStr.contains "daily" (PyStr.lower line)
  && (PyStr.contains "loss" (PyStr.lower line)
      || PyStr.contains "limit" (PyStr.lower line)).

Definition daily_issue (file_path : string) (lines : list string)
    (il : nat * string) : list TradingIssue :=
  let '(i, line) := il in
  if is_daily_limit line then
    let context := window lines i 2 5 in
    if negb (existsb (fun op => PyStr.contains op context)
                     ["<"; ">"; "<="; ">="; "=="])
    then [mkIssue CRITICAL "Daily Loss Limit" file_path (i + 1) false]
    else []
  else [].

Definition _validate_daily_limit (file_path : string) (lines : list string)
    : list TradingIssue :=
  let daily_limit_found := existsb is_daily_limit lines in
  flat_map (daily_issue file_path lines) (PyStr.enumerate_from 0 lines)
  ++ (if negb daily_limit_found
      then [mkIssue CRITICAL "Daily Loss Limit Missing" file_path 1 false]
      else []).

Definition is_monthly_limit (line : string) : bool :=
  PyStr.contains "monthly" (PyStr.lower line)
  && (PyStr.contains "loss" (PyStr.lower line)
      || PyStr.contains "limit" (PyStr.lower line)).

Definition _validate_monthly_limit (file_path : string) (lines : list string)
    : list TradingIssue :=
  if negb (existsb is_monthly_limit lines)
  then [mkIssue HIGH "Monthly Loss Limit Missing" file_path 1 false]
  else [].

Definition is_drawdown (line : string) : bool :=
  PyStr.contains "drawdown" (PyStr.lower line)
  || PyStr.contains "max_dd" (PyStr.lower line).

Definition drawdown_issue (file_path : string) (lines : list string)
    (il : nat * string) : list TradingIssue :=
  let '(i, line) := il in
  if is_drawdown line then
    if negb (PyStr.contains "peak" (PyStr.lower (window lines i 2 5)))
    then [mkIssue HIGH "Drawdown Calculation" file_path (i + 1) false]
    else []
  else [].

Definition _validate_drawdown_limit (file_path : string) (lines : list string)
    : list TradingIssue :=
  flat_map (drawdown_issue file_path lines) (PyStr.enumerate_from 0 lines)
  ++ (if negb (existsb is_drawdown lines)
      then [mkIssue MEDIUM "Drawdown Limit Missing" file_path 1 false]
      else []).

Definition is_position_limit (line : string) : bool :=
  PyStr.contains "position" (PyStr.lower line)
  && (PyStr.contains "max" (PyStr.lower line)
      || PyStr.contains "limit" (PyStr.lower line)).

Definition position_issue (file_path : string) (lines : list string)
    (il : nat * string) : list TradingIssue :=
  let '(i, line) := il in
  if is_position_limit line then
    let context := window lines i 2 5 in
    if negb (PyStr.contains "0.10" context) && negb (PyStr.contains "10" context)
    then [mkIssue MEDIUM "Position Size Limit" file_path (i + 1) false]
    else []
  else [].

Definition _validate_position_limits (file_path : string)
    (lines : list string) : list TradingIssue :=
  flat_map (position_issue file_path lines) (PyStr.enumerate_from 0 lines).

Definition analyze (file_path content : string) : list TradingIssue :=
  let lines := PyStr.split_nl content in
  _validate_daily_limit file_path lines
  ++ _validate_monthly_limit file_path lines
  ++ _validate_drawdown_limit file_path lines
  ++ _validate_position_limits file_path lines.

End RiskLimitValidator.

Module ConsensusMechanismValidator.

Definition is_consensus (line : string) : bool :=
  PyStr.contains "consensus" (PyStr.lower line)
  || PyStr.contains "aggregate" (PyStr.lower line)
  || PyStr.contains "pool" (PyStr.lower line).

(** The loop of [_validate_bayesian_pooling] stops at its first issue. *)
Fixpoint pooling_loop (file_path : string) (lines : list string)
    (todo : list (nat * string)) : list TradingIssue :=
  match todo with
  | [] => []
  | (i, line) :: todo' =>
      let context := window lines i 3 6 in
      if is_consensus line
         && (negb (PyStr.contains "log" (PyStr.lower context))
             && negb (PyStr.contains "average" (PyStr.lower context)))
      then [mkIssue HIGH "Consensus Mechanism" file_path (i + 1) false]
      else pooling_loop file_path lines todo'
  end.

Definition _validate_bayesian_pooling (file_path : string)
    (lines : list string) : list TradingIssue :=
  pooling_loop file_path lines (PyStr.enumerate_from 0 lines).

Definition weight_issue (file_path : string) (lines : list string)
    (il : nat * string) : list TradingIssue :=
  let '(i, line) := il in
  if PyStr.contains "weight" (PyStr.lower line) && PyStr.contains "=" line
  then
    let context := window lines i 2 8 in
    if negb (PyStr.contains "sum" (PyStr.lower context))
       && negb (PyStr.contains "normalize" (PyStr.lower context))
    then
      if PyStr.contains "weight" context && PyStr.contains "[" context
      then [mkIssue HIGH "Weight Normalization" file_path (i + 1) false]
      else []
    else []
  else [].

Definition _validate_weight_normalization (file_path : string)
    (lines : list string) : list TradingIssue :=
  flat_map (weight_issue file_path lines) (PyStr.enumerate_from 0 lines).

Definition is_disagreement (line : string) : bool :=
  PyStr.contains "disagree" (PyStr.lower line)
  || PyStr.contains "variance" (PyStr.lower line)
  || PyStr.contains "std" (PyStr.lower line).

Definition _validate_disagreement_handling (file_path : string)
    (lines : list string) : list TradingIssue :=
  if negb (existsb is_disagreement lines)
  then [mkIssue MEDIUM "Disagreement Handling" file_path 1 false]
  else [].

Definition analyze (file_path content : string) : list TradingIssue :=
  let lines := PyStr.split_nl content in
  _validate_bayesian_pooling file_path lines
  ++ _validate_weight_normalization file_path lines
  ++ _validate_disagreement_handling file_path lines.

End ConsensusMechanismValidator.

(** What a call does: it returns a value or raises. *)
Inductive exception : Type := TypeError.

Inductive outcome (A : Type) : Type :=
| Returned (a : A)
| Raised (e : exception).

Arguments Returned {A} a.
Arguments Raised {A} e.

Definition bind {A B} (o : outcome A) (k : A -> outcome B) : outcome B :=
  match o with
  | Returned a => k a
  | Raised e => Raised e
  end.

Module EventScoringValidator.

Definition required_components : list string :=
  ["impact"; "confidence"; "tradability"; "decay"].

(** the set [found_components] after the loop over the lines, as the list
    of its elements *)
Definition found_components (lines : list string) : list string :=
  List.filter
    (fun component =>
       existsb (fun line => PyStr.contains component (PyStr.lower line)) lines)
    required_components.

(** the two containers the method holds *)
Inductive container : Type :=
| PyList (items : list string)
| PySet (elements : list string).

(** [a - b]: [set.__sub__] and [set.__rsub__] answer for two sets only, and
    [list] defines no subtraction, so every other pair of containers
    raises [TypeError]. *)
Definition py_sub (a b : container) : outcome container :=
  match a, b with
  | PySet x, PySet y =>
      Returned
        (PySet (List.filter
                  (fun e => negb (existsb (String.eqb e) y)) x))
  | _, _ => Raised TypeError
  end.

(** the truth value of a container: it is not empty *)
Definition truthy (c : container) : bool :=
  match c with
  | PyList [] | PySet [] => false
  | _ => true
  end.

(** [_validate_score_components]: after the loop the method evaluates
    [missing = required_components - found_components], a list minus a
    set, before it looks at [missing]. *)
Definition _validate_score_components (file_path : string)
    (lines : list string) : outcome (list TradingIssue) :=
  bind (py_sub (PyList required_components) (PySet (found_components lines)))
       (fun missing =>
          Returned
            (if truthy missing
             then [mkIssue MEDIUM "Event Score Components" file_path 1 false]
             else [])).

Definition normalization_issue (file_path : string) (lines : list string)
    (il : nat * string) : list TradingIssue :=
  let '(i, line) := il in
  if PyStr.contains "score" (PyStr.lower line) && PyStr.contains "=" line
  then
    let context := window lines i 2 5 in
    if negb (PyStr.contains "clip" (PyStr.lower context))
       && negb (PyStr.contains "min(" context)
       && negb (PyStr.contains "max(" context)
    then
      if PyStr.contains "*" context
      then [mkIssue MEDIUM "Score Normalization" file_path (i + 1) false]
      else []
    else []
  else [].

Definition _validate_score_normalization (file_path : string)
    (lines : list string) : list TradingIssue :=
  flat_map (normalization_issue file_path lines) (PyStr.enumerate_from 0 lines).

Definition decay_issue (file_path : string) (lines : list string)
    (il : nat * string) : list TradingIssue :=
  let '(i, line) := il in
  if PyStr.contains "decay" (PyStr.lower line)
     || PyStr.contains "time" (PyStr.lower line)
  then
    let context := window lines i 2 5 in
    if PyStr.contains "decay" (PyStr.lower context)
       && negb (PyStr.contains "exp" (PyStr.lower context))
    then [mkIssue LOW "Time Decay Formula" file_path (i + 1) false]
    else []
  else [].

Definition _validate_time_decay (file_path : string) (lines : list string)
    : list TradingIssue :=
  flat_map (decay_issue file_path lines) (PyStr.enumerate_from 0 lines).

Definition analyze (file_path content : string)
    : outcome (list TradingIssue) :=
  let lines := PyStr.split_nl content in
  bind (_validate_score_components file_path lines) (fun components =>
  Returned (components
            ++ _validate_score_normalization file_path lines
            ++ _validate_time_decay file_path lines)).

End EventScoringValidator.

Module TradingValidator.

(** [validate]: the four validators in order; an exception of one leaves
    [validate] at once. *)
Definition validate (file_path content : string)
    : outcome (list TradingIssue) :=
  let kelly := KellyCriterionValidator.analyze file_path content in
  let risk := RiskLimitValidator.analyze file_path content in
  let consensus := ConsensusMechanismValidator.analyze file_path content in
  bind (EventScoringValidator.analyze file_path content) (fun scoring =>
  Returned (kelly ++ risk ++ consensus ++ scoring)).

End TradingValidator.

End TradingRules.

(** ** scanners/deep_scan.py

    This module is not embedded.  Its line 160 reads
    [if '.format(' in line or f'{' in line or '+' in line:], and [f'{'] is
    an f-string whose replacement field is never closed: the compiler
    rejects the file with [SyntaxError], so no class or function of the
    module can be imported or run, [SecurityAuditor], [PerformanceAnalyzer]
    and [DeepScanner._generate_statistics] included. *)

(** ** scanners/performance_profiler.py *)

Module PerformanceProfiler.

(** Python floats are IEEE 754 binary64 numbers. *)
Definition float : Type := spec_float.

(** [float(z)] for a Python [int], rounding to nearest even; an [int]
    beyond the range of binary64 makes Python raise [OverflowError], here
    the infinity that [int_of_float] refuses. *)
Definition float_of_int (z : Z) : float := binary_normalize 53 1024 z 0 false.

Definition float_mul : float -> float -> float := SFmul 53 1024.
Definition float_div : float -> float -> float := SFdiv 53 1024.

(** [int(x)]: truncation toward zero, an exception on infinities and NaN *)
Definition int_of_float (x : float) : option Z :=
  match x with
  | S754_zero _ => Some 0%Z
  | S754_finite s m e => Some (cond_Zopp s (Z.shiftl (Zpos m) e))
  | S754_infinity _ | S754_nan => None
  end.

(** the literals [0.50], [0.95] and [0.99] *)
Definition float_0_50 : float := S754_finite false 4503599627370496 (-53).
Definition float_0_95 : float := S754_finite false 8556839292003942 (-53).
Definition float_0_99 : float := S754_finite false 8917127262193582 (-53).

(** [l[k]]: a negative [k] counts from the end, and an index out of range
    raises [IndexError] *)
Definition py_index {A} (l : list A) (k : Z) : option A :=
  if (0 <=? k)%Z then nth_error l (Z.to_nat k)
  else if (0 <=? Z.of_nat (List.length l) + k)%Z
       then nth_error l (Z.to_nat (Z.of_nat (List.length l) + k))
       else None.

(** [sorted(l)]: a stable sort by [<], written as an insertion sort.  On
    latencies without a NaN the order of the result is fixed by [<] and
    stability, whatever the algorithm.  With a NaN, [<] is not a total
    order and what [list.sort] returns depends on its merge strategy,
    which is not modelled; what is stated below about [sorted] uses only
    the length and the elements of its result. *)
Fixpoint insert_sorted (x : float) (l : list float) : list float :=
  match l with
  | [] => [x]
  | y :: l' => if SFltb y x then y :: insert_sorted x l' else x :: l
  end.

Definition sorted (l : list float) : list float :=
  fold_right insert_sorted [] l.

(** [min(l)] and [max(l)] of a non-empty list: the first smallest and the
    first largest element *)
Definition py_min (first : float) (rest : list float) : float :=
  fold_left (fun m x => if SFltb x m then x else m) rest first.

Definition py_max (first : float) (rest : list float) : float :=
  fold_left (fun m x => if SFltb m x then x else m) rest first.

Module EventProcessingProfiler.

Section GetPercentiles.

(** The built-in [sum] over the latencies; how it adds floats is the
    interpreter's business. *)
Variable py_sum : list float -> float.

(** [int(len(latencies) * p)] *)
Definition percentile_index (n : nat) (p : float) : option Z :=
  int_of_float (float_mul (float_of_int (Z.of_nat n)) p).

(** [latencies[int(len(latencies) * p)]] *)
Definition percentile (latencies : list float) (p : float) : option float :=
  k ← percentile_index (List.length latencies) p;
  py_index latencies k.

(** [get_percentiles]; [None] stands for a raised exception.
    [self.event_latencies.get(event_type, [])] is the lookup with the
    empty list as its default. *)
Definition get_percentiles (event_latencies : gmap string (list float))
    (event_type : string) : option (gmap string float) :=
  let latencies := sorted (default [] (event_latencies !! event_type)) in
  match latencies with
  | [] => Some ∅
  | first :: rest =>
      p50 ← percentile latencies float_0_50;
      p95 ← percentile latencies float_0_95;
      p99 ← percentile latencies float_0_99;
      Some (<["p50" := p50]>
            (<["p95" := p95]>
             (<["p99" := p99]>
              (<["min" := py_min first rest]>
               (<["max" := py_max first rest]>
                (<["avg" := float_div (py_sum latencies)
                              (float_of_int
                                 (Z.of_nat (List.length latencies)))]>
                 ∅))))))
  end.

End GetPercentiles.

(** [record_event_processing], on the [event_latencies] dictionary: a
    [defaultdict(list)] appends to the empty list for a new key. *)
Definition record_event_processing (event_latencies : gmap string (list float))
    (event_type : string) (latency_ms : float) : gmap string (list float) :=
  <[event_type := default [] (event_latencies !! event_type) ++ [latency_ms]]>
    event_latencies.

(** the two dictionaries of the profiler, both default dictionaries *)
Record profiler : Type := mkProfiler {
  event_latencies : gmap string (list float);
  event_counts : gmap string Z
}.

(** [EventProcessingProfiler()] *)
Definition new_profiler : profiler :=
  {| event_latencies := ∅; event_counts := ∅ |}.

(** [record_event_processing] on the whole object: the latency is
    appended and the count of the event type goes up by one. *)
Definition record (self : profiler) (event_type : string) (latency_ms : float)
    : profiler :=
  {| event_latencies :=
       record_event_processing (event_latencies self) event_type latency_ms;
     event_counts :=
       <[event_type := (default 0 (event_counts self !! event_type) + 1)%Z]>
         (event_counts self) |}.

End EventProcessingProfiler.

End PerformanceProfiler.

(** ** Vocabulary of the statements and the inputs of the examples *)

Module Statements.

(** the rules of the checks that [PerformanceValidator.validate] runs on
    the raw text *)
Definition text_rules : list string :=
  ["Resource Management"; "Unbounded Collection";
   "Potential Circular Reference"; "Blocking Operation in Event Handler";
   "Potentially Long Loop"].

(** a string literal between double quotes *)
Definition quoted (s : string) : string :=
  String "034"%char (String.append s (String "034"%char EmptyString)).

(** the line [API_KEY = <quoted sk-abcdef1234567890abcdef1234567890>] *)
Definition bare_api_key_line : string :=
  String.append "API_KEY = " (quoted "sk-abcdef1234567890abcdef1234567890").

(** the same assignment to [COINBASE_API_KEY] *)
Definition coinbase_api_key_line : string :=
  String.append "COINBASE_API_KEY = "
                (quoted "sk-abcdef1234567890abcdef1234567890").

(** the line [<name> = <quoted sk-abcdef1234567890abcdef1234567890>] *)
Definition key_assignment (name : string) : string :=
  String.append name
    (String.append " = " (quoted "sk-abcdef1234567890abcdef1234567890")).

(** names that a pattern of [API_KEY_PATTERNS] spells out, one for each of
    the seven patterns that name a key *)
Definition matched_key_names : list string :=
  ["COINBASE_API_KEY"; "BINANCE_API_KEY"; "KRAKEN_API_KEY";
   "ANTHROPIC_API_KEY"; "POLYGON_API_KEY"; "SUPABASE_SERVICE_KEY";
   "aws_access_key_id"].

(** the bare name of the specification, and the keys of the dictionary
    [API_KEY_PATTERNS] that differ from what their patterns spell out *)
Definition unmatched_key_names : list string :=
  ["API_KEY"; "SUPABASE_KEY"; "aws_access_key"; "generic_api_key"].

(** a hardcoded key on a line that also mentions [os.getenv] *)
Definition guarded_key_line : string :=
  String.append (key_assignment "COINBASE_API_KEY")
                "  # replaces os.getenv('COINBASE_API_KEY')".

(** that line, and the same key on a line of its own *)
Definition guarded_then_hardcoded : string :=
  PyStr.join_nl [guarded_key_line; key_assignment "COINBASE_API_KEY"].

(** a sizing line that names the three terms of the Kelly formula in full *)
Definition kelly_all_terms_named : string :=
  "kelly = (win_probability * payoff_ratio - loss_probability) / payoff_ratio".

(** a sizing line with a win term and a payoff term and no loss term, whose
    comment holds the letter q *)
Definition kelly_no_loss_term : string :=
  "kelly = win_probability * payoff_ratio  # required".

Section QueryPatternDetector.

Import PerformanceRules PerformanceRules.QueryPatternDetector.

(** the issue [visit_Call] appends at loop depth [depth] *)
Definition n_plus_one (file_path : string) (depth : Z) (line : nat)
    : PerformanceIssue :=
  mkIssue (if (depth >? 1)%Z then CRITICAL else HIGH) "N+1 Query Pattern"
          file_path line false.

Definition add_issues (st : state) (l : list PerformanceIssue) : state :=
  {| issues := issues st ++ l; in_loop := in_loop st;
     loop_depth := loop_depth st |}.

(** what a traversal of loop-free code adds in state [st] *)
Definition found (file_path : string) (st : state) (lines : list nat)
    : list PerformanceIssue :=
  if in_loop st then map (n_plus_one file_path (loop_depth st)) lines else [].

End QueryPatternDetector.

(** the file
<<
for item in items:
    def handler():
        pass
>> *)
Definition def_in_loop : PyAst.node :=
  PyAst.Module
    [PyAst.For 1 (PyAst.Name 1 "item") (PyAst.Name 1 "items")
       [PyAst.FunctionDef 2 "handler" (PyAst.Other 2 [])
          [PyAst.Other 3 []] [] None]
       []].

(** four loops of one kind, each in the body of the one before, on the
    lines 1 to 4 *)
Definition four_nested (loop : nat -> list PyAst.node -> PyAst.node)
    : PyAst.node :=
  PyAst.Module [loop 1 [loop 2 [loop 3 [loop 4 [PyAst.Other 5 []]]]]].

Definition while_loop (lineno : nat) (body : list PyAst.node) : PyAst.node :=
  PyAst.While lineno (PyAst.Name lineno "busy") body [].

Definition for_loop (lineno : nat) (body : list PyAst.node) : PyAst.node :=
  PyAst.For lineno (PyAst.Name lineno "i") (PyAst.Name lineno "items") body [].

(** a binary64 constant [mc * 2^-53] of the interval from 0.5 to 1, small
    enough that two roundings cannot carry a product with it up to the
    other factor *)
Definition below_one (mc : positive) : Prop :=
  (2 ^ 52 <= Zpos mc < 2 ^ 53
   /\ (2 ^ 52 + 1) * (2 ^ 52 + 1) * Zpos mc < 2 ^ 157)%Z.

(** the issues of one severity *)
Definition with_severity (s : PerformanceRules.Severity)
    (issues : list PerformanceRules.PerformanceIssue)
    : list PerformanceRules.PerformanceIssue :=
  List.filter
    (fun issue =>
       PerformanceRules.PerformanceValidator.severity_eqb
         (PerformanceRules.severity issue) s)
    issues.

Definition is_async_function_def (n : PyAst.node) : bool :=
  match n with
  | PyAst.AsyncFunctionDef _ _ _ _ _ _ => true
  | _ => false
  end.

(** no [async def] under [n] *)
Definition async_free (n : PyAst.node) : bool :=
  forallb (fun m => negb (is_async_function_def m)) (PyAst.subnodes n).

(** neither a loop nor a [def] under [n] *)
Definition plain (n : PyAst.node) : bool :=
  SyntheticFiles.loop_free n && SyntheticFiles.def_free n.

Definition plain_header (h : SyntheticFiles.loop_header) : bool :=
  forallb plain (SyntheticFiles.header_nodes h).

(** the finding of [AlgorithmComplexityAnalyzer] for the loop [h] entered
    at depth [d] *)
Definition nesting_issue (file_path : string)
    (dh : nat * SyntheticFiles.loop_header)
    : PerformanceRules.PerformanceIssue :=
  let '(d, h) := dh in
  PerformanceRules.mkIssue
    (match SyntheticFiles.kind h with
     | SyntheticFiles.ForLoop _ _ =>
         if 4 <=? d then PerformanceRules.HIGH else PerformanceRules.MEDIUM
     | SyntheticFiles.WhileLoop _ => PerformanceRules.MEDIUM
     end)
    "Deeply Nested Loops" file_path (SyntheticFiles.lineno h) false.

(** the profiler after a run of [record_event_processing] calls on a new
    object, one call per element of [events] *)
Definition record_all (events : list (string * PerformanceProfiler.float))
    : PerformanceProfiler.EventProcessingProfiler.profiler :=
  fold_left
    (fun self e =>
       PerformanceProfiler.EventProcessingProfiler.record self (fst e) (snd e))
    events PerformanceProfiler.EventProcessingProfiler.new_profiler.

(** the latencies recorded for one event type, in the order of the calls *)
Definition recorded_for (event_type : string)
    (events : list (string * PerformanceProfiler.float))
    : list PerformanceProfiler.float :=
  map snd (List.filter (fun e => String.eqb (fst e) event_type) events).

End Statements.

(** * Properties *)

Import Statements.

(** ** Strings, slices and enumerated loops *)

Section StringFacts.

Lemma startswith_lower (s p : string) :
  PyStr.startswith s p = true ->
  PyStr.startswith (PyStr.lower s) (PyStr.lower p) = true.
Proof.
  revert s. induction p as [|c p IH]; intros s H; [reflexivity|].
  destruct s as [|d s]; [discriminate|]. simpl in *.
  apply andb_true_iff in H as [Hc Hp]. apply Ascii.eqb_eq in Hc. subst d.
  now rewrite Ascii.eqb_refl, (IH _ Hp).
Qed.

Lemma contains_cons (sub : string) (c : ascii) (s : string) :
  PyStr.contains sub (String c s)
  = PyStr.startswith (String c s) sub || PyStr.contains sub s.
Proof. reflexivity. Qed.

Lemma contains_lower (p s : string) :
  PyStr.contains p s = true ->
  PyStr.contains (PyStr.lower p) (PyStr.lower s) = true.
Proof.
  induction s as [|c s IH]; intros H.
  - simpl in H. rewrite orb_false_r in H.
    apply startswith_lower in H. simpl in *. now rewrite H.
  - rewrite contains_cons in H. apply orb_true_iff in H as [H|H].
    + apply startswith_lower in H. change (PyStr.lower (String c s))
        with (String (PyStr.lower_char c) (PyStr.lower s)) in *.
      rewrite contains_cons, H. reflexivity.
    + change (PyStr.lower (String c s))
        with (String (PyStr.lower_char c) (PyStr.lower s)).
      rewrite contains_cons, (IH H). apply orb_true_r.
Qed.

Lemma contains_lower_lit (p s : string) :
  PyStr.lower p = p ->
  PyStr.contains p s = true -> PyStr.contains p (PyStr.lower s) = true.
Proof. intros Hp H. rewrite <- Hp. now apply contains_lower. Qed.

Lemma in_enumerate_from {A} (l : list A) (start i : nat) (x : A) :
  In (i, x) (PyStr.enumerate_from start l)
  <-> start <= i /\ nth_error l (i - start) = Some x.
Proof.
  revert start. induction l as [|y l IH]; intros start; simpl.
  - split; [tauto|]. intros [_ H]. destruct (i - start); discriminate.
  - rewrite IH. split.
    + intros [H|[Hle H]].
      * inversion H; subst. rewrite Nat.sub_diag. auto.
      * split; [lia|]. replace (i - start) with (S (i - S start)) by lia.
        exact H.
    + intros [Hle H]. destruct (Nat.eq_dec start i) as [->|Hne].
      * rewrite Nat.sub_diag in H. simpl in H. left. congruence.
      * right. split; [lia|].
        replace (i - start) with (S (i - S start)) in H by lia. exact H.
Qed.

Lemma enumerate_from_fst {A} (l : list A) (start : nat) :
  map fst (PyStr.enumerate_from start l) = seq start (List.length l).
Proof.
  revert start. induction l as [|y l IH]; intros start; simpl;
    [reflexivity | now rewrite IH].
Qed.

End StringFacts.

(** ** rules/tax_rules.py: the holding-period boundary *)

Section TaxFacts.

Import TaxRules TaxRules.TaxValidator.

Lemma holding_issue_line (file_path : string) (il : nat * string)
    (issue : TaxIssue) :
  In issue (holding_issue file_path il) ->
  issue = mkIssue "high" "ltcg_holding_period_boundary" file_path (fst il) true
  /\ (PyStr.contains ">= 365" (snd il) = true
      \/ PyStr.contains "> 365" (snd il) = false).
Proof.
  destruct il as [i line]. unfold holding_issue. simpl.
  destruct (_ && _); [|intros []].
  destruct (PyStr.contains ">= 365" line) eqn:Hge; simpl.
  - intros [<-|[]]. auto.
  - destruct (PyStr.contains "> 365" line) eqn:Hgt; simpl; [intros []|].
    intros [<-|[]]. auto.
Qed.

Lemma rate_issue_rule (file_path : string) (il : nat * string)
    (issue : TaxIssue) :
  In issue (rate_issue file_path il) -> rule issue = "ltcg_tax_rate_incorrect".
Proof.
  destruct il as [i line]. unfold rate_issue.
  destruct (_ && _); [|intros []].
  destruct (_ && _); [|intros []].
  intros [<-|[]]. reflexivity.
Qed.

(** C6. On a line that contains holding together with 365 (or year),
    [validate_ltcg_classification] reports a high
    ltcg_holding_period_boundary issue at that line when the line has the
    non-strict comparison [>= 365], and reports no such issue at that line
    when the line has the strict comparison [> 365] and not [>= 365]. *)
Theorem ltcg_holding_period_boundary_rule
    (file_path content line : string) (i : nat) :
  nth_error (PyStr.split_nl content) i = Some line ->
  PyStr.contains "holding" line = true ->
  PyStr.contains "365" line = true \/ PyStr.contains "year" line = true ->
  (PyStr.contains ">= 365" line = true ->
   In (mkIssue "high" "ltcg_holding_period_boundary" file_path (i + 1) true)
      (validate_ltcg_classification file_path content))
  /\ (PyStr.contains "> 365" line = true ->
      PyStr.contains ">= 365" line = false ->
      forall issue,
        In issue (validate_ltcg_classification file_path content) ->
        rule issue = "ltcg_holding_period_boundary" ->
        line_number issue <> i + 1).
Proof.
  intros Hnth Hhold Hyear. unfold validate_ltcg_classification. split.
  - intros Hge. apply in_flat_map. exists (i + 1, line). split.
    + apply in_enumerate_from. split; [lia|].
      now replace (i + 1 - 1) with i by lia.
    + apply in_or_app. left. unfold holding_issue.
      rewrite (contains_lower_lit "holding" line eq_refl Hhold).
      assert (H365 : PyStr.contains "365" line
                     || PyStr.contains "year" (PyStr.lower line) = true).
      { destruct Hyear as [H|H]; [now rewrite H|].
        rewrite (contains_lower_lit "year" line eq_refl H). apply orb_true_r. }
      rewrite H365, Hge. simpl. auto.
  - intros Hgt Hnge issue Hin Hrule Hline.
    apply in_flat_map in Hin as [[j l] [Hj Hin]].
    apply in_enumerate_from in Hj as [Hle Hj].
    apply in_app_or in Hin as [Hin|Hin].
    + apply holding_issue_line in Hin as [-> Hcond]. simpl in *.
      subst j. replace (i + 1 - 1) with i in Hj by lia.
      assert (l = line) by congruence. subst l.
      destruct Hcond; congruence.
    + apply rate_issue_rule in Hin. rewrite Hin in Hrule. discriminate.
Qed.

Lemma ltcg_holding_period_boundary_rule_witness :
  let content := "if holding_days >= 365:" in
  In (mkIssue "high" "ltcg_holding_period_boundary" "tax.py" 1 true)
     (validate_ltcg_classification "tax.py" content).
Proof.
  intros content.
  apply (proj1 (ltcg_holding_period_boundary_rule "tax.py" content content 0
                  eq_refl eq_refl (or_introl eq_refl))).
  reflexivity.
Defined.

End TaxFacts.

(** ** File handles opened outside a with statement *)

Section FileHandleFacts.

Import PerformanceRules.

Lemma file_handle_issue_inv (file_path : string) (lines : list string)
    (il : nat * string) (issue : PerformanceIssue) :
  In issue (MemoryLeakDetector.file_handle_issue file_path lines il) ->
  issue = mkIssue HIGH "Resource Management" file_path (fst il + 1) true
  /\ 0 < fst il
  /\ PyStr.contains "with" (nth (fst il - 1) lines EmptyString) = false.
Proof.
  destruct il as [i line]. unfold MemoryLeakDetector.file_handle_issue.
  destruct (_ && _); [|intros []].
  destruct (0 <? i) eqn:Hi; simpl; [|intros []].
  destruct (PyStr.contains "with" (nth (i - 1) lines EmptyString)) eqn:Hprev; simpl;
    [intros []|].
  intros [<-|[]]. apply Nat.ltb_lt in Hi. auto.
Qed.

(** The claim as the specification states it fails on a file whose first
    line opens a file: [_check_file_handles] reports nothing there. *)
Lemma open_on_first_line_not_flagged :
  ~ (forall (file_path content line : string) (i : nat),
        nth_error (PyStr.split_nl content) i = Some line ->
        Regex.search MemoryLeakDetector.open_pattern line = true ->
        PyStr.contains "with" line = false ->
        (i = 0
         \/ PyStr.contains "with" (nth (i - 1) (PyStr.split_nl content) EmptyString)
            = false) ->
        In (mkIssue HIGH "Resource Management" file_path (i + 1) true)
           (MemoryLeakDetector._check_file_handles file_path
              (PyStr.split_nl content))).
Proof.
  intros H.
  specialize (H "scan.py" "f = open('data.txt')" "f = open('data.txt')" 0
                eq_refl eq_refl eq_refl (or_introl eq_refl)).
  vm_compute in H. exact H.
Qed.

(** C8, amended.  [MemoryLeakDetector._check_file_handles] reports a line
    other than the first that opens a file, with no with on it and none on
    the line before, with high severity at that line; it reports nothing
    at a line whose predecessor has a with; and it reports nothing at the
    first line of a file. *)
Theorem open_without_with_flagged_after_first_line
    (file_path content line : string) (i : nat) :
  let lines := PyStr.split_nl content in
  nth_error lines i = Some line ->
  Regex.search MemoryLeakDetector.open_pattern line = true ->
  PyStr.contains "with" line = false ->
  (0 < i ->
   PyStr.contains "with" (nth (i - 1) lines EmptyString) = false ->
   In (mkIssue HIGH "Resource Management" file_path (i + 1) true)
      (MemoryLeakDetector._check_file_handles file_path lines))
  /\ (0 < i ->
      PyStr.contains "with" (nth (i - 1) lines EmptyString) = true ->
      forall issue,
        In issue (MemoryLeakDetector._check_file_handles file_path lines) ->
        line_number issue <> i + 1)
  /\ (i = 0 ->
      forall issue,
        In issue (MemoryLeakDetector._check_file_handles file_path lines) ->
        line_number issue <> 1).
Proof.
  intros lines Hnth Hopen Hwith.
  split; [|split].
  - intros Hi Hprev.
    apply in_flat_map. exists (i, line). split.
    + apply in_enumerate_from. split; [lia|].
      now rewrite Nat.sub_0_r.
    + unfold MemoryLeakDetector.file_handle_issue.
      rewrite Hopen, Hwith, Hprev.
      apply Nat.ltb_lt in Hi. rewrite Hi. simpl. auto.
  - intros Hi Hprev issue Hin Hline.
    apply in_flat_map in Hin as [[j l] [Hj Hin]].
    apply file_handle_issue_inv in Hin as (-> & _ & Hnone). simpl in *.
    assert (j = i) by lia. subst j. congruence.
  - intros -> issue Hin Hline.
    apply in_flat_map in Hin as [[j l] [Hj Hin]].
    apply file_handle_issue_inv in Hin as (-> & Hpos & _). simpl in *. lia.
Qed.

Lemma open_without_with_flagged_after_first_line_witness :
  In (mkIssue HIGH "Resource Management" "scan.py" 2 true)
     (MemoryLeakDetector._check_file_handles "scan.py"
        (PyStr.split_nl "import os
f = open('data.txt')")).
Proof.
  exact (proj1 (open_without_with_flagged_after_first_line
                  "scan.py" "import os
f = open('data.txt')" "f = open('data.txt')" 1 eq_refl eq_refl eq_refl)
           (Nat.lt_0_succ 0) eq_refl).
Defined.

End FileHandleFacts.

(** ** PerformanceValidator.validate on a file that does not parse *)

Section ValidateFacts.

Import PerformanceRules PerformanceRules.PerformanceValidator.

Lemma circular_loop_rule (file_path : string) (lines : list string)
    (todo : list (nat * string)) (issue : PerformanceIssue) :
  In issue (MemoryLeakDetector.circular_loop file_path lines todo) ->
  rule issue = "Potential Circular Reference".
Proof.
  induction todo as [|[i line] todo IH]; simpl; [intros []|].
  destruct (_ && _); [|exact IH]. intros [<-|[]]. reflexivity.
Qed.

Lemma memory_leak_rules (file_path content : string) (issue : PerformanceIssue) :
  In issue (MemoryLeakDetector.analyze file_path content) ->
  In (rule issue) text_rules.
Proof.
  unfold MemoryLeakDetector.analyze. intros Hin.
  apply in_app_or in Hin as [Hin|Hin]; [|apply in_app_or in Hin as [Hin|Hin]].
  - apply in_flat_map in Hin as [il [_ Hin]].
    apply file_handle_issue_inv in Hin as [-> _]. simpl. auto.
  - apply in_flat_map in Hin as [[i line] [_ Hin]].
    unfold MemoryLeakDetector.unbounded_issue in Hin.
    destruct (_ && _); [|destruct Hin]. destruct Hin as [<-|[]]. simpl. auto.
  - apply circular_loop_rule in Hin. rewrite Hin. simpl. auto.
Qed.

Lemma latency_rules (file_path content : string) (issue : PerformanceIssue) :
  In issue (LatencyValidator.analyze file_path content) ->
  In (rule issue) text_rules.
Proof.
  unfold LatencyValidator.analyze. intros Hin.
  apply in_app_or in Hin as [Hin|Hin].
  - apply in_flat_map in Hin as [[i line] [_ Hin]].
    unfold LatencyValidator.blocking_issue in Hin.
    destruct (_ || _); [|destruct Hin].
    apply in_flat_map in Hin as [pattern [_ Hin]].
    destruct (Regex.search pattern line); [|destruct Hin].
    destruct Hin as [<-|[]]. simpl. auto 6.
  - apply in_flat_map in Hin as [[i line] [_ Hin]].
    unfold LatencyValidator.long_loop_issue in Hin.
    destruct (Regex.search _ line); [|destruct Hin].
    destruct Hin as [<-|[]]. simpl. auto 6.
Qed.

(** The claim as the specification states it asks for one finding more
    than the text-based checks give; [validate] adds none. *)
Lemma no_parse_error_finding :
  ~ (forall (ast_parse : string -> parse_result) (file_path content : string),
        ast_parse content = SyntaxError ->
        exists parse_error before after,
          validate ast_parse file_path content
          = before ++ parse_error :: after
          /\ text_checks file_path content = before ++ after).
Proof.
  intros H.
  destruct (H (fun _ => SyntaxError) "broken.py" "f = open('x'" eq_refl)
    as (e & before & after & Hv & Ht).
  unfold validate, ast_checks in Hv. simpl in Hv. rewrite Ht in Hv.
  apply (f_equal (@List.length _)) in Hv.
  rewrite !length_app in Hv. simpl in Hv. lia.
Qed.

(** C3, amended.  When the content does not parse, [validate] does not
    raise and returns exactly the findings of the checks on the raw text,
    those of [MemoryLeakDetector] followed by those of [LatencyValidator];
    every finding carries the rule of one of these checks, and no finding
    records the parse failure. *)
Theorem validate_syntax_error_text_checks_only
    (ast_parse : string -> parse_result) (file_path content : string) :
  ast_parse content = SyntaxError ->
  validate ast_parse file_path content
  = MemoryLeakDetector.analyze file_path content
    ++ LatencyValidator.analyze file_path content
  /\ forall issue,
       In issue (validate ast_parse file_path content) ->
       In (rule issue) text_rules.
Proof.
  intros Hparse.
  assert (Heq : validate ast_parse file_path content
                = MemoryLeakDetector.analyze file_path content
                  ++ LatencyValidator.analyze file_path content).
  { unfold validate, ast_checks. now rewrite Hparse. }
  split; [exact Heq|]. intros issue Hin. rewrite Heq in Hin.
  apply in_app_or in Hin as [Hin|Hin];
    [eapply memory_leak_rules | eapply latency_rules]; eassumption.
Qed.

Lemma validate_syntax_error_text_checks_only_witness :
  validate (fun _ => SyntaxError) "broken.py" "import os
f = open('x'"
  = [mkIssue HIGH "Resource Management" "broken.py" 2 true].
Proof.
  rewrite (proj1 (validate_syntax_error_text_checks_only
                    (fun _ => SyntaxError) "broken.py" "import os
f = open('x'" eq_refl)).
  reflexivity.
Defined.

End ValidateFacts.

(** ** rules/security_rules.py: hardcoded API keys *)

Section ApiKeyFacts.

Import SecurityRules SecurityRules.SecurityValidator.

Lemma api_key_issues_inv (file_path : string) (il : nat * string)
    (issue : SecurityIssue) :
  In issue (api_key_issues file_path il) ->
  issue = mkIssue "critical" "api_key_exposure" file_path (fst il) true
  /\ PyStr.contains "os.getenv" (snd il) = false.
Proof.
  destruct il as [i line]. unfold api_key_issues. simpl fst. simpl snd.
  destruct (PyStr.strip_startswith line "#" || PyStr.contains ".env" file_path);
    [intros []|].
  intros Hin.
  apply in_flat_map in Hin as [kp [_ Hin]].
  apply in_flat_map in Hin as [m [_ Hin]].
  destruct (PyStr.contains "os.getenv" line); simpl in *; [destruct Hin|].
  destruct (PyStr.contains "environ" line || PyStr.contains "${" line);
    [destruct Hin|].
  destruct Hin as [<-|[]]. auto.
Qed.

(** The claim as the specification states it fails on its own example:
    no entry of [API_KEY_PATTERNS] matches the line, so nothing is
    reported. *)
Lemma bare_api_key_line_not_flagged :
  ~ (exists issue,
        validate_api_key_exposure "config.py" bare_api_key_line = [issue]
        /\ severity issue = "critical"
        /\ rule issue = "api_key_exposure"
        /\ line_number issue = 1).
Proof.
  intros (issue & H & _).
  assert (Hnil : validate_api_key_exposure "config.py" bare_api_key_line = [])
    by (vm_compute; reflexivity).
  rewrite Hnil in H. discriminate.
Qed.

(** what the loop body reports on a line that is neither a comment nor a
    reference to the environment, in a file that is not an [.env] file:
    one issue per match of a pattern *)
Lemma api_key_issues_matches (file_path line : string) (i : nat) :
  PyStr.contains ".env" file_path = false ->
  PyStr.strip_startswith line "#" = false ->
  (PyStr.contains "os.getenv" line || PyStr.contains "environ" line
   || PyStr.contains "${" line) = false ->
  api_key_issues file_path (i, line)
  = map (fun _ => mkIssue "critical" "api_key_exposure" file_path i true)
        (flat_map (fun kp : string * Regex.regex => Regex.finditer (snd kp) line)
                  API_KEY_PATTERNS).
Proof.
  intros Henv Hcomment Hguard. unfold api_key_issues.
  rewrite Henv, Hcomment, Hguard. cbn [orb].
  generalize API_KEY_PATTERNS as patterns.
  induction patterns as [|kp l IH]; [reflexivity|].
  cbn [flat_map]. rewrite List.map_app, IH. f_equal.
Qed.

Lemma api_key_issues_getenv (file_path line : string) (i : nat) :
  PyStr.contains "os.getenv" line = true ->
  api_key_issues file_path (i, line) = [].
Proof.
  intros Hguard. unfold api_key_issues.
  destruct (PyStr.strip_startswith line "#"
            || PyStr.contains ".env" file_path); [reflexivity|].
  rewrite Hguard. cbn [orb].
  generalize API_KEY_PATTERNS as patterns.
  induction patterns as [|kp l IH]; [reflexivity|].
  cbn [flat_map]. rewrite IH, List.app_nil_r.
  generalize (Regex.finditer (snd kp) line) as matches.
  induction matches as [|m ms IHm]; [reflexivity | exact IHm].
Qed.

(** C4, amended.  [validate_api_key_exposure] reports nothing on the
    single line that assigns the literal to the bare name API_KEY, nor on
    the same assignment to SUPABASE_KEY, aws_access_key or generic_api_key,
    the keys of [API_KEY_PATTERNS] whose patterns spell out another name;
    on the same assignment to a name that a pattern spells out
    (COINBASE_API_KEY, BINANCE_API_KEY, KRAKEN_API_KEY, ANTHROPIC_API_KEY,
    POLYGON_API_KEY, SUPABASE_SERVICE_KEY, aws_access_key_id), in a file
    whose path does not hold [.env], it reports exactly one critical
    api_key_exposure issue at that line; and it reports nothing at any
    line that refers to os.getenv, such as the rewritten line. *)
Theorem api_key_exposure_names_of_the_patterns (file_path : string) :
  List.Forall
    (fun name => validate_api_key_exposure file_path (key_assignment name) = [])
    unmatched_key_names
  /\ (PyStr.contains ".env" file_path = false ->
      List.Forall
        (fun name =>
           validate_api_key_exposure file_path (key_assignment name)
           = [mkIssue "critical" "api_key_exposure" file_path 1 true])
        matched_key_names)
  /\ validate_api_key_exposure file_path "API_KEY = os.getenv('API_KEY')" = []
  /\ forall (content line : string) (i : nat) (issue : SecurityIssue),
       nth_error (PyStr.split_nl content) i = Some line ->
       PyStr.contains "os.getenv" line = true ->
       In issue (validate_api_key_exposure file_path content) ->
       line_number issue <> i + 1.
Proof.
  assert (Hone : forall line,
             PyStr.split_nl line = [line] ->
             validate_api_key_exposure file_path line
             = api_key_issues file_path (1, line)).
  { intros line Hsplit. unfold validate_api_key_exposure. rewrite Hsplit.
    cbn [PyStr.enumerate_from flat_map]. apply List.app_nil_r. }
  assert (Hnone : forall line,
             PyStr.split_nl line = [line] ->
             flat_map (fun kp : string * Regex.regex =>
                         Regex.finditer (snd kp) line) API_KEY_PATTERNS = [] ->
             validate_api_key_exposure file_path line = []).
  { intros line Hsplit Hm. rewrite (Hone line Hsplit). unfold api_key_issues.
    destruct (_ || _); [reflexivity|].
    induction API_KEY_PATTERNS as [|kp l IH]; [reflexivity|].
    cbn [flat_map] in *. apply List.app_eq_nil in Hm as [Hkp Hl].
    rewrite Hkp, (IH Hl). reflexivity. }
  split; [|split; [|split]].
  - repeat constructor; apply Hnone; vm_compute; reflexivity.
  - intros Henv.
    repeat constructor;
      (rewrite Hone by (vm_compute; reflexivity));
      (rewrite api_key_issues_matches
         by first [exact Henv | vm_compute; reflexivity]);
      vm_compute; reflexivity.
  - rewrite Hone by (vm_compute; reflexivity).
    apply api_key_issues_getenv. vm_compute. reflexivity.
  - intros content line i issue Hnth Henv Hin Hline.
    apply in_flat_map in Hin as [[j l] [Hj Hin]].
    apply in_enumerate_from in Hj as [Hle Hj].
    apply api_key_issues_inv in Hin as [-> Hnone']. simpl in *. subst j.
    replace (i + 1 - 1) with i in Hj by lia. congruence.
Qed.

Lemma api_key_exposure_names_of_the_patterns_witness :
  List.Forall
    (fun name =>
       validate_api_key_exposure "config.py" (key_assignment name)
       = [mkIssue "critical" "api_key_exposure" "config.py" 1 true])
    matched_key_names
  /\ existsb (fun kp : string * Regex.regex =>
                Regex.search (snd kp) guarded_key_line)
             API_KEY_PATTERNS = true
  /\ validate_api_key_exposure "config.py" guarded_then_hardcoded
     = [mkIssue "critical" "api_key_exposure" "config.py" 2 true]
  /\ List.Forall (fun issue => line_number issue <> 1)
       (validate_api_key_exposure "config.py" guarded_then_hardcoded).
Proof.
  split; [|split; [|split]].
  - apply (proj1 (proj2 (api_key_exposure_names_of_the_patterns "config.py"))).
    reflexivity.
  - vm_compute. reflexivity.
  - vm_compute. reflexivity.
  - apply List.Forall_forall. intros issue.
    apply (proj2 (proj2 (proj2
             (api_key_exposure_names_of_the_patterns "config.py")))
             guarded_then_hardcoded guarded_key_line 0 issue);
      reflexivity.
Defined.

End ApiKeyFacts.

(** ** rules/trading_rules.py: completeness of the Kelly formula *)

Section KellyFacts.

Import TradingRules TradingRules.KellyCriterionValidator.

Lemma formula_loop_incomplete (file_path : string) (lines : list string)
    (todo : list (nat * string)) (found : bool) :
  (exists i line,
      In (i, line) todo
      /\ Regex.search kelly_pattern line = true
      /\ formula_complete (formula_context lines i) = false) ->
  exists j,
    formula_loop file_path lines todo found
    = ([mkIssue CRITICAL "Kelly Criterion Formula" file_path (j + 1) false],
       true).
Proof.
  revert found. induction todo as [|[k l] todo IH]; intros found.
  - intros (i & line & [] & _).
  - intros (i & line & Hin & Hm & Hc). simpl.
    destruct (Regex.search kelly_pattern l) eqn:Hl.
    + destruct (formula_complete (formula_context lines k)) eqn:Hk; simpl.
      * destruct Hin as [Heq|Hin]; [inversion Heq; subst; congruence|].
        apply IH. eauto.
      * eauto.
    + destruct Hin as [Heq|Hin]; [inversion Heq; subst; congruence|].
      apply IH. eauto.
Qed.

Lemma formula_loop_complete (file_path : string) (lines : list string)
    (todo : list (nat * string)) (found : bool) :
  (forall i line,
      In (i, line) todo ->
      Regex.search kelly_pattern line = true ->
      formula_complete (formula_context lines i) = true) ->
  fst (formula_loop file_path lines todo found) = [].
Proof.
  revert found. induction todo as [|[k l] todo IH]; intros found Hall;
    [reflexivity|].
  simpl. destruct (Regex.search kelly_pattern l) eqn:Hl.
  - rewrite (Hall k l (or_introl eq_refl) Hl). simpl.
    apply IH. intros i line Hin. apply Hall. now right.
  - apply IH. intros i line Hin. apply Hall. now right.
Qed.

Lemma fraction_issue_rule (file_path : string) (lines : list string)
    (il : nat * string) (issue : TradingIssue) :
  In issue (fraction_issue file_path lines il) ->
  rule issue = "Kelly Fraction Scaling".
Proof.
  destruct il as [i line]. unfold fraction_issue.
  destruct (_ && _); [|intros []].
  destruct (negb _); [|intros []].
  destruct (_ && _); [|intros []].
  intros [<-|[]]. reflexivity.
Qed.

Lemma edge_case_issues_rule (file_path : string) (lines : list string)
    (il : nat * string) (issue : TradingIssue) :
  In issue (edge_case_issues file_path lines il) ->
  rule issue = "Kelly Edge Case: Division by Zero"
  \/ rule issue = "Kelly Edge Case: Negative Kelly".
Proof.
  destruct il as [i line]. unfold edge_case_issues.
  destruct (_ || _); [|intros []]. intros Hin.
  apply in_app_or in Hin as [Hin|Hin].
  - destruct (_ && _); [|destruct Hin]. destruct Hin as [<-|[]]. now left.
  - destruct (_ && _); [|destruct Hin]. destruct Hin as [<-|[]]. now right.
Qed.

(** The claim as the specification states it fails in both directions:
    a line that names all three terms in full is reported, because
    [loss_probability] holds none of [q], [1-p] and [lose_prob]; and a line
    with no loss term at all is not reported, because [required] holds
    a [q]. *)
Lemma kelly_terms_named_in_full_not_recognised :
  (Regex.search kelly_pattern kelly_all_terms_named = true
   /\ PyStr.contains "win_probability" kelly_all_terms_named = true
   /\ PyStr.contains "loss_probability" kelly_all_terms_named = true
   /\ PyStr.contains "payoff_ratio" kelly_all_terms_named = true
   /\ ~ (forall issue,
            In issue (analyze "sizing.py" kelly_all_terms_named) ->
            rule issue <> "Kelly Criterion Formula"))
  /\ (Regex.search kelly_pattern kelly_no_loss_term = true
      /\ PyStr.contains "win_probability" kelly_no_loss_term = true
      /\ PyStr.contains "payoff_ratio" kelly_no_loss_term = true
      /\ PyStr.contains "los" (PyStr.lower kelly_no_loss_term) = false
      /\ ~ (exists issue,
               In issue (analyze "sizing.py" kelly_no_loss_term)
               /\ rule issue = "Kelly Criterion Formula"
               /\ severity issue = CRITICAL)).
Proof.
  split.
  - repeat (split; [vm_compute; reflexivity|]).
    intros H.
    apply (H (mkIssue CRITICAL "Kelly Criterion Formula" "sizing.py" 1 false));
      [vm_compute; auto | reflexivity].
  - repeat (split; [vm_compute; reflexivity|]).
    intros (issue & Hin & Hrule & _).
    assert (Hall : List.Forall
                     (fun issue => rule issue <> "Kelly Criterion Formula")
                     (analyze "sizing.py" kelly_no_loss_term))
      by (vm_compute; repeat constructor; discriminate).
    rewrite List.Forall_forall in Hall. exact (Hall issue Hin Hrule).
Qed.

(** C7, amended.  The three term families are substring tests on the
    context window of a line that matches the Kelly keyword pattern, the
    three lines before it to the three lines after it.  When the window of
    some matching line holds one of [p], [win_probability], [win_prob] and
    one of [b], [payoff_ratio], [odds] but none of [q], [1-p], [lose_prob],
    [KellyCriterionValidator.analyze] reports a critical Kelly Criterion
    Formula issue; when the window of every matching line holds a
    substring of each of the three families, it reports no Kelly Criterion
    Formula issue. *)
Theorem kelly_formula_completeness (file_path content : string) :
  let lines := PyStr.split_nl content in
  ((exists i line,
       nth_error lines i = Some line
       /\ Regex.search kelly_pattern line = true
       /\ (PyStr.contains "p" (formula_context lines i)
           || PyStr.contains "win_probability" (formula_context lines i)
           || PyStr.contains "win_prob" (formula_context lines i)) = true
       /\ (PyStr.contains "b" (formula_context lines i)
           || PyStr.contains "payoff_ratio" (formula_context lines i)
           || PyStr.contains "odds" (formula_context lines i)) = true
       /\ PyStr.contains "q" (formula_context lines i) = false
       /\ PyStr.contains "1-p" (formula_context lines i) = false
       /\ PyStr.contains "lose_prob" (formula_context lines i) = false) ->
   exists issue,
     In issue (analyze file_path content)
     /\ rule issue = "Kelly Criterion Formula"
     /\ severity issue = CRITICAL)
  /\ ((forall i line,
          nth_error lines i = Some line ->
          Regex.search kelly_pattern line = true ->
          (PyStr.contains "p" (formula_context lines i)
           || PyStr.contains "win_probability" (formula_context lines i)
           || PyStr.contains "win_prob" (formula_context lines i)) = true
          /\ (PyStr.contains "q" (formula_context lines i)
              || PyStr.contains "1-p" (formula_context lines i)
              || PyStr.contains "lose_prob" (formula_context lines i)) = true
          /\ (PyStr.contains "b" (formula_context lines i)
              || PyStr.contains "payoff_ratio" (formula_context lines i)
              || PyStr.contains "odds" (formula_context lines i)) = true) ->
      forall issue,
        In issue (analyze file_path content) ->
        rule issue <> "Kelly Criterion Formula").
Proof.
  intros lines. split.
  - intros (i & line & Hnth & Hm & Hw & Hp & Hq1 & Hq2 & Hq3).
    destruct (formula_loop_incomplete file_path lines
                (PyStr.enumerate_from 0 lines) false) as [j Hj].
    { exists i, line. split; [|split; [exact Hm|]].
      - apply in_enumerate_from. split; [lia|]. now rewrite Nat.sub_0_r.
      - unfold formula_complete, has_lose_prob.
        rewrite Hq1, Hq2, Hq3. cbn [orb]. now rewrite andb_false_r. }
    exists (mkIssue CRITICAL "Kelly Criterion Formula" file_path (j + 1) false).
    split; [|split; reflexivity].
    unfold analyze. fold lines. apply in_or_app. left.
    unfold _validate_kelly_formula. rewrite Hj. simpl. left. reflexivity.
  - intros Hall issue Hin Hrule. unfold analyze in Hin. fold lines in Hin.
    apply in_app_or in Hin as [Hin|Hin]; [|apply in_app_or in Hin as [Hin|Hin]].
    + unfold _validate_kelly_formula in Hin.
      pose proof (formula_loop_complete file_path lines
                    (PyStr.enumerate_from 0 lines) false) as Hnil.
      destruct (formula_loop file_path lines (PyStr.enumerate_from 0 lines)
                             false) as [issues found].
      simpl in Hnil. rewrite Hnil in Hin.
      * destruct (negb found); simpl in Hin; [|destruct Hin].
        destruct Hin as [<-|[]]. discriminate.
      * intros i line Hi Hm. apply in_enumerate_from in Hi as [_ Hi].
        rewrite Nat.sub_0_r in Hi.
        destruct (Hall i line Hi Hm) as (Hw & Hq & Hp).
        unfold formula_complete, has_win_prob, has_lose_prob,
          has_payoff_ratio.
        now rewrite Hw, Hq, Hp.
    + apply in_flat_map in Hin as [il [_ Hin]].
      apply fraction_issue_rule in Hin. rewrite Hin in Hrule. discriminate.
    + apply in_flat_map in Hin as [il [_ Hin]].
      apply edge_case_issues_rule in Hin as [Hin|Hin];
        rewrite Hin in Hrule; discriminate.
Qed.

Lemma kelly_formula_completeness_witness :
  (exists issue,
      In issue (analyze "sizing.py" "kelly = win_probability * payoff_ratio")
      /\ rule issue = "Kelly Criterion Formula"
      /\ severity issue = CRITICAL)
  /\ forall issue,
       In issue
          (analyze "sizing.py"
             "kelly = (win_probability * payoff_ratio - lose_prob) / payoff_ratio") ->
       rule issue <> "Kelly Criterion Formula".
Proof.
  split.
  - apply (proj1 (kelly_formula_completeness "sizing.py"
                    "kelly = win_probability * payoff_ratio")).
    exists 0, "kelly = win_probability * payoff_ratio".
    repeat split; reflexivity.
  - apply (proj2 (kelly_formula_completeness "sizing.py"
             "kelly = (win_probability * payoff_ratio - lose_prob) / payoff_ratio")).
    intros i line Hnth Hm.
    destruct i as [|i]; [repeat split; reflexivity|].
    destruct i; discriminate.
Defined.

End KellyFacts.

(** ** Traversal of the syntax tree *)

Section TraversalFacts.

Import PyAst.

Lemma subnodes_children (n : node) :
  subnodes n = n :: flat_map subnodes (children n).
Proof.
  destruct n as [| | | | | | | |]; simpl;
    rewrite ?flat_map_app, ?app_nil_r; try reflexivity;
    destruct returns; simpl; rewrite ?app_nil_r; reflexivity.
Qed.

Section Visitor.

Context {St : Type}.
Variable method : node -> option ((St -> St) -> St -> St).

Lemma visit_unfold (n : node) (st : St) :
  visit method n st
  = match method n with
    | Some visit_method => visit_method (generic_visit method n) st
    | None => generic_visit method n st
    end.
Proof. destruct n; reflexivity. Qed.

Lemma visit_list_app (l1 l2 : list node) (st : St) :
  visit_list method (l1 ++ l2) st
  = visit_list method l2 (visit_list method l1 st).
Proof. apply fold_left_app. Qed.

Lemma generic_visit_children (n : node) (st : St) :
  generic_visit method n st = visit_list method (children n) st.
Proof.
  destruct n; simpl; rewrite ?visit_list_app; try reflexivity;
    destruct returns; reflexivity.
Qed.

(** A property of the state that every visit of a child preserves is
    preserved by the visit of the children. *)
Lemma visit_list_preserves (Q : St -> St -> Prop) (l : list node) :
  (forall st, Q st st) ->
  (forall a b c, Q a b -> Q b c -> Q a c) ->
  Forall (fun c => forall st, Q st (visit method c st)) l ->
  forall st, Q st (visit_list method l st).
Proof.
  intros Hrefl Htrans Hall. induction Hall as [|c l Hc _ IH]; intros st.
  - apply Hrefl.
  - simpl. eapply Htrans; [apply Hc | apply IH].
Qed.

End Visitor.

End TraversalFacts.

(** ** QueryPatternDetector: database calls in loops *)

Section QueryPatternFacts.

Import PyAst PerformanceRules SyntheticFiles.
Import PerformanceRules.QueryPatternDetector.

Variable file_path : string.

Lemma add_issues_nil (st : state) : add_issues st [] = st.
Proof. destruct st. unfold add_issues. simpl. now rewrite app_nil_r. Qed.

Lemma add_issues_found_app (st : state) (l1 l2 : list nat) :
  add_issues (add_issues st (found file_path st l1)) (found file_path (add_issues st (found file_path st l1)) l2)
  = add_issues st (found file_path st (l1 ++ l2)).
Proof.
  unfold add_issues, found. simpl. destruct (in_loop st); simpl.
  - now rewrite <- app_assoc, map_app.
  - now rewrite <- app_assoc.
Qed.

Lemma loop_free_children (n : node) :
  loop_free n = true ->
  is_loop n = false /\ forallb loop_free (children n) = true.
Proof.
  unfold loop_free. rewrite subnodes_children. simpl.
  intros H. apply andb_true_iff in H as [Hn Hc]. split.
  - now apply negb_true_iff.
  - clear Hn. induction (children n) as [|c l IH]; [reflexivity|].
    simpl in *. rewrite forallb_app in Hc.
    apply andb_true_iff in Hc as [H1 H2]. now rewrite H1, IH.
Qed.

Lemma db_call_lines_children (n : node) :
  db_call_lines n = db_call_line n ++ flat_map db_call_lines (children n).
Proof.
  unfold db_call_lines. rewrite subnodes_children. simpl. f_equal.
  induction (children n) as [|c l IH]; [reflexivity|].
  simpl. now rewrite flat_map_app, IH.
Qed.

Lemma visit_list_loop_free (l : list node) :
  Forall (fun c => loop_free c = true ->
                   forall st, visit (method file_path) c st
                              = add_issues st (found file_path st (db_call_lines c))) l ->
  forallb loop_free l = true ->
  forall st, visit_list (method file_path) l st
             = add_issues st (found file_path st (flat_map db_call_lines l)).
Proof.
  intros Hall. induction Hall as [|c l Hc _ IH]; intros Hfree st.
  - simpl. unfold found. destruct (in_loop st); now rewrite add_issues_nil.
  - simpl in Hfree. apply andb_true_iff in Hfree as [H1 H2].
    change (visit_list (method file_path) (c :: l) st)
      with (visit_list (method file_path) l (visit (method file_path) c st)).
    rewrite (Hc H1), (IH H2). apply add_issues_found_app.
Qed.

(** Loop-free code leaves [in_loop] and [loop_depth] alone and adds one
    issue per database call when it is visited inside a loop. *)
Lemma visit_loop_free (n : node) :
  loop_free n = true ->
  forall st, visit (method file_path) n st
             = add_issues st (found file_path st (db_call_lines n)).
Proof.
  induction n as [n IH] using node_children_ind. intros Hfree st.
  apply loop_free_children in Hfree as [Hloop Hfree].
  pose proof (visit_list_loop_free (children n) IH Hfree) as Hgen.
  rewrite visit_unfold, db_call_lines_children.
  destruct n; try discriminate Hloop; cbn [method];
    rewrite ?generic_visit_children, ?Hgen; try reflexivity.
  unfold visit_Call. rewrite generic_visit_children.
  cbn [db_call_line].
  destruct (in_loop st) eqn:Hin.
  - destruct (is_db_call (_get_call_name _)) eqn:Hdb.
    + rewrite Hgen. unfold found, add_issues. cbn.
      rewrite Hin. cbn. now rewrite <- app_assoc.
    + rewrite Hgen. reflexivity.
  - rewrite Hgen. unfold found. rewrite Hin. reflexivity.
Qed.






End QueryPatternFacts.


(** ** AlgorithmComplexityAnalyzer: the nesting counter *)

Section NestingCounterFacts.

Import PyAst PerformanceRules SyntheticFiles.

Variable file_path : string.

(** [QueryPatternDetector] keeps the stack discipline on every tree: a
    visit returns with the loop depth it started with. *)
Lemma query_detector_depth_restored (n : node) :
  forall st,
    QueryPatternDetector.loop_depth
      (visit (QueryPatternDetector.method file_path) n st)
    = QueryPatternDetector.loop_depth st.
Proof.
  induction n as [n IH] using node_children_ind. intros st.
  assert (Hgen : forall st,
             QueryPatternDetector.loop_depth
               (generic_visit (QueryPatternDetector.method file_path) n st)
             = QueryPatternDetector.loop_depth st).
  { intros st'. rewrite generic_visit_children.
    apply (visit_list_preserves (QueryPatternDetector.method file_path)
             (fun a b => QueryPatternDetector.loop_depth b
                         = QueryPatternDetector.loop_depth a));
      [reflexivity | intros a b c Hab Hbc; congruence | exact IH]. }
  rewrite visit_unfold.
  destruct n; cbn [QueryPatternDetector.method]; try apply Hgen.
  - unfold QueryPatternDetector.visit_For, QueryPatternDetector.visit_loop.
    rewrite Hgen. cbn. destruct (_ =? 0)%Z; cbn; lia.
  - unfold QueryPatternDetector.visit_While, QueryPatternDetector.visit_loop.
    rewrite Hgen. cbn. destruct (_ =? 0)%Z; cbn; lia.
  - unfold QueryPatternDetector.visit_Call. rewrite Hgen.
    destruct (QueryPatternDetector.in_loop st); [|reflexivity].
    destruct (QueryPatternDetector.is_db_call _); reflexivity.
Qed.

Lemma def_free_children (n : node) :
  def_free n = true ->
  is_function_def n = false /\ Forall (fun c => def_free c = true) (children n).
Proof.
  unfold def_free. rewrite subnodes_children. simpl.
  intros H. apply andb_true_iff in H as [Hn Hc]. split.
  - now apply negb_true_iff.
  - clear Hn. induction (children n) as [|c l IH]; [constructor|].
    simpl in Hc. rewrite forallb_app in Hc.
    apply andb_true_iff in Hc as [H1 H2]. constructor; auto.
Qed.

(** X1: [AlgorithmComplexityAnalyzer] keeps the stack discipline on every
    tree that holds no [def]: a visit returns with the [nested_loops] it
    started with. *)
Lemma complexity_counter_restored_without_def (n : node) :
  def_free n = true ->
  forall st,
    AlgorithmComplexityAnalyzer.nested_loops
      (visit (AlgorithmComplexityAnalyzer.method file_path) n st)
    = AlgorithmComplexityAnalyzer.nested_loops st.
Proof.
  induction n as [n IH] using node_children_ind. intros Hfree st.
  apply def_free_children in Hfree as [Hdef Hfree].
  assert (Hgen : forall st,
             AlgorithmComplexityAnalyzer.nested_loops
               (generic_visit (AlgorithmComplexityAnalyzer.method file_path)
                              n st)
             = AlgorithmComplexityAnalyzer.nested_loops st).
  { intros st'. rewrite generic_visit_children.
    apply (visit_list_preserves (AlgorithmComplexityAnalyzer.method file_path)
             (fun a b => AlgorithmComplexityAnalyzer.nested_loops b
                         = AlgorithmComplexityAnalyzer.nested_loops a));
      [reflexivity | intros a b c Hab Hbc; congruence |].
    clear -IH Hfree. induction (children n) as [|c l IHl]; [constructor|].
    inversion IH; inversion Hfree; subst. constructor; auto. }
  rewrite visit_unfold.
  destruct n; try discriminate Hdef;
    cbn [AlgorithmComplexityAnalyzer.method]; try apply Hgen.
  - unfold AlgorithmComplexityAnalyzer.visit_For.
    cbn [AlgorithmComplexityAnalyzer.nested_loops]. rewrite Hgen.
    cbn [AlgorithmComplexityAnalyzer.nested_loops]. lia.
  - unfold AlgorithmComplexityAnalyzer.visit_While.
    cbn [AlgorithmComplexityAnalyzer.nested_loops]. rewrite Hgen.
    cbn [AlgorithmComplexityAnalyzer.nested_loops]. lia.
Qed.

End NestingCounterFacts.

(** C2.  The counter does not keep the stack discipline when a function
    definition sits in a loop body: [visit_FunctionDef] sets the counter
    to 0 and does not put the old value back, so the loop around it
    leaves the counter at -1. *)
Theorem def_in_loop_leaves_counter_negative :
  PerformanceRules.AlgorithmComplexityAnalyzer.nested_loops
    (PyAst.visit (PerformanceRules.AlgorithmComplexityAnalyzer.method "jobs.py")
       def_in_loop PerformanceRules.AlgorithmComplexityAnalyzer.init)
  = (-1)%Z.
Proof. reflexivity. Qed.

(** C5.  A [while] loop entered at depth 4 is reported with medium
    severity, not high: [visit_While] has no escalation. *)
Theorem fourth_nested_while_is_medium :
  PerformanceRules.AlgorithmComplexityAnalyzer.run "grid.py"
    (four_nested while_loop)
  = [PerformanceRules.mkIssue PerformanceRules.MEDIUM "Deeply Nested Loops"
                              "grid.py" 3 false;
     PerformanceRules.mkIssue PerformanceRules.MEDIUM "Deeply Nested Loops"
                              "grid.py" 4 false].
Proof. reflexivity. Qed.

(** [visit_For] does escalate at depth 4. *)
Lemma fourth_nested_for_is_high :
  PerformanceRules.AlgorithmComplexityAnalyzer.run "grid.py"
    (four_nested for_loop)
  = [PerformanceRules.mkIssue PerformanceRules.MEDIUM "Deeply Nested Loops"
                              "grid.py" 3 false;
     PerformanceRules.mkIssue PerformanceRules.HIGH "Deeply Nested Loops"
                              "grid.py" 4 false].
Proof. reflexivity. Qed.

(** ** Binary64 rounding and the percentile indices *)

Section RoundingFacts.

Local Open Scope Z_scope.

Lemma digits2_pos_bounds (p : positive) :
  2 ^ (Zpos (digits2_pos p) - 1) <= Zpos p < 2 ^ Zpos (digits2_pos p).
Proof.
  induction p as [p IH|p IH|]; cbn [digits2_pos].
  - rewrite Pos2Z.inj_succ.
    replace (Z.succ (Zpos (digits2_pos p)) - 1)
      with (Z.succ (Zpos (digits2_pos p) - 1)) by lia.
    rewrite !Z.pow_succ_r by lia. lia.
  - rewrite Pos2Z.inj_succ.
    replace (Z.succ (Zpos (digits2_pos p)) - 1)
      with (Z.succ (Zpos (digits2_pos p) - 1)) by lia.
    rewrite !Z.pow_succ_r by lia. lia.
  - simpl. lia.
Qed.

Lemma digits_gt (p : positive) (k : Z) :
  0 <= k -> 2 ^ k <= Zpos p -> k < Zpos (digits2_pos p).
Proof.
  intros Hk Hle. destruct (digits2_pos_bounds p) as [_ Hlt].
  destruct (Z.lt_ge_cases k (Zpos (digits2_pos p))) as [|Hge]; [assumption|].
  pose proof (Z.pow_le_mono_r 2 _ _ ltac:(lia) Hge). lia.
Qed.

Lemma digits_le (p : positive) (k : Z) :
  0 <= k -> Zpos p < 2 ^ k -> Zpos (digits2_pos p) <= k.
Proof.
  intros Hk Hlt. destruct (digits2_pos_bounds p) as [Hle _].
  destruct (Z.le_gt_cases (Zpos (digits2_pos p)) k) as [|Hgt]; [assumption|].
  assert (k <= Zpos (digits2_pos p) - 1) as Hge by lia.
  pose proof (Z.pow_le_mono_r 2 _ _ ltac:(lia) Hge). lia.
Qed.

Lemma shr_1_m (mrs : shr_record) :
  0 <= shr_m mrs -> shr_m (shr_1 mrs) = shr_m mrs / 2.
Proof.
  destruct mrs as [m r s]. cbn [shr_m]. intros Hm.
  destruct m as [|[p|p|]|p]; cbn [shr_1 shr_m]; try lia.
  - reflexivity.
  - apply Z.div_unique with 1; lia.
  - apply Z.div_unique with 0; lia.
  - reflexivity.
Qed.

Lemma iter_pos_shr_m (p : positive) :
  forall mrs, 0 <= shr_m mrs ->
    shr_m (SpecFloat.iter_pos shr_1 p mrs) = shr_m mrs / 2 ^ Zpos p.
Proof.
  induction p as [p IH|p IH|]; intros mrs Hm; cbn [SpecFloat.iter_pos].
  - assert (H1 : 0 <= shr_m (shr_1 mrs))
      by (rewrite shr_1_m by assumption; apply Z.div_pos; lia).
    assert (H2 : 0 <= shr_m (SpecFloat.iter_pos shr_1 p (shr_1 mrs)))
      by (rewrite IH by assumption; apply Z.div_pos; lia).
    rewrite IH, IH, shr_1_m by assumption.
    rewrite !Z.div_div by lia. f_equal.
    replace (Z.pos p~1) with (Z.pos p + Z.pos p + 1) by lia.
    rewrite !Z.pow_add_r, Z.pow_1_r by lia. ring.
  - assert (H2 : 0 <= shr_m (SpecFloat.iter_pos shr_1 p mrs))
      by (rewrite IH by assumption; apply Z.div_pos; lia).
    rewrite IH, IH by assumption.
    rewrite !Z.div_div by lia. f_equal.
    replace (Z.pos p~0) with (Z.pos p + Z.pos p) by lia.
    rewrite !Z.pow_add_r by lia. ring.
  - rewrite shr_1_m by assumption. reflexivity.
Qed.

Lemma shr_fexp_spec (m e : Z) (l : location) :
  0 <= m ->
  let sh := Z.max 0 (fexp 53 1024 (Zdigits2 m + e) - e) in
  snd (shr_fexp 53 1024 m e l) = e + sh
  /\ shr_m (fst (shr_fexp 53 1024 m e l)) = m / 2 ^ sh.
Proof.
  intros Hm sh. unfold shr_fexp, shr.
  assert (Hrec : shr_m (shr_record_of_loc m l) = m)
    by (destruct l as [|[| |]]; reflexivity).
  subst sh. destruct (fexp 53 1024 (Zdigits2 m + e) - e) as [|p|p];
    cbn [fst snd].
  - rewrite Hrec, Z.div_1_r. split; [lia | reflexivity].
  - rewrite iter_pos_shr_m by (rewrite Hrec; assumption).
    rewrite Hrec. rewrite Z.max_r by lia. split; reflexivity.
  - rewrite Hrec. rewrite Z.max_l by lia. rewrite Z.div_1_r. split; [lia | reflexivity].
Qed.

Lemma round_nearest_even_bounds (m : Z) (l : location) :
  m <= round_nearest_even m l <= m + 1.
Proof.
  destruct l as [|[| |]]; cbn [round_nearest_even]; try lia.
  destruct (Z.even m); lia.
Qed.

Lemma pow2_split (a b : Z) : 0 <= a -> 0 <= b -> 2 ^ (a + b) = 2 ^ a * 2 ^ b.
Proof. intros. apply Z.pow_add_r; assumption. Qed.

Lemma binary_round_aux_bound (mx : positive) (ex : Z) :
  2 ^ 52 <= Zpos mx ->
  -1022 <= ex ->
  Zpos (digits2_pos mx) + ex <= 1023 ->
  exists m e,
    binary_round_aux 53 1024 false (Zpos mx) ex loc_Exact
    = S754_finite false m e
    /\ 2 ^ 52 <= Zpos m < 2 ^ 53
    /\ ex <= e <= ex + Zpos (digits2_pos mx) - 52
    /\ 2 ^ 52 * (Zpos m * 2 ^ (e - ex)) <= (2 ^ 52 + 1) * Zpos mx.
Proof.
  intros Hmx Hex Hmax.
  pose proof (digits_gt mx 52 ltac:(lia) Hmx) as Hd.
  pose proof (digits2_pos_bounds mx) as [Hlo Hhi].
  set (d := Zpos (digits2_pos mx)) in *.
  unfold binary_round_aux.
  (* first shift *)
  destruct (shr_fexp_spec (Zpos mx) ex loc_Exact ltac:(lia)) as [He1 Hm1].
  destruct (shr_fexp 53 1024 (Zpos mx) ex loc_Exact) as [mrs1 e1].
  cbn [fst snd] in He1, Hm1.
  assert (Hsh1 : Z.max 0 (fexp 53 1024 (Zdigits2 (Zpos mx) + ex) - ex)
                 = d - 53).
  { unfold fexp, emin. cbn [Zdigits2]. fold d. lia. }
  rewrite Hsh1 in He1, Hm1.
  set (A := 2 ^ (d - 53)) in *.
  assert (HA : 0 < A) by (apply Z.pow_pos_nonneg; lia).
  assert (HloA : 2 ^ 52 * A <= Zpos mx).
  { unfold A. rewrite <- pow2_split by lia.
    replace (52 + (d - 53)) with (d - 1) by lia. exact Hlo. }
  assert (HhiA : Zpos mx < 2 ^ 53 * A).
  { unfold A. rewrite <- pow2_split by lia.
    replace (53 + (d - 53)) with d by lia. exact Hhi. }
  set (m1 := shr_m mrs1) in *.
  assert (Hm1lo : m1 * A <= Zpos mx)
    by (rewrite Hm1, Z.mul_comm; apply Z.mul_div_le; lia).
  assert (Hm1hi : Zpos mx < (m1 + 1) * A).
  { rewrite Hm1. pose proof (Z.mul_succ_div_gt (Zpos mx) A HA). lia. }
  assert (Hm1b : 2 ^ 52 <= m1 < 2 ^ 53) by nia.
  (* rounding *)
  pose proof (round_nearest_even_bounds m1 (loc_of_shr_record mrs1)) as Hm2.
  set (m2 := round_nearest_even m1 (loc_of_shr_record mrs1)) in *.
  (* second shift *)
  destruct (shr_fexp_spec m2 e1 loc_Exact ltac:(lia)) as [He3 Hm3].
  destruct (shr_fexp 53 1024 m2 e1 loc_Exact) as [mrs3 e3].
  cbn [fst snd] in He3, Hm3.
  assert (Hm2pos : exists q, m2 = Zpos q).
  { destruct m2 as [|q|q]; [lia | eauto | lia]. }
  destruct Hm2pos as [q Hq].
  pose proof (digits2_pos_bounds q) as [Hqlo Hqhi].
  assert (Hd2 : 52 < Zpos (digits2_pos q))
    by (apply digits_gt; lia).
  assert (Hd2' : Zpos (digits2_pos q) <= 54).
  { apply digits_le; [lia|]. change (2 ^ 54) with (2 * 2 ^ 53). lia. }
  assert (Hsh2 : Z.max 0 (fexp 53 1024 (Zdigits2 m2 + e1) - e1)
                 = Zpos (digits2_pos q) - 53).
  { rewrite Hq. unfold fexp, emin. cbn [Zdigits2]. lia. }
  rewrite Hsh2 in He3, Hm3.
  set (m3 := shr_m mrs3) in *.
  assert (Hcases : (Zpos (digits2_pos q) = 53 /\ m3 = m2 /\ m2 < 2 ^ 53)
                   \/ (Zpos (digits2_pos q) = 54 /\ 2 * m3 = m2
                       /\ m3 = 2 ^ 52)).
  { destruct (Z.eq_dec (Zpos (digits2_pos q)) 53) as [E|E].
    - left. rewrite E in *. change (2 ^ (53 - 53)) with 1 in Hm3.
      rewrite Z.div_1_r in Hm3. repeat split; lia.
    - right. assert (E' : Zpos (digits2_pos q) = 54) by lia.
      rewrite E' in *. change (2 ^ (54 - 53)) with 2 in Hm3.
      change (2 ^ (54 - 1)) with (2 ^ 53) in Hqlo.
      assert (m2 = 2 ^ 53) by lia.
      assert (m3 = 2 ^ 52) by (rewrite Hm3; replace m2 with (2 ^ 53) by lia; reflexivity).
      repeat split; lia. }
  assert (Hm3b : 2 ^ 52 <= m3 < 2 ^ 53).
  { destruct Hcases as [(_ & -> & ?)|(_ & _ & ->)]; [lia|].
    split; [lia | reflexivity]. }
  destruct m3 as [|m|m] eqn:Em3; [lia | | lia].
  assert (He3le : (e3 <=? 1024 - 53) = true) by (apply Z.leb_le; lia).
  rewrite He3le. exists m, e3. split; [reflexivity|].
  split; [exact Hm3b|]. split; [lia|].
  (* the error bound *)
  assert (Hpow : Zpos m * 2 ^ (e3 - ex) <= m2 * A).
  { destruct Hcases as [(E & Hm & _)|(E & Hm & _)].
    - replace (e3 - ex) with (d - 53) by lia. fold A. rewrite <- Hm. lia.
    - replace (e3 - ex) with (1 + (d - 53)) by lia.
      rewrite pow2_split by lia. fold A. change (2 ^ 1) with 2. lia. }
  assert (Hup : m2 * A <= (m1 + 1) * A)
    by (apply Z.mul_le_mono_nonneg_r; lia).
  lia.
Qed.

Lemma pos_iter_xO (d mx : positive) :
  Zpos (Pos.iter xO mx d) = Zpos mx * 2 ^ Zpos d.
Proof.
  induction d as [|d IH] using Pos.peano_ind.
  - simpl. lia.
  - rewrite Pos.iter_succ, Pos2Z.inj_xO, IH, Pos2Z.inj_succ.
    rewrite Z.pow_succ_r by lia. ring.
Qed.

Import PerformanceProfiler.

Lemma float_of_int_bound (N : Z) :
  1 <= N < 2 ^ 63 ->
  exists mf ef,
    float_of_int N = S754_finite false mf ef
    /\ 2 ^ 52 <= Zpos mf < 2 ^ 53
    /\ -52 <= ef <= 11
    /\ Zpos mf * 2 ^ (ef + 52) <= (2 ^ 52 + 1) * N.
Proof.
  intros [Hlo Hhi]. destruct N as [|p|p]; try lia.
  unfold float_of_int, binary_normalize, binary_round.
  pose proof (digits2_pos_bounds p) as [Hplo Hphi].
  pose proof (digits_le p 63 ltac:(lia) Hhi) as Hd63.
  set (d := Zpos (digits2_pos p)) in *.
  assert (Hd1 : 1 <= d) by (unfold d; lia).
  assert (Hfexp : fexp 53 1024 (d + 0) = d - 53)
    by (unfold fexp, emin; lia).
  rewrite Hfexp. unfold shl_align.
  destruct (d - 53 - 0) as [|s|s] eqn:Hs.
  - (* exactly 53 digits *)
    assert (Hd : d = 53) by lia. rewrite Hd in *.
    destruct (binary_round_aux_bound p 0) as (m & e & Heq & Hm & He & Hb);
      [exact Hplo | lia | fold d; lia |].
    fold d in He. rewrite Hd in He.
    exists m, e. split; [exact Heq|]. split; [exact Hm|]. split; [lia|].
    rewrite Z.sub_0_r in Hb.
    rewrite pow2_split by lia. nia.
  - (* more than 53 digits *)
    assert (Hd : 53 < d) by lia.
    assert (Hp52 : 2 ^ 52 <= Zpos p).
    { eapply Z.le_trans; [|exact Hplo].
      apply Z.pow_le_mono_r; lia. }
    destruct (binary_round_aux_bound p 0) as (m & e & Heq & Hm & He & Hb);
      [exact Hp52 | lia | fold d; lia |].
    fold d in He.
    exists m, e. split; [exact Heq|]. split; [exact Hm|]. split; [lia|].
    rewrite Z.sub_0_r in Hb.
    rewrite pow2_split by lia. nia.
  - (* fewer than 53 digits: the mantissa is shifted left *)
    assert (Hd : Zpos s = 53 - d) by lia.
    pose proof (pos_iter_xO s p) as Hmz. rewrite Hd in Hmz.
    set (mz := Pos.iter xO p s) in *.
    set (B := 2 ^ (53 - d)) in *.
    assert (HB : 0 < B) by (apply Z.pow_pos_nonneg; lia).
    assert (HB1 : 2 ^ (d - 1) * B = 2 ^ 52).
    { unfold B. rewrite <- pow2_split by lia. f_equal. lia. }
    assert (HB2 : 2 ^ d * B = 2 ^ 53).
    { unfold B. rewrite <- pow2_split by lia. f_equal. lia. }
    assert (Hmzb : 2 ^ 52 <= Zpos mz < 2 ^ 53) by nia.
    assert (Hdz : Zpos (digits2_pos mz) = 53).
    { pose proof (digits_gt mz 52 ltac:(lia) (proj1 Hmzb)).
      pose proof (digits_le mz 53 ltac:(lia) (proj2 Hmzb)). lia. }
    destruct (binary_round_aux_bound mz (d - 53))
      as (m & e & Heq & Hm & He & Hb); [lia | lia | lia |].
    rewrite Hdz in He.
    exists m, e. split; [exact Heq|]. split; [exact Hm|]. split; [lia|].
    replace (e + 52) with ((e - (d - 53)) + (d - 1)) by lia.
    rewrite pow2_split by lia.
    set (X := Zpos m * 2 ^ (e - (d - 53))) in *.
    assert (HX : 0 <= X) by (unfold X; apply Z.mul_nonneg_nonneg; [lia|apply Z.pow_nonneg; lia]).
    assert (Hpd : 0 < 2 ^ (d - 1)) by (apply Z.pow_pos_nonneg; lia).
    replace (Zpos m * (2 ^ (e - (d - 53)) * 2 ^ (d - 1)))
      with (X * 2 ^ (d - 1)) by (unfold X; ring).
    (* 2^52 * X <= (2^52+1) * p * B  and  2^(d-1) * B = 2^52 *)
    assert (H1 : 2 ^ 52 * (X * 2 ^ (d - 1))
                 <= (2 ^ 52 + 1) * (Zpos p * B) * 2 ^ (d - 1)).
    { rewrite <- Hmz. nia. }
    replace ((2 ^ 52 + 1) * (Zpos p * B) * 2 ^ (d - 1))
      with ((2 ^ 52 + 1) * Zpos p * (2 ^ (d - 1) * B)) in H1 by ring.
    rewrite HB1 in H1. nia.
Qed.

Import PerformanceProfiler.EventProcessingProfiler.

Lemma percentile_index_bound (n : nat) (mc : positive) :
  (1 <= n)%nat ->
  Z.of_nat n < 2 ^ 63 ->
  below_one mc ->
  exists k,
    percentile_index n (S754_finite false mc (-53)) = Some k
    /\ 0 <= k < Z.of_nat n.
Proof.
  intros Hn1 Hn63 [Hmc Hsmall]. set (N := Z.of_nat n) in *.
  destruct (float_of_int_bound N ltac:(lia))
    as (mf & ef & HF & Hmf & Hef & HFb).
  unfold percentile_index. fold N. rewrite HF.
  unfold float_mul, SFmul. cbn [xorb].
  assert (Hprod : 2 ^ 104 <= Zpos (mf * mc) < 2 ^ 106).
  { rewrite Pos2Z.inj_mul.
    change (2 ^ 104) with (2 ^ 52 * 2 ^ 52).
    change (2 ^ 106) with (2 ^ 53 * 2 ^ 53). nia. }
  pose proof (digits_le (mf * mc) 106 ltac:(lia) (proj2 Hprod)) as Hdp.
  destruct (binary_round_aux_bound (mf * mc) (ef + -53))
    as (mr & er & HR & Hmr & Her & HRb).
  { eapply Z.le_trans; [|exact (proj1 Hprod)]. apply Z.pow_le_mono_r; lia. }
  { lia. }
  { lia. }
  rewrite HR. cbn [int_of_float cond_Zopp].
  eexists. split; [reflexivity|]. split.
  { apply Z.shiftl_nonneg. lia. }
  (* everything in units of 2^-105 *)
  set (X := Zpos mr * 2 ^ (er - (ef + -53))) in *.
  set (Y := Zpos mf * 2 ^ (ef + 52)) in *.
  assert (HX : 0 <= X)
    by (unfold X; apply Z.mul_nonneg_nonneg; [lia | apply Z.pow_nonneg; lia]).
  assert (HY : 0 <= Y)
    by (unfold Y; apply Z.mul_nonneg_nonneg; [lia | apply Z.pow_nonneg; lia]).
  assert (HT : Zpos mr * 2 ^ (er + 105) = X * 2 ^ (ef + 52)).
  { unfold X. rewrite <- Z.mul_assoc, <- pow2_split by lia.
    f_equal. f_equal. lia. }
  assert (Hpe : 0 < 2 ^ (ef + 52)) by (apply Z.pow_pos_nonneg; lia).
  assert (H1 : 2 ^ 52 * (X * 2 ^ (ef + 52))
               <= (2 ^ 52 + 1) * Zpos mc * Y).
  { rewrite Pos2Z.inj_mul in HRb. unfold Y.
    replace ((2 ^ 52 + 1) * Zpos mc * (Zpos mf * 2 ^ (ef + 52)))
      with ((2 ^ 52 + 1) * (Zpos mf * Zpos mc) * 2 ^ (ef + 52)) by ring.
    replace (2 ^ 52 * (X * 2 ^ (ef + 52)))
      with (2 ^ 52 * X * 2 ^ (ef + 52)) by ring.
    apply Z.mul_le_mono_nonneg_r; lia. }
  assert (H2 : (2 ^ 52 + 1) * Zpos mc * Y
               <= (2 ^ 52 + 1) * Zpos mc * ((2 ^ 52 + 1) * N)).
  { apply Z.mul_le_mono_nonneg_l; [|exact HFb]. lia. }
  assert (H3 : (2 ^ 52 + 1) * Zpos mc * ((2 ^ 52 + 1) * N) < 2 ^ 157 * N).
  { replace ((2 ^ 52 + 1) * Zpos mc * ((2 ^ 52 + 1) * N))
      with ((2 ^ 52 + 1) * (2 ^ 52 + 1) * Zpos mc * N) by ring.
    apply Z.mul_lt_mono_pos_r; lia. }
  assert (HTlt : Zpos mr * 2 ^ (er + 105) < 2 ^ 105 * N).
  { rewrite HT. change (2 ^ 157) with (2 ^ 52 * 2 ^ 105) in H3. lia. }
  destruct (Z.le_gt_cases 0 er) as [Hpos|Hneg].
  - rewrite Z.shiftl_mul_pow2 by lia.
    rewrite pow2_split in HTlt by lia.
    change (2 ^ 105) with 40564819207303340847894502572032 in *. lia.
  - rewrite Z.shiftl_div_pow2 by lia.
    set (D := 2 ^ (- er)) in *.
    assert (HD : 0 < D) by (apply Z.pow_pos_nonneg; lia).
    assert (Hsplit : 2 ^ 105 = D * 2 ^ (er + 105)).
    { unfold D. rewrite <- pow2_split by lia. f_equal. lia. }
    assert (Hq : Zpos mr / D * D <= Zpos mr)
      by (rewrite Z.mul_comm; apply Z.mul_div_le; lia).
    assert (Hp2 : 0 < 2 ^ (er + 105)) by (apply Z.pow_pos_nonneg; lia).
    rewrite Hsplit in HTlt.
    set (E := 2 ^ (er + 105)) in *.
    set (Q := Zpos mr / D) in *.
    assert (H5 : Q * D * E <= Zpos mr * E)
      by (apply Z.mul_le_mono_nonneg_r; lia).
    assert (H6 : Q * (D * E) < N * (D * E)) by lia.
    apply (Z.mul_lt_mono_pos_r (D * E)); [apply Z.mul_pos_pos; lia | exact H6].
Qed.

Lemma below_one_0_50 : below_one 4503599627370496.
Proof.
  unfold below_one.
  split; [split; [apply Z.leb_le | apply Z.ltb_lt] | apply Z.ltb_lt];
    reflexivity.
Qed.

Lemma below_one_0_95 : below_one 8556839292003942.
Proof.
  unfold below_one.
  split; [split; [apply Z.leb_le | apply Z.ltb_lt] | apply Z.ltb_lt];
    reflexivity.
Qed.

Lemma below_one_0_99 : below_one 8917127262193582.
Proof.
  unfold below_one.
  split; [split; [apply Z.leb_le | apply Z.ltb_lt] | apply Z.ltb_lt];
    reflexivity.
Qed.

Lemma insert_sorted_length (x : float) (l : list float) :
  List.length (insert_sorted x l) = S (List.length l).
Proof.
  induction l as [|y l IH]; [reflexivity|]. simpl.
  destruct (SFltb y x); simpl; [now rewrite IH | reflexivity].
Qed.

Lemma sorted_length (l : list float) :
  List.length (sorted l) = List.length l.
Proof.
  induction l as [|x l IH]; [reflexivity|].
  simpl. now rewrite insert_sorted_length, IH.
Qed.

Lemma percentile_in_bounds (latencies : list float) (mc : positive) :
  (1 <= List.length latencies)%nat ->
  Z.of_nat (List.length latencies) < 2 ^ 63 ->
  below_one mc ->
  exists x, percentile latencies (S754_finite false mc (-53)) = Some x.
Proof.
  intros Hn1 Hn63 Hmc.
  destruct (percentile_index_bound _ mc Hn1 Hn63 Hmc) as (k & Hk & Hlo & Hhi).
  unfold percentile. rewrite Hk. cbn [mbind option_bind].
  unfold py_index. destruct (Z.leb_spec 0 k) as [_|]; [|lia].
  destruct (nth_error latencies (Z.to_nat k)) as [x|] eqn:Hnth; [eauto|].
  apply nth_error_None in Hnth. lia.
Qed.

End RoundingFacts.

Section GetPercentilesFacts.

Local Open Scope Z_scope.

Import PerformanceProfiler PerformanceProfiler.EventProcessingProfiler.

Variable py_sum : list float -> float.

(** C10.  [get_percentiles] returns the empty map when no latency is
    recorded for the event type; for every number [n >= 1] of recorded
    latencies (below the bound 2^63 on the length of a list) each of the
    indices [int(n * 0.50)], [int(n * 0.95)] and [int(n * 0.99)], computed
    in binary64 arithmetic, is at least 0 and below [n]; so the three
    lookups are in bounds and [get_percentiles] always returns. *)
Theorem get_percentiles_total_and_in_bounds
    (event_latencies : gmap string (list float)) (event_type : string) :
  let recorded := default [] (event_latencies !! event_type) in
  Z.of_nat (List.length recorded) < 2 ^ 63 ->
  (recorded = [] ->
   get_percentiles py_sum event_latencies event_type = Some ∅)
  /\ (forall (n : nat) (p : float),
         (1 <= n)%nat ->
         Z.of_nat n < 2 ^ 63 ->
         In p [float_0_50; float_0_95; float_0_99] ->
         exists k, percentile_index n p = Some k /\ 0 <= k < Z.of_nat n)
  /\ exists result,
       get_percentiles py_sum event_latencies event_type = Some result.
Proof.
  intros recorded Hlen. split; [|split].
  - intros Hnil. unfold get_percentiles. fold recorded. now rewrite Hnil.
  - intros n p Hn1 Hn63 [<-|[<-|[<-|[]]]];
      apply percentile_index_bound; auto using below_one_0_50, below_one_0_95, below_one_0_99.
  - unfold get_percentiles. fold recorded.
    pose proof (sorted_length recorded) as Hsl.
    destruct (sorted recorded) as [|first rest] eqn:Hs; [eauto|].
    assert (Hn1 : (1 <= List.length (first :: rest))%nat) by (simpl; lia).
    assert (Hn63 : Z.of_nat (List.length (first :: rest)) < 2 ^ 63)
      by (rewrite Hsl; exact Hlen).
    destruct (percentile_in_bounds _ _ Hn1 Hn63 below_one_0_50) as [p50 H50].
    destruct (percentile_in_bounds _ _ Hn1 Hn63 below_one_0_95) as [p95 H95].
    destruct (percentile_in_bounds _ _ Hn1 Hn63 below_one_0_99) as [p99 H99].
    unfold float_0_50, float_0_95, float_0_99.
    rewrite H50, H95, H99. cbn [mbind option_bind]. eauto.
Qed.

End GetPercentilesFacts.

Lemma get_percentiles_total_and_in_bounds_witness :
  let py_sum := fun l => fold_left (SFadd 53 1024) l (S754_zero false) in
  let latencies :=
    [PerformanceProfiler.float_of_int 30; PerformanceProfiler.float_of_int 10;
     PerformanceProfiler.float_of_int 20] in
  exists result,
    PerformanceProfiler.EventProcessingProfiler.get_percentiles py_sum
      {[ "trade" := latencies ]} "trade" = Some result.
Proof.
  intros py_sum latencies.
  apply (get_percentiles_total_and_in_bounds py_sum
           {[ "trade" := latencies ]} "trade").
  vm_compute. reflexivity.
Defined.

(** * Further properties of the rules *)

(** ** Substrings of joined windows *)

Section WindowFacts.

Lemma startswith_append (s t p : string) :
  PyStr.startswith s p = true -> PyStr.startswith (String.append s t) p = true.
Proof.
  revert s. induction p as [|a p IH]; intros s H; [reflexivity|].
  destruct s as [|b s]; [discriminate|]. simpl in *.
  apply andb_true_iff in H as [Hab Hp]. now rewrite Hab, (IH _ Hp).
Qed.

Lemma contains_append_l (p s t : string) :
  PyStr.contains p s = true -> PyStr.contains p (String.append s t) = true.
Proof.
  induction s as [|c s IH]; intros H.
  - simpl in H. rewrite orb_false_r in H. destruct p; [|discriminate].
    destruct t; reflexivity.
  - rewrite contains_cons in H.
    change (String.append (String c s) t) with (String c (String.append s t)).
    rewrite contains_cons. apply orb_true_iff in H as [H|H].
    + pose proof (startswith_append _ t _ H) as H'.
      change (String.append (String c s) t)
        with (String c (String.append s t)) in H'.
      now rewrite H'.
    + rewrite (IH H). apply orb_true_r.
Qed.

Lemma contains_append_r (p s t : string) :
  PyStr.contains p t = true -> PyStr.contains p (String.append s t) = true.
Proof.
  intros H. induction s as [|c s IH]; [exact H|].
  change (String.append (String c s) t) with (String c (String.append s t)).
  rewrite contains_cons, IH. apply orb_true_r.
Qed.

(** A substring of one of the joined lines is a substring of the join. *)
Lemma contains_join_nl (p x : string) (l : list string) :
  In x l -> PyStr.contains p x = true ->
  PyStr.contains p (PyStr.join_nl l) = true.
Proof.
  intros Hin Hp. induction l as [|y l IH]; [destruct Hin|].
  destruct l as [|z l].
  - destruct Hin as [->|[]]. exact Hp.
  - change (PyStr.join_nl (y :: z :: l))
      with (String.append y (String "010"%char (PyStr.join_nl (z :: l)))).
    destruct Hin as [->|Hin].
    + now apply contains_append_l.
    + apply contains_append_r.
      rewrite contains_cons, (IH Hin). apply orb_true_r.
Qed.

Lemma lower_append (s t : string) :
  PyStr.lower (String.append s t)
  = String.append (PyStr.lower s) (PyStr.lower t).
Proof. induction s as [|c s IH]; simpl; [reflexivity | now rewrite IH]. Qed.

Lemma lower_join_nl (l : list string) :
  PyStr.lower (PyStr.join_nl l) = PyStr.join_nl (map PyStr.lower l).
Proof.
  induction l as [|y l IH]; [reflexivity|]. destruct l as [|z l];
    [reflexivity|].
  change (PyStr.join_nl (y :: z :: l))
    with (String.append y (String "010"%char (PyStr.join_nl (z :: l)))).
  rewrite lower_append.
  change (PyStr.lower (String "010"%char (PyStr.join_nl (z :: l))))
    with (String "010"%char (PyStr.lower (PyStr.join_nl (z :: l)))).
  rewrite IH. reflexivity.
Qed.

(** The elements of a slice are the elements at its positions. *)
Lemma in_slice {A} (l : list A) (lo hi j : nat) (x : A) :
  nth_error l j = Some x -> lo <= j < hi -> In x (PyStr.slice l lo hi).
Proof.
  intros Hnth [Hlo Hhi]. unfold PyStr.slice.
  apply (nth_error_In _ (j - lo)).
  rewrite nth_error_firstn.
  destruct (Nat.ltb_spec (j - lo) (hi - lo)) as [_|]; [|lia].
  rewrite nth_error_skipn. now replace (lo + (j - lo)) with j by lia.
Qed.

Lemma in_slice_inv {A} (l : list A) (lo hi : nat) (x : A) :
  In x (PyStr.slice l lo hi) ->
  exists j, lo <= j < hi /\ nth_error l j = Some x.
Proof.
  unfold PyStr.slice. intros Hin.
  apply In_nth_error in Hin as [k Hk].
  rewrite nth_error_firstn in Hk.
  destruct (Nat.ltb_spec k (hi - lo)) as [Hlt|]; [|discriminate].
  rewrite nth_error_skipn in Hk. exists (lo + k). split; [lia | exact Hk].
Qed.

(** A substring of a line of the window is a substring of the window,
    also after lowering. *)
Lemma contains_window (p x : string) (lines : list string) (lo hi j : nat) :
  nth_error lines j = Some x -> lo <= j < hi ->
  PyStr.contains p x = true ->
  PyStr.contains p (PyStr.join_nl (PyStr.slice lines lo hi)) = true.
Proof.
  intros Hnth Hj Hp. eapply contains_join_nl; [|exact Hp].
  eapply in_slice; eassumption.
Qed.

Lemma contains_window_lower (p x : string) (lines : list string)
    (lo hi j : nat) :
  nth_error lines j = Some x -> lo <= j < hi ->
  PyStr.contains p (PyStr.lower x) = true ->
  PyStr.contains p (PyStr.lower (PyStr.join_nl (PyStr.slice lines lo hi)))
  = true.
Proof.
  intros Hnth Hj Hp. rewrite lower_join_nl.
  eapply contains_join_nl; [|exact Hp].
  apply in_map. eapply in_slice; eassumption.
Qed.

End WindowFacts.

(** ** rules/performance_rules.py: the checks on the raw text *)

Section TextCheckFacts.

Import PerformanceRules.

(** X2: [_check_circular_references] stops at its first finding. *)
Theorem circular_reference_reported_once
    (file_path : string) (lines : list string) :
  List.length (MemoryLeakDetector._check_circular_references file_path lines)
  <= 1.
Proof.
  unfold MemoryLeakDetector._check_circular_references.
  induction (PyStr.enumerate_from 0 lines) as [|[i line] todo IH];
    simpl; [lia|].
  destruct (_ && _); simpl; [lia | exact IH].
Qed.

(** X3: an append with [while True] on one of the ten lines before it is
    reported as critical at its own line, and the first line of a file is
    never reported as an unbounded collection. *)
Theorem append_after_while_true_flagged
    (file_path content line loop_line : string) (i j : nat) :
  let lines := PyStr.split_nl content in
  (nth_error lines i = Some line ->
   PyStr.contains ".append(" line = true ->
   nth_error lines j = Some loop_line ->
   PyStr.contains "while True" loop_line = true ->
   i - 10 <= j < i ->
   In (mkIssue CRITICAL "Unbounded Collection" file_path (i + 1) false)
      (MemoryLeakDetector.analyze file_path content))
  /\ (forall issue,
         In issue (MemoryLeakDetector.analyze file_path content) ->
         rule issue = "Unbounded Collection" ->
         line_number issue <> 1).
Proof.
  intros lines. split.
  - intros Hi Happend Hj Hloop Hwin.
    unfold MemoryLeakDetector.analyze. fold lines.
    apply in_or_app. right. apply in_or_app. left.
    apply in_flat_map. exists (i, line). split.
    + apply in_enumerate_from. split; [lia|]. now rewrite Nat.sub_0_r.
    + unfold MemoryLeakDetector.unbounded_issue.
      rewrite Happend, (contains_window _ _ _ _ _ _ Hj Hwin Hloop).
      simpl. auto.
  - intros issue Hin Hrule Hline.
    unfold MemoryLeakDetector.analyze in Hin. fold lines in Hin.
    apply in_app_or in Hin as [Hin|Hin]; [|apply in_app_or in Hin as [Hin|Hin]].
    + apply in_flat_map in Hin as [il [_ Hin]].
      apply file_handle_issue_inv in Hin as [-> _]. discriminate.
    + apply in_flat_map in Hin as [[k l] [_ Hin]].
      unfold MemoryLeakDetector.unbounded_issue in Hin.
      destruct (PyStr.contains ".append(" l); [|destruct Hin].
      destruct k as [|k].
      * simpl in Hin. destruct Hin.
      * simpl andb in Hin.
        destruct (PyStr.contains "while True" _); [|destruct Hin].
        destruct Hin as [<-|[]]. simpl in Hline. lia.
    + apply circular_loop_rule in Hin. rewrite Hin in Hrule. discriminate.
Qed.

Lemma append_after_while_true_flagged_witness :
  In (mkIssue CRITICAL "Unbounded Collection" "feed.py" 2 false)
     (MemoryLeakDetector.analyze "feed.py" "while True:
    seen.append(tick)").
Proof.
  exact (proj1 (append_after_while_true_flagged "feed.py" "while True:
    seen.append(tick)" "    seen.append(tick)" "while True:" 1 0)
           eq_refl eq_refl eq_refl eq_refl
           (conj (Nat.le_0_l 0) (Nat.lt_0_succ 0))).
Defined.

(** X4: a line that matches a blocking pattern is reported with high
    severity at its own line when one of the twenty lines before it names
    an event handler, and the first line of a file is never reported. *)
Theorem blocking_call_after_handler_flagged
    (file_path content line handler : string) (pattern : Regex.regex)
    (i j : nat) :
  let lines := PyStr.split_nl content in
  (nth_error lines i = Some line ->
   In pattern LatencyValidator.blocking_patterns ->
   Regex.search pattern line = true ->
   nth_error lines j = Some handler ->
   PyStr.contains "on_event" handler = true
   \/ PyStr.contains "handle_event" handler = true
   \/ PyStr.contains "process_event" handler = true ->
   i - 20 <= j < i ->
   In (mkIssue HIGH "Blocking Operation in Event Handler" file_path (i + 1)
               false)
      (LatencyValidator.analyze file_path content))
  /\ (forall issue,
         In issue (LatencyValidator._check_blocking_operations file_path lines) ->
         line_number issue <> 1).
Proof.
  intros lines. split.
  - intros Hi Hpat Hsearch Hj Hname Hwin.
    unfold LatencyValidator.analyze. fold lines.
    apply in_or_app. left. apply in_flat_map. exists (i, line). split.
    + apply in_enumerate_from. split; [lia|]. now rewrite Nat.sub_0_r.
    + unfold LatencyValidator.blocking_issue.
      assert (Hctx :
                PyStr.contains "on_event"
                  (PyStr.join_nl (PyStr.slice lines (i - 20) i))
                || PyStr.contains "handle_event"
                     (PyStr.join_nl (PyStr.slice lines (i - 20) i))
                || PyStr.contains "process_event"
                     (PyStr.join_nl (PyStr.slice lines (i - 20) i)) = true).
      { destruct Hname as [H|[H|H]];
          rewrite (contains_window _ _ _ _ _ _ Hj Hwin H);
          rewrite ?orb_true_r; reflexivity. }
      rewrite Hctx. apply in_flat_map. exists pattern.
      split; [exact Hpat|]. rewrite Hsearch. simpl. auto.
  - intros issue Hin Hline.
    apply in_flat_map in Hin as [[k l] [_ Hin]].
    unfold LatencyValidator.blocking_issue in Hin.
    destruct k as [|k].
    + simpl in Hin. destruct Hin.
    + destruct (_ || _); [|destruct Hin].
      apply in_flat_map in Hin as [pat [_ Hin]].
      destruct (Regex.search pat l); [|destruct Hin].
      destruct Hin as [<-|[]]. simpl in Hline. lia.
Qed.

Lemma blocking_call_after_handler_flagged_witness :
  In (mkIssue HIGH "Blocking Operation in Event Handler" "bot.py" 2 false)
     (LatencyValidator.analyze "bot.py" "def on_event(event):
    time.sleep(1)").
Proof.
  exact (proj1 (blocking_call_after_handler_flagged "bot.py"
                  "def on_event(event):
    time.sleep(1)" "    time.sleep(1)" "def on_event(event):"
                  (Regex.lit "time.sleep") 1 0)
           eq_refl (or_intror (or_introl eq_refl)) eq_refl eq_refl
           (or_introl eq_refl) (conj (Nat.le_0_l 0) (Nat.lt_0_succ 0))).
Defined.

End TextCheckFacts.

(** ** PerformanceValidator: the summary by severity *)

Section SummaryFacts.

Import PerformanceRules PerformanceRules.PerformanceValidator.

Lemma severity_value_inj (a b : Severity) :
  severity_value a = severity_value b -> a = b.
Proof. destruct a, b; simpl; congruence. Qed.

Lemma by_severity_fold (issues : list PerformanceIssue) (s : Severity) :
  forall d : gmap string nat,
    default 0
      (fold_left
         (fun d issue =>
            let severity := severity_value (severity issue) in
            <[severity := default 0 (d !! severity) + 1]> d)
         issues d !! severity_value s)
    = default 0 (d !! severity_value s)
      + List.length (with_severity s issues).
Proof.
  induction issues as [|issue issues IH]; intros d; simpl; [lia|].
  rewrite IH. destruct (severity_eqb (severity issue) s) eqn:Hs.
  - assert (severity issue = s)
      by (destruct (severity issue), s; simpl in Hs; congruence).
    subst s. rewrite lookup_insert_eq. simpl. lia.
  - rewrite lookup_insert_ne; [reflexivity|].
    intros Heq. apply severity_value_inj in Heq. rewrite Heq in Hs.
    destruct s; discriminate.
Qed.

Lemma severity_partition (issues : list PerformanceIssue) :
  List.length (with_severity CRITICAL issues)
  + List.length (with_severity HIGH issues)
  + List.length (with_severity MEDIUM issues)
  + List.length (with_severity LOW issues)
  = List.length issues.
Proof.
  induction issues as [|issue issues IH]; [reflexivity|].
  unfold with_severity in *. simpl. destruct (severity issue); simpl; lia.
Qed.

(** X5: the four numbers of [get_summary] are the numbers of issues of
    each severity; they add up to the number of issues, and
    [has_critical_issues] holds exactly when the first is not zero. *)
Theorem summary_counts_every_issue_once (issues : list PerformanceIssue) :
  get_summary issues
  = (List.length (with_severity CRITICAL issues),
     List.length (with_severity HIGH issues),
     List.length (with_severity MEDIUM issues),
     List.length (with_severity LOW issues))
  /\ (let '(critical, high, medium, low) := get_summary issues in
      critical + high + medium + low = List.length issues
      /\ (has_critical_issues issues = true <-> 0 < critical)).
Proof.
  assert (Heq : get_summary issues
                = (List.length (with_severity CRITICAL issues),
                   List.length (with_severity HIGH issues),
                   List.length (with_severity MEDIUM issues),
                   List.length (with_severity LOW issues))).
  { unfold get_summary, by_severity.
    rewrite (by_severity_fold issues CRITICAL ∅).
    rewrite (by_severity_fold issues HIGH ∅).
    rewrite (by_severity_fold issues MEDIUM ∅).
    rewrite (by_severity_fold issues LOW ∅).
    rewrite !lookup_empty. reflexivity. }
  split; [exact Heq|]. rewrite Heq. split; [apply severity_partition|].
  unfold has_critical_issues, with_severity.
  induction issues as [|issue issues IH]; simpl.
  - split; [discriminate | lia].
  - destruct (severity_eqb (severity issue) CRITICAL); simpl.
    + split; [lia | reflexivity].
    + apply IH. unfold get_summary, by_severity.
      rewrite (by_severity_fold issues CRITICAL ∅).
      rewrite (by_severity_fold issues HIGH ∅).
      rewrite (by_severity_fold issues MEDIUM ∅).
      rewrite (by_severity_fold issues LOW ∅).
      rewrite !lookup_empty. reflexivity.
Qed.

End SummaryFacts.

(** ** The tree visitors on loop-free, def-free and nested code *)

Section VisitorFacts.

Import PyAst PerformanceRules SyntheticFiles.

Variable file_path : string.

(** X6: a file without a [for] or [while] loop gets no N+1 finding,
    whatever it calls. *)
Theorem no_loop_no_n_plus_one (tree : node) :
  loop_free tree = true ->
  QueryPatternDetector.run file_path tree = [].
Proof.
  intros Hfree. unfold QueryPatternDetector.run.
  rewrite (visit_loop_free file_path tree Hfree). reflexivity.
Qed.

Lemma async_free_children (n : node) :
  async_free n = true ->
  is_async_function_def n = false
  /\ Forall (fun c => async_free c = true) (children n).
Proof.
  unfold async_free. rewrite subnodes_children. simpl.
  intros H. apply andb_true_iff in H as [Hn Hc]. split.
  - now apply negb_true_iff.
  - clear Hn. induction (children n) as [|c l IH]; [constructor|].
    simpl in Hc. rewrite forallb_app in Hc.
    apply andb_true_iff in Hc as [H1 H2]. constructor; auto.
Qed.

Lemma async_free_visit (n : node) :
  async_free n = true ->
  forall st,
    AsyncAwaitValidator.in_async_function st = false ->
    visit (AsyncAwaitValidator.method file_path) n st = st.
Proof.
  induction n as [n IH] using node_children_ind. intros Hfree st Hflag.
  apply async_free_children in Hfree as [Hasync Hfree].
  assert (Hgen : forall st,
             AsyncAwaitValidator.in_async_function st = false ->
             generic_visit (AsyncAwaitValidator.method file_path) n st = st).
  { intros st' Hst'. rewrite generic_visit_children.
    apply (visit_list_preserves (AsyncAwaitValidator.method file_path)
             (fun a b => AsyncAwaitValidator.in_async_function a = false ->
                         b = a));
      [reflexivity | | | exact Hst'].
    - intros a b c Hab Hbc Ha. specialize (Hab Ha). subst b. auto.
    - clear -IH Hfree. induction (children n) as [|c l IHl]; [constructor|].
      inversion IH; inversion Hfree; subst. constructor; auto. }
  rewrite visit_unfold.
  destruct n; try discriminate Hasync;
    cbn [AsyncAwaitValidator.method]; try (apply Hgen; exact Hflag).
  unfold AsyncAwaitValidator.visit_Call. rewrite Hflag. simpl andb.
  apply Hgen. exact Hflag.
Qed.

(** X7: a file without an [async def] gets no Async Pattern finding,
    whatever it calls. *)
Theorem no_async_def_no_async_finding (tree : node) :
  async_free tree = true ->
  AsyncAwaitValidator.run file_path tree = [].
Proof.
  intros Hfree. unfold AsyncAwaitValidator.run.
  rewrite (async_free_visit tree Hfree); reflexivity.
Qed.

Lemma plain_children (n : node) :
  plain n = true ->
  is_loop n = false /\ is_function_def n = false
  /\ Forall (fun c => plain c = true) (children n).
Proof.
  unfold plain. intros H. apply andb_true_iff in H as [Hl Hd].
  apply loop_free_children in Hl as [Hloop Hl].
  apply def_free_children in Hd as [Hdef Hd].
  split; [exact Hloop|]. split; [exact Hdef|].
  induction (children n) as [|c l IH]; [constructor|].
  simpl in Hl. apply andb_true_iff in Hl as [H1 H2].
  inversion Hd; subst. constructor; [now rewrite H1 | auto].
Qed.

(** Code without loops and without [def] leaves the state of
    [AlgorithmComplexityAnalyzer] alone. *)
Lemma plain_visit (n : node) :
  plain n = true ->
  forall st, visit (AlgorithmComplexityAnalyzer.method file_path) n st = st.
Proof.
  induction n as [n IH] using node_children_ind. intros Hplain st.
  apply plain_children in Hplain as (Hloop & Hdef & Hplain).
  assert (Hgen : forall st,
             generic_visit (AlgorithmComplexityAnalyzer.method file_path) n st
             = st).
  { intros st'. rewrite generic_visit_children.
    apply (visit_list_preserves (AlgorithmComplexityAnalyzer.method file_path)
             (fun a b => b = a)); [reflexivity | congruence |].
    clear -IH Hplain. induction (children n) as [|c l IHl]; [constructor|].
    inversion IH; inversion Hplain; subst. constructor; auto. }
  rewrite visit_unfold.
  destruct n; try discriminate Hloop; try discriminate Hdef;
    cbn [AlgorithmComplexityAnalyzer.method]; apply Hgen.
Qed.

Lemma plain_visit_list (l : list node) (st : AlgorithmComplexityAnalyzer.state) :
  forallb plain l = true ->
  visit_list (AlgorithmComplexityAnalyzer.method file_path) l st = st.
Proof.
  revert st. induction l as [|c l IH]; intros st H; [reflexivity|].
  simpl in H. apply andb_true_iff in H as [Hc Hl].
  change (visit_list (AlgorithmComplexityAnalyzer.method file_path) (c :: l) st)
    with (visit_list (AlgorithmComplexityAnalyzer.method file_path) l
            (visit (AlgorithmComplexityAnalyzer.method file_path) c st)).
  rewrite (plain_visit c Hc). now apply IH.
Qed.

Lemma plain_header_nodes (h : loop_header) :
  plain_header h = true ->
  forallb plain
    (match kind h with
     | ForLoop target iter => [target; iter]
     | WhileLoop test => [test]
     end) = true
  /\ forallb plain (before h) = true
  /\ forallb plain (after h) = true
  /\ forallb plain (orelse h) = true.
Proof.
  unfold plain_header, header_nodes. rewrite !forallb_app.
  intros H. apply andb_true_iff in H as [H1 H].
  apply andb_true_iff in H as [H2 H].
  apply andb_true_iff in H as [H3 H4]. auto.
Qed.

(** A nest of loops entered with the counter at [d] adds one finding for
    each of its loops that is entered at depth 3 or more, and returns with
    the counter at [d]. *)
Lemma complexity_nest (headers : list loop_header) (inner : list node) :
  forallb plain_header headers = true ->
  forallb plain inner = true ->
  forall (st : AlgorithmComplexityAnalyzer.state) (d : nat),
    AlgorithmComplexityAnalyzer.nested_loops st = Z.of_nat d ->
    let st' := visit_list (AlgorithmComplexityAnalyzer.method file_path)
                          (nest headers inner) st in
    AlgorithmComplexityAnalyzer.issues st'
    = AlgorithmComplexityAnalyzer.issues st
      ++ map (nesting_issue file_path)
             (List.filter (fun dh => 3 <=? fst dh)
                (PyStr.enumerate_from (S d) headers))
    /\ AlgorithmComplexityAnalyzer.nested_loops st' = Z.of_nat d.
Proof.
  intros Hq Hinner.
  induction headers as [|h headers IH]; intros st d Hd.
  - cbn [nest]. rewrite plain_visit_list by exact Hinner.
    simpl. rewrite app_nil_r. auto.
  - simpl in Hq. apply andb_true_iff in Hq as [Hh Hq]. specialize (IH Hq).
    apply plain_header_nodes in Hh as (Hhead & Hbefore & Hafter & Helse).
    cbv zeta.
    change (visit_list (AlgorithmComplexityAnalyzer.method file_path)
              (nest (h :: headers) inner) st)
      with (visit (AlgorithmComplexityAnalyzer.method file_path)
              (mk_loop h (nest headers inner)) st).
    rewrite visit_unfold.
    assert (Hch : children (mk_loop h (nest headers inner))
                  = match kind h with
                    | ForLoop target iter => [target; iter]
                    | WhileLoop test => [test]
                    end ++ before h ++ nest headers inner ++ after h
                      ++ orelse h).
    { unfold mk_loop. destruct (kind h); simpl; now rewrite <- !app_assoc. }
    assert (Hbody :
              forall st1,
                AlgorithmComplexityAnalyzer.nested_loops st1 = Z.of_nat (S d) ->
                let st2 := generic_visit
                             (AlgorithmComplexityAnalyzer.method file_path)
                             (mk_loop h (nest headers inner)) st1 in
                AlgorithmComplexityAnalyzer.issues st2
                = AlgorithmComplexityAnalyzer.issues st1
                  ++ map (nesting_issue file_path)
                       (List.filter (fun dh => 3 <=? fst dh)
                          (PyStr.enumerate_from (S (S d)) headers))
                /\ AlgorithmComplexityAnalyzer.nested_loops st2
                   = Z.of_nat (S d)).
    { intros st1 Hst1. cbv zeta.
      rewrite generic_visit_children, Hch, !visit_list_app.
      rewrite (plain_visit_list _ st1 Hhead).
      rewrite (plain_visit_list _ st1 Hbefore).
      destruct (IH st1 (S d) Hst1) as [Hi Hn].
      rewrite (plain_visit_list _ _ Hafter).
      rewrite (plain_visit_list _ _ Helse). auto. }
    assert (Hlineno : node_lineno (mk_loop h (nest headers inner)) = lineno h)
      by (unfold mk_loop; destruct (kind h); reflexivity).
    assert (Hge3 : (Z.of_nat d + 1 >=? 3)%Z = (3 <=? S d)).
    { destruct (Z.geb_spec (Z.of_nat d + 1) 3);
        destruct (Nat.leb_spec 3 (S d)); try reflexivity; lia. }
    assert (Hge4 : (Z.of_nat d + 1 >=? 4)%Z = (4 <=? S d)).
    { destruct (Z.geb_spec (Z.of_nat d + 1) 4);
        destruct (Nat.leb_spec 4 (S d)); try reflexivity; lia. }
    cbn [PyStr.enumerate_from List.filter fst].
    unfold mk_loop in *. destruct (kind h) as [target iter|test] eqn:Hk;
      cbn [AlgorithmComplexityAnalyzer.method].
    + unfold AlgorithmComplexityAnalyzer.visit_For.
      cbn [AlgorithmComplexityAnalyzer.issues
             AlgorithmComplexityAnalyzer.nested_loops].
      match goal with
      | |- context [generic_visit _ _ ?s] =>
          destruct (Hbody s) as [Hi Hn]; [cbn; lia|]
      end.
      cbv zeta in Hi, Hn. rewrite Hi, Hn.
      cbn [AlgorithmComplexityAnalyzer.issues]. rewrite Hd, Hge3, Hge4.
      split; [|lia].
      destruct (3 <=? S d); cbn [map app nesting_issue];
        rewrite ?Hk, <- ?app_assoc; cbn [node_lineno]; reflexivity.
    + unfold AlgorithmComplexityAnalyzer.visit_While.
      cbn [AlgorithmComplexityAnalyzer.issues
             AlgorithmComplexityAnalyzer.nested_loops].
      match goal with
      | |- context [generic_visit _ _ ?s] =>
          destruct (Hbody s) as [Hi Hn]; [cbn; lia|]
      end.
      cbv zeta in Hi, Hn. rewrite Hi, Hn.
      cbn [AlgorithmComplexityAnalyzer.issues]. rewrite Hd, Hge3.
      split; [|lia].
      destruct (3 <=? S d); cbn [map app nesting_issue];
        rewrite ?Hk, <- ?app_assoc; cbn [node_lineno]; reflexivity.
Qed.

Lemma filter_enumerate_from_deep {A} (l : list A) (s : nat) :
  3 <= s ->
  List.filter (fun dh : nat * A => 3 <=? fst dh) (PyStr.enumerate_from s l)
  = PyStr.enumerate_from s l.
Proof.
  revert s. induction l as [|x l IH]; intros s Hs; [reflexivity|].
  cbn [PyStr.enumerate_from List.filter fst].
  assert (H3 : (3 <=? s) = true) by (apply Nat.leb_le; lia).
  rewrite H3. f_equal. apply IH. lia.
Qed.

(** X8: on a file made of nested loops (no [def], nothing else that
    loops) [AlgorithmComplexityAnalyzer] reports one Deeply Nested Loops
    finding for each loop from the third on, at that loop's line: medium
    for the third and for every [while], high for a [for] from the fourth
    on. *)
Theorem nested_loops_reported_from_third
    (pre post : list node) (headers : list loop_header) (inner : list node) :
  forallb plain pre = true ->
  forallb plain post = true ->
  forallb plain_header headers = true ->
  forallb plain inner = true ->
  AlgorithmComplexityAnalyzer.run file_path
    (Module (pre ++ nest headers inner ++ post))
  = map (nesting_issue file_path) (skipn 2 (PyStr.enumerate_from 1 headers)).
Proof.
  intros Hpre Hpost Hq Hinner. unfold AlgorithmComplexityAnalyzer.run.
  rewrite visit_unfold.
  cbn [AlgorithmComplexityAnalyzer.method generic_visit].
  rewrite !visit_list_app, (plain_visit_list _ _ Hpre).
  destruct (complexity_nest headers inner Hq Hinner
              AlgorithmComplexityAnalyzer.init 0 eq_refl) as [Hi _].
  cbv zeta in Hi. rewrite (plain_visit_list _ _ Hpost), Hi.
  cbn [AlgorithmComplexityAnalyzer.init AlgorithmComplexityAnalyzer.issues app].
  f_equal.
  destruct headers as [|h1 [|h2 headers]]; try reflexivity.
  cbn [PyStr.enumerate_from List.filter fst Nat.leb skipn].
  now apply filter_enumerate_from_deep.
Qed.

End VisitorFacts.

Lemma nested_loops_reported_from_third_witness :
  let loop line :=
    SyntheticFiles.mkHeader
      (SyntheticFiles.ForLoop (PyAst.Name line "i") (PyAst.Name line "rows"))
      line [] [] [] in
  PerformanceRules.AlgorithmComplexityAnalyzer.run "grid.py"
    (PyAst.Module
       ([] ++ SyntheticFiles.nest [loop 1; loop 2; loop 3; loop 4]
                                   [PyAst.Other 5 []] ++ []))
  = [PerformanceRules.mkIssue PerformanceRules.MEDIUM "Deeply Nested Loops"
                              "grid.py" 3 false;
     PerformanceRules.mkIssue PerformanceRules.HIGH "Deeply Nested Loops"
                              "grid.py" 4 false].
Proof.
  intros loop.
  exact (nested_loops_reported_from_third "grid.py" [] []
           [loop 1; loop 2; loop 3; loop 4] [PyAst.Other 5 []]
           eq_refl eq_refl eq_refl eq_refl).
Defined.

Lemma no_loop_no_n_plus_one_witness :
  PerformanceRules.QueryPatternDetector.run "orders.py"
    (PyAst.Module
       [PyAst.Other 1
          [PyAst.Call 1 (PyAst.Attribute 1 (PyAst.Name 1 "db") "query")
                      [] []]])
  = [].
Proof.
  apply no_loop_no_n_plus_one. reflexivity.
Defined.

Lemma no_async_def_no_async_finding_witness :
  PerformanceRules.AsyncAwaitValidator.run "worker.py"
    (PyAst.Module
       [PyAst.FunctionDef 1 "work" (PyAst.Other 1 [])
          [PyAst.Other 2 [PyAst.Call 2 (PyAst.Name 2 "sleep") [] []]]
          [] None])
  = [].
Proof.
  apply no_async_def_no_async_finding. reflexivity.
Defined.

(** ** QueryPatternDetector: the loop context *)

Section LoopContextFacts.

Import PyAst PerformanceRules.
Import PerformanceRules.QueryPatternDetector.

Variable file_path : string.

(** X9: on every tree, a visit of [QueryPatternDetector] that starts with
    a non-negative [loop_depth] and [in_loop] set exactly when the depth is
    positive returns with the same [loop_depth] and the same [in_loop]. *)
Theorem query_detector_context_restored (n : node) :
  forall st,
    (0 <= loop_depth st)%Z ->
    in_loop st = (0 <? loop_depth st)%Z ->
    loop_depth (visit (method file_path) n st) = loop_depth st
    /\ in_loop (visit (method file_path) n st) = in_loop st.
Proof.
  induction n as [n IH] using node_children_ind. intros st Hpos Hflag.
  assert (Hgen : forall st,
             (0 <= loop_depth st)%Z ->
             in_loop st = (0 <? loop_depth st)%Z ->
             loop_depth (generic_visit (method file_path) n st) = loop_depth st
             /\ in_loop (generic_visit (method file_path) n st) = in_loop st).
  { intros st' Hpos' Hflag'. rewrite generic_visit_children.
    apply (visit_list_preserves (method file_path)
             (fun a b => (0 <= loop_depth a)%Z ->
                         in_loop a = (0 <? loop_depth a)%Z ->
                         loop_depth b = loop_depth a /\ in_loop b = in_loop a));
      [auto | | | exact Hpos' | exact Hflag'].
    - intros a b c Hab Hbc Ha1 Ha2. destruct (Hab Ha1 Ha2) as [Hd Hf].
      destruct Hbc as [Hd' Hf']; [lia | congruence |]. split; congruence.
    - clear -IH. induction IH as [|c l Hc _ IHl]; constructor; auto. }
  rewrite visit_unfold.
  destruct n; cbn [method]; try (apply Hgen; assumption).
  - unfold visit_For, visit_loop.
    match goal with
    | |- context [generic_visit _ _ ?s] =>
        destruct (Hgen s) as [Hd Hf];
        [cbn; lia | cbn; symmetry; apply Z.ltb_lt; lia |]
    end.
    cbn [loop_depth in_loop] in *. rewrite Hd, Hf.
    replace (loop_depth st + 1 - 1)%Z with (loop_depth st) by lia.
    destruct (Z.eqb_spec (loop_depth st) 0) as [Hz|Hz];
      cbn [loop_depth in_loop].
    + rewrite Hflag, Hz. auto.
    + rewrite Hflag. split; [reflexivity|].
      symmetry. apply Z.ltb_lt. lia.
  - unfold visit_While, visit_loop.
    match goal with
    | |- context [generic_visit _ _ ?s] =>
        destruct (Hgen s) as [Hd Hf];
        [cbn; lia | cbn; symmetry; apply Z.ltb_lt; lia |]
    end.
    cbn [loop_depth in_loop] in *. rewrite Hd, Hf.
    replace (loop_depth st + 1 - 1)%Z with (loop_depth st) by lia.
    destruct (Z.eqb_spec (loop_depth st) 0) as [Hz|Hz];
      cbn [loop_depth in_loop].
    + rewrite Hflag, Hz. auto.
    + rewrite Hflag. split; [reflexivity|].
      symmetry. apply Z.ltb_lt. lia.
  - unfold visit_Call.
    match goal with
    | |- context [generic_visit _ _ ?s] =>
        assert (Hs : loop_depth s = loop_depth st /\ in_loop s = in_loop st)
    end.
    { destruct (in_loop st) eqn:E; [destruct (is_db_call _)|];
        cbn [loop_depth in_loop]; rewrite ?E; auto. }
    destruct Hs as [Hs1 Hs2].
    match goal with
    | |- context [generic_visit _ _ ?s] =>
        destruct (Hgen s) as [Hd Hf]; [lia | congruence |]
    end.
    split; congruence.
Qed.

End LoopContextFacts.

Lemma query_detector_context_restored_witness :
  PerformanceRules.QueryPatternDetector.loop_depth
    (PyAst.visit (PerformanceRules.QueryPatternDetector.method "jobs.py")
       def_in_loop PerformanceRules.QueryPatternDetector.init)
  = 0%Z
  /\ PerformanceRules.QueryPatternDetector.in_loop
       (PyAst.visit (PerformanceRules.QueryPatternDetector.method "jobs.py")
          def_in_loop PerformanceRules.QueryPatternDetector.init)
     = false.
Proof.
  apply (query_detector_context_restored "jobs.py" def_in_loop
           PerformanceRules.QueryPatternDetector.init); vm_compute;
    [discriminate | reflexivity].
Defined.

Lemma complexity_counter_restored_without_def_witness :
  PerformanceRules.AlgorithmComplexityAnalyzer.nested_loops
    (PyAst.visit (PerformanceRules.AlgorithmComplexityAnalyzer.method "grid.py")
       (four_nested for_loop)
       PerformanceRules.AlgorithmComplexityAnalyzer.init)
  = 0%Z.
Proof.
  apply (complexity_counter_restored_without_def "grid.py"
           (four_nested for_loop) eq_refl
           PerformanceRules.AlgorithmComplexityAnalyzer.init).
Defined.

(** ** Lines of a file *)

Section LineFacts.

Lemma flat_map_nil {A B} (f : A -> list B) (l : list A) :
  (forall x, In x l -> f x = []) -> flat_map f l = [].
Proof.
  induction l as [|x l IH]; intros H; [reflexivity|].
  simpl. rewrite (H x (or_introl eq_refl)), IH; [reflexivity|].
  intros y Hy. apply H. now right.
Qed.

Lemma in_flat_map_enumerate {B} (f : nat * string -> list B)
    (lines : list string) (y : B) :
  In y (flat_map f (PyStr.enumerate_from 1 lines))
  <-> exists k line, nth_error lines k = Some line /\ In y (f (k + 1, line)).
Proof.
  rewrite in_flat_map. split.
  - intros [[i line] [Hin Hy]]. apply in_enumerate_from in Hin as [Hi Hnth].
    exists (i - 1), line. split; [exact Hnth|].
    now replace (i - 1 + 1) with i by lia.
  - intros [k [line [Hnth Hy]]]. exists (k + 1, line). split; [|exact Hy].
    apply in_enumerate_from. split; [lia|].
    now replace (k + 1 - 1) with k by lia.
Qed.

Lemma Forall_flat_map_enumerate {B} (f : nat * string -> list B)
    (P : B -> Prop) (lines : list string) :
  (forall k line, nth_error lines k = Some line ->
                  List.Forall P (f (k + 1, line))) ->
  List.Forall P (flat_map f (PyStr.enumerate_from 1 lines)).
Proof.
  intros H. apply List.Forall_forall. intros y Hy.
  apply in_flat_map_enumerate in Hy as [k [line [Hnth Hy]]].
  specialize (H k line Hnth). rewrite List.Forall_forall in H. auto.
Qed.

Lemma split_nl_aux_not_nil (cur s : string) : PyStr.split_nl_aux cur s <> [].
Proof.
  revert cur. induction s as [|c s IH]; intros cur; simpl; [discriminate|].
  destruct (Ascii.eqb c "010"%char); [discriminate | apply IH].
Qed.

Lemma append_cons (x : ascii) (a b : string) :
  String.append (String x a) b = String x (String.append a b).
Proof. reflexivity. Qed.

Lemma rev_app_append (a b t : string) :
  String.append (String.rev_app a b) t = String.rev_app a (String.append b t).
Proof.
  revert b. induction a as [|x a IH]; intros b; [reflexivity|].
  change (String.rev_app (String x a) b) with (String.rev_app a (String x b)).
  now rewrite IH.
Qed.

Lemma join_split_nl_aux (cur s : string) :
  PyStr.join_nl (PyStr.split_nl_aux cur s) = String.rev_app cur s.
Proof.
  revert cur. induction s as [|c s IH]; intros cur; [reflexivity|].
  simpl PyStr.split_nl_aux. destruct (Ascii.eqb_spec c "010"%char) as [->|Hc].
  - pose proof (split_nl_aux_not_nil EmptyString s) as Hne.
    specialize (IH EmptyString).
    destruct (PyStr.split_nl_aux EmptyString s) as [|y ys];
      [congruence|].
    change (PyStr.join_nl (String.rev cur :: y :: ys))
      with (String.append (String.rev cur)
              (String "010"%char (PyStr.join_nl (y :: ys)))).
    rewrite IH. unfold String.rev. rewrite rev_app_append. reflexivity.
  - rewrite IH. reflexivity.
Qed.

(** ['\n'.join(content.split('\n')) == content] *)
Lemma join_split_nl (content : string) :
  PyStr.join_nl (PyStr.split_nl content) = content.
Proof. unfold PyStr.split_nl. now rewrite join_split_nl_aux. Qed.

Lemma contains_line_content (p line content : string) :
  In line (PyStr.split_nl content) ->
  PyStr.contains p line = true -> PyStr.contains p content = true.
Proof.
  intros Hin Hp. rewrite <- (join_split_nl content).
  eapply contains_join_nl; eassumption.
Qed.

End LineFacts.

(** ** rules/security_rules.py *)

Section SecurityFacts.

Import SecurityRules SecurityRules.SecurityValidator.

(** X10: a file whose path contains [.env] gets no API-key finding,
    whatever it holds. *)
Theorem api_key_env_path_never_flagged (file_path content : string) :
  PyStr.contains ".env" file_path = true ->
  validate_api_key_exposure file_path content = [].
Proof.
  intros Henv. unfold validate_api_key_exposure.
  apply flat_map_nil. intros [i line] _. unfold api_key_issues.
  rewrite Henv, orb_true_r. reflexivity.
Qed.

(** X11: every API-key finding is a critical, auto-fixable
    [api_key_exposure] issue of the scanned file, on a line of the file
    that is not a comment and mentions none of [os.getenv], [environ] and
    [${]. *)
Theorem api_key_findings_sound (file_path content : string) :
  List.Forall
    (fun issue =>
       issue = mkIssue "critical" "api_key_exposure" file_path
                       (line_number issue) true
       /\ exists line,
            nth_error (PyStr.split_nl content) (line_number issue - 1)
            = Some line
            /\ 1 <= line_number issue
            /\ PyStr.strip_startswith line "#" = false
            /\ PyStr.contains "os.getenv" line = false
            /\ PyStr.contains "environ" line = false
            /\ PyStr.contains "${" line = false)
    (validate_api_key_exposure file_path content).
Proof.
  unfold validate_api_key_exposure. apply Forall_flat_map_enumerate.
  intros k line Hnth. apply List.Forall_forall. intros issue Hin.
  unfold api_key_issues in Hin.
  destruct (PyStr.strip_startswith line "#") eqn:Hc; [destruct Hin|].
  destruct (PyStr.contains ".env" file_path); [destruct Hin|].
  simpl orb in Hin.
  apply in_flat_map in Hin as [kp [_ Hin]].
  apply in_flat_map in Hin as [m [_ Hin]].
  destruct (PyStr.contains "os.getenv" line) eqn:H1; [destruct Hin|].
  destruct (PyStr.contains "environ" line) eqn:H2; [destruct Hin|].
  destruct (PyStr.contains "${" line) eqn:H3; [destruct Hin|].
  destruct Hin as [<-|[]]. cbn [line_number]. split; [reflexivity|].
  exists line. replace (k + 1 - 1) with k by lia.
  repeat (split; [first [assumption | lia]|]). assumption.
Qed.

(** X12: every SQL-injection finding is a critical issue on a line of
    the file that is not a comment, holds no [?] placeholder and mentions
    [query] or [sql] in some case. *)
Theorem sql_injection_findings_sound (file_path content : string) :
  List.Forall
    (fun issue =>
       issue = mkIssue "critical" "sql_injection_risk" file_path
                       (line_number issue) false
       /\ exists line,
            nth_error (PyStr.split_nl content) (line_number issue - 1)
            = Some line
            /\ 1 <= line_number issue
            /\ PyStr.strip_startswith line "#" = false
            /\ PyStr.contains "?" line = false
            /\ (PyStr.contains "query" (PyStr.lower line)
                || PyStr.contains "sql" (PyStr.lower line)) = true)
    (validate_sql_injection file_path content).
Proof.
  unfold validate_sql_injection. apply Forall_flat_map_enumerate.
  intros k line Hnth. apply List.Forall_forall. intros issue Hin.
  unfold sql_issues in Hin.
  destruct (PyStr.strip_startswith line "#") eqn:Hc; [destruct Hin|].
  destruct (PyStr.contains "?" line) eqn:Hq; [destruct Hin|].
  simpl orb in Hin.
  destruct (PyStr.contains "%s" line && PyStr.contains "," line);
    [destruct Hin|].
  apply in_flat_map in Hin as [vp [_ Hin]].
  destruct (PyStr.contains "query" (PyStr.lower line)
            || PyStr.contains "sql" (PyStr.lower line)) eqn:Hk;
    [|destruct Hin].
  destruct (Regex.search (snd vp) line); [|destruct Hin].
  destruct Hin as [<-|[]]. cbn [line_number]. split; [reflexivity|].
  exists line. replace (k + 1 - 1) with k by lia.
  repeat (split; [first [assumption | lia]|]). assumption.
Qed.

(** X13: every sensitive-data finding is a high issue on a line of the
    file that mentions [print], [log] or [logger]. *)
Theorem sensitive_logging_findings_sound (file_path content : string) :
  List.Forall
    (fun issue =>
       issue = mkIssue "high" "sensitive_data_exposure" file_path
                       (line_number issue) false
       /\ exists line,
            nth_error (PyStr.split_nl content) (line_number issue - 1)
            = Some line
            /\ 1 <= line_number issue
            /\ (PyStr.contains "print" line || PyStr.contains "log" line
                || PyStr.contains "logger" line) = true)
    (validate_sensitive_data_logging file_path content).
Proof.
  unfold validate_sensitive_data_logging. apply Forall_flat_map_enumerate.
  intros k line Hnth. apply List.Forall_forall. intros issue Hin.
  unfold sensitive_issues in Hin.
  destruct (PyStr.contains "print" line || PyStr.contains "log" line
            || PyStr.contains "logger" line) eqn:Hp;
    cbn [negb] in Hin; [|destruct Hin].
  apply in_flat_map in Hin as [dp [_ Hin]].
  destruct (Regex.search (snd dp) line); [|destruct Hin].
  destruct Hin as [<-|[]]. cbn [line_number]. split; [reflexivity|].
  exists line. replace (k + 1 - 1) with k by lia.
  split; [assumption|]. split; [lia | assumption].
Qed.

(** X14: in a file whose path contains [events] or [data], a line gets
    an insider-trading finding exactly when it names one of the suspicious
    sources, in any mix of upper and lower case. *)
Theorem insider_source_flagged_in_any_case
    (file_path content : string) (k : nat) (line : string) :
  (PyStr.contains "events" file_path || PyStr.contains "data" file_path)
  = true ->
  nth_error (PyStr.split_nl content) k = Some line ->
  (In (mkIssue "critical" "insider_trading_risk" file_path (k + 1) false)
      (validate_insider_trading_prevention file_path content)
   <-> existsb (fun source => PyStr.contains source (PyStr.lower line))
               suspicious_sources = true).
Proof.
  intros Hpath Hnth. unfold validate_insider_trading_prevention.
  replace (negb (PyStr.contains "events" file_path)
           && negb (PyStr.contains "data" file_path)) with false
    by (rewrite <- negb_orb, Hpath; reflexivity).
  rewrite in_flat_map_enumerate, existsb_exists. split.
  - intros [k' [line' [Hnth' Hin]]]. unfold insider_issues in Hin.
    apply in_flat_map in Hin as [source [Hs Hin]].
    destruct (PyStr.contains source (PyStr.lower line')) eqn:Hc;
      [|destruct Hin].
    destruct Hin as [Heq|[]].
    assert (k' = k) as -> by (injection Heq; lia).
    assert (line' = line) as -> by congruence.
    exists source. auto.
  - intros [source [Hs Hc]]. exists k, line. split; [exact Hnth|].
    unfold insider_issues. apply in_flat_map. exists source.
    split; [exact Hs|]. rewrite Hc. now left.
Qed.

(** X15: a [def] line that mentions [api] or [endpoint] gets a
    missing-authentication finding exactly when none of the ten lines that
    follow it mentions [auth] or [token]; the [def] line itself and the
    lines before it are not looked at. *)
Theorem authentication_looks_at_next_ten_lines
    (file_path content : string) (k : nat) (line : string) :
  nth_error (PyStr.split_nl content) k = Some line ->
  PyStr.contains "def " line = true ->
  (PyStr.contains "api" (PyStr.lower line)
   || PyStr.contains "endpoint" (PyStr.lower line)) = true ->
  (In (mkIssue "high" "missing_authentication" file_path (k + 1) false)
      (validate_authentication file_path content)
   <-> forall j later,
         k < j <= k + 10 ->
         nth_error (PyStr.split_nl content) j = Some later ->
         mentions_auth later = false).
Proof.
  intros Hnth Hdef Hapi. unfold validate_authentication. cbv zeta.
  rewrite (contains_line_content "def " line content
             (nth_error_In _ _ Hnth) Hdef), orb_true_r.
  rewrite in_flat_map_enumerate.
  assert (Hwin : existsb mentions_auth
                   (auth_window (PyStr.split_nl content) (k + 1)) = false
                 <-> forall j later,
                       k < j <= k + 10 ->
                       nth_error (PyStr.split_nl content) j = Some later ->
                       mentions_auth later = false).
  { split.
    - intros Hex j later Hj Hl.
      destruct (mentions_auth later) eqn:Hm; [|reflexivity].
      rewrite <- Hex. symmetry. apply existsb_exists. exists later.
      split; [|exact Hm]. unfold auth_window.
      apply (in_slice _ _ _ j); [exact Hl|].
      assert (j < List.length (PyStr.split_nl content))
        by (apply nth_error_Some; congruence).
      lia.
    - intros Hall.
      destruct (existsb mentions_auth
                  (auth_window (PyStr.split_nl content) (k + 1))) eqn:Hex;
        [|reflexivity].
      apply existsb_exists in Hex as [later [Hin Hm]].
      apply in_slice_inv in Hin as [j [Hj Hl]].
      rewrite (Hall j later) in Hm; [discriminate | lia | exact Hl]. }
  rewrite <- Hwin. split.
  - intros [k' [line' [Hnth' Hin]]]. unfold authentication_issues in Hin.
    destruct (_ && _); [|destruct Hin].
    destruct (existsb mentions_auth
                (auth_window (PyStr.split_nl content) (k' + 1))) eqn:Hex;
      [destruct Hin|].
    destruct Hin as [Heq|[]].
    assert (k' = k) as -> by (injection Heq; lia). exact Hex.
  - intros Hex. exists k, line. split; [exact Hnth|].
    unfold authentication_issues. rewrite Hdef, Hapi, Hex. now left.
Qed.

End SecurityFacts.

Lemma api_key_env_path_never_flagged_witness :
  SecurityRules.SecurityValidator.validate_api_key_exposure
    "config/.env.example" coinbase_api_key_line = [].
Proof.
  apply (api_key_env_path_never_flagged "config/.env.example"
           coinbase_api_key_line).
  reflexivity.
Defined.

Lemma insider_source_flagged_in_any_case_witness :
  In (SecurityRules.mkIssue "critical" "insider_trading_risk"
        "data/feed.py" 2 false)
     (SecurityRules.SecurityValidator.validate_insider_trading_prevention
        "data/feed.py"
        (PyStr.join_nl ["import feed"; "src = load('Corporate_Insider')"])).
Proof.
  apply (insider_source_flagged_in_any_case "data/feed.py"
           (PyStr.join_nl ["import feed"; "src = load('Corporate_Insider')"])
           1 "src = load('Corporate_Insider')");
    reflexivity.
Defined.

Lemma authentication_looks_at_next_ten_lines_witness :
  In (SecurityRules.mkIssue "high" "missing_authentication" "app.py" 1 false)
     (SecurityRules.SecurityValidator.validate_authentication "app.py"
        (PyStr.join_nl ["def api_orders(token):"; "    return orders"])).
Proof.
  apply (authentication_looks_at_next_ten_lines "app.py"
           (PyStr.join_nl ["def api_orders(token):"; "    return orders"])
           0 "def api_orders(token):");
    [reflexivity | reflexivity | reflexivity |].
  intros j later Hj Hlater.
  destruct j as [|[|j]]; [lia | | destruct j; discriminate Hlater].
  injection Hlater as <-. reflexivity.
Defined.

(** ** rules/tax_rules.py: the wash-sale window *)

Section WashSaleFacts.

Import TaxRules TaxRules.TaxValidator.

(** X16: a line that itself holds a sign of the window before the sale
    ([before] in any case, or [-30]) and a sign of the window after it
    ([after] in any case, [+30], or the letters [and] anywhere, as in
    [handler]) never gets a wash-sale finding, whatever the lines around
    it hold. *)
Theorem wash_sale_line_with_both_directions_passes
    (file_path content : string) (k : nat) (line : string) :
  nth_error (PyStr.split_nl content) k = Some line ->
  (PyStr.contains "before" (PyStr.lower line)
   || PyStr.contains "-30" line) = true ->
  (PyStr.contains "after" (PyStr.lower line)
   || PyStr.contains "+30" line || PyStr.contains "and" line) = true ->
  List.Forall (fun issue => line_number issue <> k + 1)
              (validate_wash_sale_detection file_path content).
Proof.
  intros Hnth Hb Ha. unfold validate_wash_sale_detection. cbv zeta.
  apply Forall_flat_map_enumerate. intros k' line' Hnth'.
  apply List.Forall_forall. intros issue Hin. unfold wash_sale_issue in Hin.
  destruct (PyStr.contains "wash_sale" (PyStr.lower line')
            || (PyStr.contains "30" line'
                && PyStr.contains "day" (PyStr.lower line')));
    [|destruct Hin].
  cbv zeta in Hin.
  destruct (Nat.eq_dec k' k) as [->|Hne].
  - assert (Hk : k < List.length (PyStr.split_nl content))
      by (apply nth_error_Some; congruence).
    assert (Hj : k + 1 - 3 <= k
                 < Nat.min (List.length (PyStr.split_nl content)) (k + 1 + 3))
      by lia.
    unfold wash_sale_context in Hin.
    assert (Hbefore :
              (PyStr.contains "before"
                 (PyStr.lower
                    (PyStr.join_nl
                       (PyStr.slice (PyStr.split_nl content) (k + 1 - 3)
                          (Nat.min (List.length (PyStr.split_nl content))
                                   (k + 1 + 3)))))
               || PyStr.contains "-30"
                    (PyStr.join_nl
                       (PyStr.slice (PyStr.split_nl content) (k + 1 - 3)
                          (Nat.min (List.length (PyStr.split_nl content))
                                   (k + 1 + 3))))) = true).
    { apply orb_true_iff in Hb as [Hb|Hb].
      - rewrite (contains_window_lower "before" line _ _ _ k Hnth Hj Hb).
        reflexivity.
      - rewrite (contains_window "-30" line _ _ _ k Hnth Hj Hb).
        apply orb_true_r. }
    assert (Hafter :
              (PyStr.contains "after"
                 (PyStr.lower
                    (PyStr.join_nl
                       (PyStr.slice (PyStr.split_nl content) (k + 1 - 3)
                          (Nat.min (List.length (PyStr.split_nl content))
                                   (k + 1 + 3)))))
               || PyStr.contains "+30"
                    (PyStr.join_nl
                       (PyStr.slice (PyStr.split_nl content) (k + 1 - 3)
                          (Nat.min (List.length (PyStr.split_nl content))
                                   (k + 1 + 3))))
               || PyStr.contains "and"
                    (PyStr.join_nl
                       (PyStr.slice (PyStr.split_nl content) (k + 1 - 3)
                          (Nat.min (List.length (PyStr.split_nl content))
                                   (k + 1 + 3))))) = true).
    { apply orb_true_iff in Ha as [Ha|Ha];
        [apply orb_true_iff in Ha as [Ha|Ha]|].
      - rewrite (contains_window_lower "after" line _ _ _ k Hnth Hj Ha).
        reflexivity.
      - rewrite (contains_window "+30" line _ _ _ k Hnth Hj Ha).
        rewrite orb_true_r. reflexivity.
      - rewrite (contains_window "and" line _ _ _ k Hnth Hj Ha).
        apply orb_true_r. }
    rewrite Hbefore, Hafter in Hin. cbn [andb negb] in Hin. destruct Hin.
  - destruct (negb _); [|destruct Hin].
    destruct Hin as [<-|[]]. cbn [line_number]. lia.
Qed.

End WashSaleFacts.

Lemma wash_sale_line_with_both_directions_passes_witness :
  List.Forall (fun issue => TaxRules.line_number issue <> 1)
    (TaxRules.TaxValidator.validate_wash_sale_detection "tax.py"
       "def wash_sale_handler(days_before):").
Proof.
  apply (wash_sale_line_with_both_directions_passes "tax.py"
           "def wash_sale_handler(days_before):" 0
           "def wash_sale_handler(days_before):");
    reflexivity.
Defined.

(** ** rules/trading_rules.py *)

Section RegexFacts.

Lemma ends_lit_i (p s rest : string) :
  In rest (Regex.ends (Regex.lit_i p) s) ->
  PyStr.startswith (PyStr.lower s) (PyStr.lower p) = true.
Proof.
  revert s. induction p as [|c p IH]; intros s Hin; [reflexivity|].
  assert (Hhead : forall mid,
             In mid (Regex.ends
                       (Regex.Chr (fun x => Ascii.eqb (PyStr.lower_char x)
                                                      (PyStr.lower_char c))) s) ->
             exists x, s = String x mid
                       /\ PyStr.lower_char c = PyStr.lower_char x).
  { intros mid Hm. simpl in Hm. destruct s as [|x s']; [destruct Hm|].
    destruct (Ascii.eqb_spec (PyStr.lower_char x) (PyStr.lower_char c))
      as [He|]; [|destruct Hm].
    destruct Hm as [<-|[]]. eauto. }
  destruct p as [|d p].
  - apply Hhead in Hin as [x [-> He]]. simpl. rewrite He, Ascii.eqb_refl.
    reflexivity.
  - change (Regex.lit_i (String c (String d p)))
      with (Regex.Seq
              (Regex.Chr (fun x => Ascii.eqb (PyStr.lower_char x)
                                             (PyStr.lower_char c)))
              (Regex.lit_i (String d p))) in Hin.
    change (In rest (flat_map (Regex.ends (Regex.lit_i (String d p)))
                       (Regex.ends
                          (Regex.Chr (fun x => Ascii.eqb (PyStr.lower_char x)
                                                         (PyStr.lower_char c)))
                          s))) in Hin.
    apply in_flat_map in Hin as [mid [Hm Hin]].
    apply Hhead in Hm as [x [-> He]]. apply IH in Hin.
    change (PyStr.lower (String x mid))
      with (String (PyStr.lower_char x) (PyStr.lower mid)).
    change (PyStr.lower (String c (String d p)))
      with (String (PyStr.lower_char c) (PyStr.lower (String d p))).
    change (Ascii.eqb (PyStr.lower_char c) (PyStr.lower_char x)
            && PyStr.startswith (PyStr.lower mid) (PyStr.lower (String d p))
            = true).
    rewrite He, Ascii.eqb_refl, Hin. reflexivity.
Qed.

(** a line that the pattern [kelly|fraction|position_size] finds under
    [re.IGNORECASE] holds one of the three words once lowered *)
Lemma kelly_pattern_search (line : string) :
  Regex.search TradingRules.KellyCriterionValidator.kelly_pattern line = true ->
  (PyStr.contains "kelly" (PyStr.lower line)
   || PyStr.contains "fraction" (PyStr.lower line)
   || PyStr.contains "position_size" (PyStr.lower line)) = true.
Proof.
  induction line as [|c line IH]; intros H.
  - vm_compute in H. discriminate.
  - simpl Regex.search in H.
    destruct (Regex.match_at TradingRules.KellyCriterionValidator.kelly_pattern
                (String c line)) eqn:Hm.
    + clear H IH. unfold Regex.match_at in Hm.
      destruct (Regex.ends TradingRules.KellyCriterionValidator.kelly_pattern
                  (String c line)) as [|rest l] eqn:He; [discriminate|].
      assert (Hin : In rest (Regex.ends
                               TradingRules.KellyCriterionValidator.kelly_pattern
                               (String c line)))
        by (rewrite He; now left).
      change (In rest
                (Regex.ends (Regex.lit_i "kelly") (String c line)
                 ++ Regex.ends (Regex.lit_i "fraction") (String c line)
                 ++ Regex.ends (Regex.lit_i "position_size") (String c line)))
        in Hin.
      rewrite !in_app_iff in Hin.
      destruct Hin as [Hin|[Hin|Hin]]; apply ends_lit_i in Hin;
        change (PyStr.lower (String c line))
          with (String (PyStr.lower_char c) (PyStr.lower line)) in *;
        rewrite !(contains_cons _ (PyStr.lower_char c));
        change (PyStr.lower "kelly") with "kelly" in *;
        change (PyStr.lower "fraction") with "fraction" in *;
        change (PyStr.lower "position_size") with "position_size" in *;
        rewrite Hin; rewrite ?orb_true_r; reflexivity.
    + specialize (IH H).
      change (PyStr.lower (String c line))
        with (String (PyStr.lower_char c) (PyStr.lower line)).
      rewrite !(contains_cons _ (PyStr.lower_char c)).
      apply orb_true_iff in IH as [IH|IH];
        [apply orb_true_iff in IH as [IH|IH]|];
        rewrite IH; rewrite ?orb_true_r; reflexivity.
Qed.

End RegexFacts.

Section TradingFacts.

Import TradingRules.

Lemma formula_loop_no_keyword (file_path : string) (lines : list string)
    (todo : list (nat * string)) (found : bool) :
  (forall il, In il todo ->
              Regex.search KellyCriterionValidator.kelly_pattern (snd il)
              = false) ->
  KellyCriterionValidator.formula_loop file_path lines todo found
  = ([], found).
Proof.
  induction todo as [|[i line] todo IH]; intros H; [reflexivity|].
  pose proof (H (i, line) (or_introl eq_refl)) as Hs. simpl snd in Hs.
  simpl. rewrite Hs.
  apply IH. intros il Hil. apply H. now right.
Qed.

Lemma in_enumerate_snd {A} (l : list A) (start : nat) (il : nat * A) :
  In il (PyStr.enumerate_from start l) -> In (snd il) l.
Proof.
  destruct il as [i x]. intros H. apply in_enumerate_from in H as [_ H].
  eapply nth_error_In. exact H.
Qed.

(** X17: a file none of whose lines mentions [kelly], [fraction] or
    [position_size], in any case, gets exactly one finding from
    [KellyCriterionValidator.analyze]: the high "Kelly Criterion Missing"
    at line 1. *)
Theorem kelly_missing_is_the_only_finding (file_path content : string) :
  (forall line, In line (PyStr.split_nl content) ->
                (PyStr.contains "kelly" (PyStr.lower line)
                 || PyStr.contains "fraction" (PyStr.lower line)
                 || PyStr.contains "position_size" (PyStr.lower line))
                = false) ->
  KellyCriterionValidator.analyze file_path content
  = [mkIssue HIGH "Kelly Criterion Missing" file_path 1 false].
Proof.
  intros H. unfold KellyCriterionValidator.analyze. cbv zeta.
  set (lines := PyStr.split_nl content) in *.
  assert (Hk : forall line, In line lines ->
                 PyStr.contains "kelly" (PyStr.lower line) = false
                 /\ PyStr.contains "position_size" (PyStr.lower line) = false).
  { intros line Hl. specialize (H line Hl).
    apply orb_false_iff in H as [H H3]. apply orb_false_iff in H as [H1 H2].
    auto. }
  unfold KellyCriterionValidator._validate_kelly_formula.
  rewrite formula_loop_no_keyword.
  2:{ intros il Hil. apply in_enumerate_snd in Hil.
      destruct (Regex.search KellyCriterionValidator.kelly_pattern (snd il))
        eqn:Hs; [|reflexivity].
      apply kelly_pattern_search in Hs. rewrite (H _ Hil) in Hs.
      discriminate. }
  unfold KellyCriterionValidator._validate_kelly_fraction,
    KellyCriterionValidator._validate_kelly_edge_cases.
  rewrite !flat_map_nil; [reflexivity | |].
  - intros [i line] Hil. apply in_enumerate_snd in Hil.
    destruct (Hk _ Hil) as [H1 H2].
    unfold KellyCriterionValidator.edge_case_issues.
    simpl snd in H1, H2. rewrite H1, H2. reflexivity.
  - intros [i line] Hil. apply in_enumerate_snd in Hil.
    destruct (Hk _ Hil) as [H1 H2].
    unfold KellyCriterionValidator.fraction_issue.
    simpl snd in H1. rewrite H1. reflexivity.
Qed.

(** X18: a file none of whose lines names a daily or monthly loss
    limit, a drawdown or a position limit gets exactly the three "Missing"
    findings of [RiskLimitValidator.analyze], in the order daily
    (critical), monthly (high), drawdown (medium), all at line 1. *)
Theorem risk_limits_missing_findings (file_path content : string) :
  (forall line, In line (PyStr.split_nl content) ->
                RiskLimitValidator.is_daily_limit line = false
                /\ RiskLimitValidator.is_monthly_limit line = false
                /\ RiskLimitValidator.is_drawdown line = false
                /\ RiskLimitValidator.is_position_limit line = false) ->
  RiskLimitValidator.analyze file_path content
  = [mkIssue CRITICAL "Daily Loss Limit Missing" file_path 1 false;
     mkIssue HIGH "Monthly Loss Limit Missing" file_path 1 false;
     mkIssue MEDIUM "Drawdown Limit Missing" file_path 1 false].
Proof.
  intros H. unfold RiskLimitValidator.analyze. cbv zeta.
  set (lines := PyStr.split_nl content) in *.
  assert (Hex : forall f : string -> bool,
             (forall line, In line lines -> f line = false) ->
             existsb f lines = false).
  { intros f Hf. destruct (existsb f lines) eqn:He; [|reflexivity].
    apply existsb_exists in He as [line [Hl Hfl]].
    rewrite (Hf line Hl) in Hfl. discriminate. }
  unfold RiskLimitValidator._validate_daily_limit,
    RiskLimitValidator._validate_monthly_limit,
    RiskLimitValidator._validate_drawdown_limit,
    RiskLimitValidator._validate_position_limits.
  cbv zeta.
  rewrite (Hex RiskLimitValidator.is_daily_limit),
    (Hex RiskLimitValidator.is_monthly_limit),
    (Hex RiskLimitValidator.is_drawdown);
    try (intros line Hl; apply (H line Hl)).
  rewrite !flat_map_nil; [reflexivity | | |].
  - intros [i line] Hil. apply in_enumerate_snd in Hil.
    unfold RiskLimitValidator.position_issue. simpl snd in Hil.
    destruct (H _ Hil) as (_ & _ & _ & ->). reflexivity.
  - intros [i line] Hil. apply in_enumerate_snd in Hil.
    unfold RiskLimitValidator.drawdown_issue. simpl snd in Hil.
    destruct (H _ Hil) as (_ & _ & -> & _). reflexivity.
  - intros [i line] Hil. apply in_enumerate_snd in Hil.
    unfold RiskLimitValidator.daily_issue. simpl snd in Hil.
    destruct (H _ Hil) as (-> & _). reflexivity.
Qed.

(** X19: [EventScoringValidator.analyze] and with it
    [TradingValidator.validate] raise [TypeError] on every file: the first
    scoring check subtracts a set from a list, and [validate] has run the
    Kelly, risk and consensus validators by then but returns none of
    their findings. *)
Theorem trading_validate_always_raises (file_path content : string) :
  EventScoringValidator.analyze file_path content = Raised TypeError
  /\ TradingValidator.validate file_path content = Raised TypeError.
Proof. split; reflexivity. Qed.

End TradingFacts.

Lemma kelly_missing_is_the_only_finding_witness :
  TradingRules.KellyCriterionValidator.analyze "sizing.py"
    (PyStr.join_nl ["def size(balance):"; "    return balance / 10"])
  = [TradingRules.mkIssue TradingRules.HIGH "Kelly Criterion Missing"
       "sizing.py" 1 false].
Proof.
  apply (kelly_missing_is_the_only_finding "sizing.py"
           (PyStr.join_nl ["def size(balance):"; "    return balance / 10"])).
  intros line [<-|[<-|[]]]; reflexivity.
Defined.

Lemma risk_limits_missing_findings_witness :
  TradingRules.RiskLimitValidator.analyze "sizing.py"
    (PyStr.join_nl ["def size(balance):"; "    return balance / 10"])
  = [TradingRules.mkIssue TradingRules.CRITICAL "Daily Loss Limit Missing"
       "sizing.py" 1 false;
     TradingRules.mkIssue TradingRules.HIGH "Monthly Loss Limit Missing"
       "sizing.py" 1 false;
     TradingRules.mkIssue TradingRules.MEDIUM "Drawdown Limit Missing"
       "sizing.py" 1 false].
Proof.
  apply (risk_limits_missing_findings "sizing.py"
           (PyStr.join_nl ["def size(balance):"; "    return balance / 10"])).
  intros line [<-|[<-|[]]]; repeat split; reflexivity.
Defined.

(** ** scanners/performance_profiler.py: the profiler state *)

Section ProfilerFacts.

Import PerformanceProfiler PerformanceProfiler.EventProcessingProfiler.

Lemma record_spec (self : profiler) (et : string) (x : float)
    (event_type : string) :
  default [] (event_latencies (record self et x) !! event_type)
  = default [] (event_latencies self !! event_type)
    ++ (if String.eqb et event_type then [x] else [])
  /\ default 0%Z (event_counts (record self et x) !! event_type)
     = (default 0%Z (event_counts self !! event_type)
        + (if String.eqb et event_type then 1 else 0))%Z.
Proof.
  unfold record, record_event_processing. cbn [event_latencies event_counts].
  destruct (String.eqb_spec et event_type) as [->|Hne].
  - rewrite !lookup_insert_eq. cbn [default]. auto.
  - rewrite !lookup_insert_ne by exact Hne.
    rewrite List.app_nil_r, Z.add_0_r. auto.
Qed.

Lemma record_fold_spec (events : list (string * float)) (self : profiler)
    (event_type : string) :
  let final := fold_left (fun s e => record s (fst e) (snd e)) events self in
  default [] (event_latencies final !! event_type)
  = default [] (event_latencies self !! event_type)
    ++ recorded_for event_type events
  /\ default 0%Z (event_counts final !! event_type)
     = (default 0%Z (event_counts self !! event_type)
        + Z.of_nat (List.length (recorded_for event_type events)))%Z.
Proof.
  cbv zeta. revert self.
  induction events as [|[et x] events IH]; intros self.
  - unfold recorded_for. simpl. rewrite List.app_nil_r, Z.add_0_r. auto.
  - cbn [fold_left fst snd]. destruct (IH (record self et x)) as [IH1 IH2].
    destruct (record_spec self et x event_type) as [R1 R2].
    rewrite IH1, IH2, R1, R2. unfold recorded_for.
    cbn [List.filter fst]. destruct (String.eqb et event_type).
    + cbn [map snd List.length]. rewrite <- List.app_assoc. split;
        [reflexivity | lia].
    + rewrite List.app_nil_r. split; [reflexivity | lia].
Qed.

(** X24: after any run of [record_event_processing] calls on a new
    profiler, the latencies kept for an event type are the recorded ones
    in the order of the calls, and the count of the type is their number:
    the two dictionaries never disagree. *)
Theorem recorded_latencies_and_counts_agree
    (events : list (string * float)) (event_type : string) :
  default [] (event_latencies (record_all events) !! event_type)
  = recorded_for event_type events
  /\ default 0%Z (event_counts (record_all events) !! event_type)
     = Z.of_nat
         (List.length
            (default [] (event_latencies (record_all events) !! event_type))).
Proof.
  destruct (record_fold_spec events new_profiler event_type) as [H1 H2].
  fold (record_all events) in H1, H2.
  change (event_latencies new_profiler) with (∅ : gmap string (list float))
    in H1.
  change (event_counts new_profiler) with (∅ : gmap string Z) in H2.
  rewrite lookup_empty in H1. rewrite lookup_empty in H2.
  cbn [default app] in H1, H2.
  rewrite H1, H2. split; [reflexivity | lia].
Qed.

Lemma in_insert_sorted (x y : float) (l : list float) :
  In y (insert_sorted x l) <-> y = x \/ In y l.
Proof.
  induction l as [|z l IH]; simpl.
  - intuition auto.
  - destruct (SFltb z x); simpl; rewrite ?IH; intuition auto.
Qed.

Lemma in_sorted (y : float) (l : list float) : In y (sorted l) <-> In y l.
Proof.
  induction l as [|x l IH]; simpl; [reflexivity|].
  rewrite in_insert_sorted, IH. intuition auto.
Qed.

Lemma fold_left_pick (f : float -> float -> float) :
  (forall m x, f m x = m \/ f m x = x) ->
  forall rest first, In (fold_left f rest first) (first :: rest).
Proof.
  intros Hf. induction rest as [|x rest IH]; intros first; [now left|].
  cbn [fold_left]. destruct (IH (f first x)) as [H|H].
  - destruct (Hf first x) as [E|E].
    + left. congruence.
    + right. left. congruence.
  - right. right. exact H.
Qed.

Lemma percentile_in (l : list float) (p x : float) :
  percentile l p = Some x -> In x l.
Proof.
  unfold percentile. destruct (percentile_index _ _) as [k|]; [|discriminate].
  cbn [mbind option_bind]. unfold py_index.
  destruct (0 <=? k)%Z; [apply nth_error_In|].
  destruct (0 <=? _)%Z; [apply nth_error_In | discriminate].
Qed.

Section Percentiles.

Variable py_sum : list float -> float.

(** X25: the [p50], [p95], [p99], [min] and [max] that
    [get_percentiles] returns for an event type are latencies recorded for
    that type. *)
Theorem percentiles_are_recorded_latencies
    (latencies : gmap string (list float)) (event_type key : string)
    (result : gmap string float) (x : float) :
  get_percentiles py_sum latencies event_type = Some result ->
  In key ["p50"; "p95"; "p99"; "min"; "max"] ->
  result !! key = Some x ->
  In x (default [] (latencies !! event_type)).
Proof.
  intros Hget Hkey Hx. unfold get_percentiles in Hget. cbv zeta in Hget.
  apply in_sorted.
  destruct (sorted (default [] (latencies !! event_type)))
    as [|first rest] eqn:Hs.
  - injection Hget as <-. rewrite lookup_empty in Hx. discriminate.
  - destruct (percentile (first :: rest) float_0_50) as [p50|] eqn:H50;
      [|discriminate].
    destruct (percentile (first :: rest) float_0_95) as [p95|] eqn:H95;
      [|discriminate].
    destruct (percentile (first :: rest) float_0_99) as [p99|] eqn:H99;
      [|discriminate].
    cbn [mbind option_bind] in Hget. injection Hget as <-.
    destruct Hkey as [<-|[<-|[<-|[<-|[<-|[]]]]]].
    + rewrite lookup_insert_eq in Hx. injection Hx as <-.
      eapply percentile_in; eassumption.
    + rewrite lookup_insert_ne, lookup_insert_eq in Hx by discriminate.
      injection Hx as <-. eapply percentile_in; eassumption.
    + rewrite !lookup_insert_ne, lookup_insert_eq in Hx by discriminate.
      injection Hx as <-. eapply percentile_in; eassumption.
    + do 3 (rewrite lookup_insert_ne in Hx by discriminate).
      rewrite lookup_insert_eq in Hx. injection Hx as <-.
      apply fold_left_pick. intros m y. destruct (SFltb y m); auto.
    + do 4 (rewrite lookup_insert_ne in Hx by discriminate).
      rewrite lookup_insert_eq in Hx. injection Hx as <-.
      apply fold_left_pick. intros m y. destruct (SFltb m y); auto.
Qed.

End Percentiles.

Lemma percentile_index_0_99_small :
  forallb (fun n => match percentile_index n float_0_99 with
                    | Some k => (k =? Z.of_nat n - 1)%Z
                    | None => false
                    end) (seq 1 100) = true.
Proof. vm_compute. reflexivity. Qed.

Lemma percentile_0_99_small (latencies : list float) :
  1 <= List.length latencies <= 100 ->
  percentile latencies float_0_99
  = nth_error latencies (List.length latencies - 1).
Proof.
  intros Hn. pose proof percentile_index_0_99_small as Hall.
  rewrite forallb_forall in Hall.
  specialize (Hall (List.length latencies)).
  unfold percentile.
  destruct (percentile_index (List.length latencies) float_0_99) as [k|];
    [|discriminate Hall; apply in_seq; lia].
  assert (Hk : (k =? Z.of_nat (List.length latencies) - 1)%Z = true)
    by (apply Hall; apply in_seq; lia).
  apply Z.eqb_eq in Hk. subst k. cbn [mbind option_bind]. unfold py_index.
  destruct (Z.leb_spec 0 (Z.of_nat (List.length latencies) - 1)); [|lia].
  f_equal. lia.
Qed.

Section SmallSamples.

Variable py_sum : list float -> float.

(** X26: for an event type with at least one and at most 100 recorded
    latencies, [get_percentiles] returns, and its [p99] entry is the last
    element of the sorted latencies: the index [int(n * 0.99)] is
    [n - 1]. *)
Theorem p99_of_up_to_100_samples_is_the_last
    (latencies : gmap string (list float)) (event_type : string) :
  let recorded := default [] (latencies !! event_type) in
  1 <= List.length recorded <= 100 ->
  exists result,
    get_percentiles py_sum latencies event_type = Some result
    /\ result !! "p99"
       = nth_error (sorted recorded) (List.length recorded - 1).
Proof.
  intros recorded Hn. unfold get_percentiles. fold recorded. cbv zeta.
  pose proof (sorted_length recorded) as Hsl.
  pose proof (percentile_0_99_small (sorted recorded)) as H99.
  rewrite Hsl in H99. specialize (H99 Hn).
  destruct (sorted recorded) as [|first rest] eqn:Hs;
    [simpl in Hsl; lia|].
  assert (Hn1 : 1 <= List.length (first :: rest)) by (simpl; lia).
  assert (Hn63 : (Z.of_nat (List.length (first :: rest)) < 2 ^ 63)%Z).
  { rewrite Hsl. apply (Z.le_lt_trans _ 100); [lia | reflexivity]. }
  destruct (percentile_in_bounds _ _ Hn1 Hn63 below_one_0_50) as [p50 H50].
  destruct (percentile_in_bounds _ _ Hn1 Hn63 below_one_0_95) as [p95 H95].
  destruct (percentile_in_bounds _ _ Hn1 Hn63 below_one_0_99) as [p99 H99'].
  unfold float_0_50, float_0_95, float_0_99 in *.
  rewrite H50, H95, H99'. cbn [mbind option_bind].
  eexists. split; [reflexivity|].
  do 2 (rewrite lookup_insert_ne by discriminate).
  rewrite lookup_insert_eq. congruence.
Qed.

End SmallSamples.

End ProfilerFacts.

Lemma percentiles_are_recorded_latencies_witness :
  let py_sum := fun l => fold_left (SFadd 53 1024) l (S754_zero false) in
  let latencies :=
    [PerformanceProfiler.float_of_int 30; PerformanceProfiler.float_of_int 10;
     PerformanceProfiler.float_of_int 20] in
  In (PerformanceProfiler.float_of_int 20)
     (default [] (({[ "trade" := latencies ]}
                   : gmap string (list PerformanceProfiler.float))
                  !! "trade")).
Proof.
  intros py_sum latencies.
  eapply (percentiles_are_recorded_latencies py_sum
            {[ "trade" := latencies ]} "trade" "p50");
    [reflexivity | left; reflexivity | vm_compute; reflexivity].
Defined.

Lemma p99_of_up_to_100_samples_is_the_last_witness :
  let py_sum := fun l => fold_left (SFadd 53 1024) l (S754_zero false) in
  let latencies :=
    [PerformanceProfiler.float_of_int 30; PerformanceProfiler.float_of_int 10;
     PerformanceProfiler.float_of_int 20] in
  exists result,
    PerformanceProfiler.EventProcessingProfiler.get_percentiles py_sum
      {[ "trade" := latencies ]} "trade" = Some result
    /\ result !! "p99" = Some (PerformanceProfiler.float_of_int 30).
Proof.
  intros py_sum latencies.
  destruct (p99_of_up_to_100_samples_is_the_last py_sum
              {[ "trade" := latencies ]} "trade") as [result [Hget Hp99]].
  - vm_compute. split; [lia|]. do 97 apply le_S. apply le_n.
  - exists result. split; [exact Hget|]. rewrite Hp99. vm_compute.
    reflexivity.
Defined.
